(** * firecracker-rce: the code-execution service, embedded and checked

  The repository holds three JavaScript sources:
  - [index.js]: the HTTP handler [POST /execute] with its own response
    cache [outputCache];
  - [firecracker-runner.js] ("Updated version"): a runner with a
    concurrency counter and direct execution;
  - a second, "Enhanced version" of [firecracker-runner.js]: the runner
    with a result cache, a process registry and three execution paths
    (Firecracker, Docker, the in-process [vm] sandbox).

  Each is embedded below in a module of its own ([Index], [RunnerV1],
  [Runner]).  Everything the code asks of Node and of the operating
  system (file operations, child processes, the [vm] module) is a field
  of the record [Host]: the theorems quantify over every host.  An
  [async] function is a function from the state to the way it ends
  (returned, thrown, never settled) and the state it leaves; calls run
  one after the other, and a call that never settles leaves the state
  it had reached. *)

From Stdlib Require Import ZArith String Ascii List Bool Lia.
From stdpp Require Import base gmap sets list strings pretty.

#[global] Set Warnings "-clear-no-such-hyp".

Open Scope string_scope.
Open Scope Z_scope.

(** ** JavaScript strings *)

Module JsString.

(** A string is held as the bytes of its UTF-8 form.

    The white space and the line terminators of ECMAScript that one byte
    encodes: TAB, LF, VT, FF, CR and the space. *)
Definition is_space (c : ascii) : bool :=
  let n := nat_of_ascii c in
  ((9 <=? n) && (n <=? 13))%nat || (n =? 32)%nat.

(** Those of three bytes: U+1680, U+2000 to U+200A, U+2028, U+2029,
    U+202F, U+205F, U+3000 and U+FEFF. *)
Definition is_wide_space (b1 b2 b3 : nat) : bool :=
  ((b1 =? 225) && (b2 =? 154) && (b3 =? 128)
   || (b1 =? 226) && (b2 =? 128)
      && ((128 <=? b3) && (b3 <=? 138) || (b3 =? 168) || (b3 =? 169) || (b3 =? 175))
   || (b1 =? 226) && (b2 =? 129) && (b3 =? 159)
   || (b1 =? 227) && (b2 =? 128) && (b3 =? 128)
   || (b1 =? 239) && (b2 =? 187) && (b3 =? 191))%nat.

(** The number of bytes of the white-space code point [s] starts with, 0
    when it starts with none.  The one of two bytes is U+00A0. *)
Definition leading_space (s : string) : nat :=
  match s with
  | String c1 s1 =>
      if is_space c1 then 1%nat
      else
        match s1 with
        | String c2 s2 =>
            if ((nat_of_ascii c1 =? 194) && (nat_of_ascii c2 =? 160))%nat then 2%nat
            else
              match s2 with
              | String c3 _ =>
                  if is_wide_space (nat_of_ascii c1) (nat_of_ascii c2) (nat_of_ascii c3)
                  then 3%nat else 0%nat
              | EmptyString => 0%nat
              end
        | EmptyString => 0%nat
        end
  | EmptyString => 0%nat
  end.

(** The same from the end, on the bytes in reverse order. *)
Definition trailing_space (reversed : string) : nat :=
  match reversed with
  | String c3 s1 =>
      if is_space c3 then 1%nat
      else
        match s1 with
        | String c2 s2 =>
            if ((nat_of_ascii c2 =? 194) && (nat_of_ascii c3 =? 160))%nat then 2%nat
            else
              match s2 with
              | String c1 _ =>
                  if is_wide_space (nat_of_ascii c1) (nat_of_ascii c2) (nat_of_ascii c3)
                  then 3%nat else 0%nat
              | EmptyString => 0%nat
              end
        | EmptyString => 0%nat
        end
  | EmptyString => 0%nat
  end.

Fixpoint skip (n : nat) (s : string) : string :=
  match n, s with
  | Datatypes.S n', String _ s' => skip n' s'
  | _, _ => s
  end.

(** Code points are taken off while [space] finds one; [fuel] is the
    length of the string, one more than it can take. *)
Fixpoint strip (space : string -> nat) (fuel : nat) (s : string) : string :=
  match fuel with
  | O => s
  | Datatypes.S fuel' =>
      match space s with
      | O => s
      | n => strip space fuel' (skip n s)
      end
  end.

Definition reverse (s : string) : string :=
  string_of_list_ascii (rev (list_ascii_of_string s)).

Definition trimStart (s : string) : string :=
  strip leading_space (String.length s) s.

Definition trimEnd (s : string) : string :=
  reverse (strip trailing_space (String.length s) (reverse s)).

(** [s.trim()] *)
Definition trim (s : string) : string := trimEnd (trimStart s).

(** [s.includes(sub)] *)
Fixpoint includes (sub s : string) : bool :=
  String.prefix sub s ||
  match s with
  | EmptyString => false
  | String _ s' => includes sub s'
  end.

(** [parts.join(sep)] *)
Fixpoint join (sep : string) (parts : list string) : string :=
  match parts with
  | [] => ""
  | [p] => p
  | p :: rest => p +:+ sep +:+ join sep rest
  end.

(** [path.join(dir, name)] for a directory and a plain file name. *)
Definition path_join (dir name : string) : string := dir +:+ "/" +:+ name.

End JsString.

(** ** MD5, as [crypto.createHash('md5').update(code).digest('hex')] *)

Module MD5.

Definition mask32 (x : Z) : Z := Z.land x 4294967295.

Definition rotl (x : Z) (c : Z) : Z :=
  mask32 (Z.lor (Z.shiftl x c) (Z.shiftr (mask32 x) (32 - c))).

Definition shifts : list Z :=
  [7; 12; 17; 22; 7; 12; 17; 22; 7; 12; 17; 22; 7; 12; 17; 22;
   5; 9; 14; 20; 5; 9; 14; 20; 5; 9; 14; 20; 5; 9; 14; 20;
   4; 11; 16; 23; 4; 11; 16; 23; 4; 11; 16; 23; 4; 11; 16; 23;
   6; 10; 15; 21; 6; 10; 15; 21; 6; 10; 15; 21; 6; 10; 15; 21].

Definition sines : list Z :=
  [3614090360; 3905402710; 606105819; 3250441966; 4118548399; 1200080426;
   2821735955; 4249261313; 1770035416; 2336552879; 4294925233; 2304563134;
   1804603682; 4254626195; 2792965006; 1236535329; 4129170786; 3225465664;
   643717713; 3921069994; 3593408605; 38016083; 3634488961; 3889429448;
   568446438; 3275163606; 4107603335; 1163531501; 2850285829; 4243563512;
   1735328473; 2368359562; 4294588738; 2272392833; 1839030562; 4259657740;
   2763975236; 1272893353; 4139469664; 3200236656; 681279174; 3936430074;
   3572445317; 76029189; 3654602809; 3873151461; 530742520; 3299628645;
   4096336452; 1126891415; 2878612391; 4237533241; 1700485571; 2399980690;
   4293915773; 2240044497; 1873313359; 4264355552; 2734768916; 1309151649;
   4149444226; 3174756917; 718787259; 3951481745].

Definition bytes_of (s : string) : list Z :=
  map (fun c => Z.of_nat (nat_of_ascii c)) (list_ascii_of_string s).

(** Little-endian bytes of [x], [n] of them. *)
Fixpoint le_bytes (n : nat) (x : Z) : list Z :=
  match n with
  | O => []
  | S n' => Z.land x 255 :: le_bytes n' (Z.shiftr x 8)
  end.

Fixpoint le_word (bs : list Z) : Z :=
  match bs with
  | [] => 0
  | b :: bs' => b + 256 * le_word bs'
  end.

Definition pad (msg : list Z) : list Z :=
  let len := Z.of_nat (length msg) in
  let zeros := Z.to_nat ((55 - len) mod 64) in
  msg ++ [128] ++ repeat 0 zeros ++ le_bytes 8 (8 * len).

Fixpoint chunks (k : nat) (size : nat) (bs : list Z) : list (list Z) :=
  match k with
  | O => []
  | S k' => firstn size bs :: chunks k' size (skipn size bs)
  end.

Definition words_of_block (block : list Z) : list Z :=
  map le_word (chunks 16 4 block).

Definition round (m : list Z) (st : Z * Z * Z * Z) (i : Z) : Z * Z * Z * Z :=
  let '(a, b, c, d) := st in
  let '(f, g) :=
    if i <? 16 then (Z.lor (Z.land b c) (Z.land (Z.lxor b 4294967295) d), i)
    else if i <? 32 then (Z.lor (Z.land d b) (Z.land (Z.lxor d 4294967295) c), (5 * i + 1) mod 16)
    else if i <? 48 then (Z.lxor (Z.lxor b c) d, (3 * i + 5) mod 16)
    else (Z.lxor c (Z.lor b (Z.lxor d 4294967295)), (7 * i) mod 16) in
  let k := nth (Z.to_nat i) sines 0 in
  let s := nth (Z.to_nat i) shifts 0 in
  let x := mask32 (a + f + k + nth (Z.to_nat g) m 0) in
  (d, mask32 (b + rotl x s), b, c).

Definition block_step (st : Z * Z * Z * Z) (block : list Z) : Z * Z * Z * Z :=
  let m := words_of_block block in
  let '(a0, b0, c0, d0) := st in
  let '(a, b, c, d) := fold_left (round m) (map Z.of_nat (seq 0 64)) st in
  (mask32 (a0 + a), mask32 (b0 + b), mask32 (c0 + c), mask32 (d0 + d)).

Definition hex_digit (n : Z) : ascii :=
  nth (Z.to_nat n) (list_ascii_of_string "0123456789abcdef") "0"%char.

Definition hex_byte (b : Z) : string :=
  String (hex_digit (Z.shiftr b 4)) (String (hex_digit (Z.land b 15)) EmptyString).

Definition digest_hex (s : string) : string :=
  let padded := pad (bytes_of s) in
  let blocks := chunks (length padded / 64) 64 padded in
  let '(a, b, c, d) :=
    fold_left block_step blocks (1732584193, 4023233417, 2562383102, 271733878) in
  String.concat ""
    (map hex_byte (le_bytes 4 a ++ le_bytes 4 b ++ le_bytes 4 c ++ le_bytes 4 d)).

End MD5.

(** ** JavaScript's [Map]: an insertion-ordered dictionary

    [set] on a key already present replaces its value where it stands;
    a new key goes to the end; [keys()] runs in insertion order. *)

Module JsMap.

Section Ops.
Context {V : Type}.

Fixpoint get (m : list (string * V)) (k : string) : option V :=
  match m with
  | [] => None
  | (k', v) :: m' => if String.eqb k' k then Some v else get m' k
  end.

Definition has (m : list (string * V)) (k : string) : bool :=
  match get m k with Some _ => true | None => false end.

Fixpoint set (m : list (string * V)) (k : string) (v : V) : list (string * V) :=
  match m with
  | [] => [(k, v)]
  | (k', v') :: m' =>
      if String.eqb k' k then (k', v) :: m' else (k', v') :: set m' k v
  end.

Fixpoint delete (m : list (string * V)) (k : string) : list (string * V) :=
  match m with
  | [] => []
  | (k', v') :: m' => if String.eqb k' k then m' else (k', v') :: delete m' k
  end.

Definition size (m : list (string * V)) : nat := length m.

Definition keys (m : list (string * V)) : list string := map fst m.

(** [m.keys().next().value] *)
Definition first_key (m : list (string * V)) : option string :=
  match m with
  | [] => None
  | (k, _) :: _ => Some k
  end.

Definition clear (m : list (string * V)) : list (string * V) := [].

End Ops.

End JsMap.

(** ** Results, errors and the outcome of an asynchronous call *)

(** The object every execution path returns.  A field the object literal
    does not have is [None]. *)
Record result := mkResult {
  success : bool;
  output : string;
  error : string;
  mode : option string;
  fromCache : option bool;
  vmID : option string;
  containerId : option string;
  executionId : option string
}.

(** [{ ...r, fromCache: true }] *)
Definition with_fromCache (r : result) : result :=
  mkResult (success r) (output r) (error r) (mode r) (Some true)
           (vmID r) (containerId r) (executionId r).

(** [r.mode = m] *)
Definition with_mode (m : string) (r : result) : result :=
  mkResult (success r) (output r) (error r) (Some m) (fromCache r)
           (vmID r) (containerId r) (executionId r).

(** A thrown object whose [message] is a text: whether it is an instance
    of the [Error] of the code that catches it, and its message. *)
Record js_error := mkError { is_Error : bool; message : string }.

(** What a [catch] block around a script is handed: an object whose
    [message] is a text (an error object, of the runner's realm or of the
    script's), or [null] or [undefined].  Reading [message] on one of
    these two throws a [TypeError], whose text is [type_error].  (A thrown
    number or string, whose [message] reads as [undefined], is not among
    the cases.) *)
Inductive js_thrown :=
| ThrownObject (e : js_error)
| ThrownNullish (type_error : string).

(** How an [async] function ends: its promise resolves, rejects, or never
    settles. *)
Inductive completion (A : Type) : Type :=
| Returned (a : A)
| Thrown (e : js_error)
| Pending.
Arguments Returned {A} a.
Arguments Thrown {A} e.
Arguments Pending {A}.

(** ** The host: Node and the operating system *)

(** The commands the sources hand to [child_process.exec]. *)
Inductive command :=
| WhichFirecracker
| DockerVersion
| DockerPull
| NodeFile (codeFile : string)
| DockerRun (container codeFile : string) (memoryLimit timeout_ms : Z)
| DockerRm (container : string).

(** [execPromise(cmd)]: resolves with the two streams (the text Node has
    decoded them to), rejects, or (no [timeout] option is ever passed to
    [exec]) never settles. *)
Inductive exec_outcome :=
| ExecResolved (stdout stderr : string)
| ExecRejected (msg : string)
| ExecPending.

Inductive console_kind := ConsoleLog | ConsoleError | ConsoleWarn.

(** One call of a [console] method: its arguments, each already turned
    into text ([JSON.stringify] for objects, [String] otherwise). *)
Definition console_call : Type := console_kind * list string.

(** [script.runInContext(context, {timeout})], after [new vm.Script(code)]:
    the script ends, throws, or is interrupted at the time limit. *)
Inductive vm_outcome :=
| VmCompleted (calls : list console_call)
| VmThrew (v : js_thrown)
| VmTimedOut.

(** [vm.runInNewContext(code, ...)] without a time limit. *)
Inductive local_outcome :=
| LocalCompleted (calls : list (list string))
| LocalThrew (v : js_thrown)
| LocalPending.

(** A value of the request body's [code] field.  Of a number only
    whether it is zero matters here; arrays count as objects. *)
Inductive js_value :=
| JsUndefined
| JsNull
| JsBool (b : bool)
| JsNumber (n : Z)
| JsStr (s : string)
| JsObject.

Record Host := mkHost {
  exec : command -> exec_outcome;
  fs_write : string -> option string;      (* [Some msg]: the write rejects *)
  fs_remove : string -> option string;     (* [Some msg]: the removal rejects *)
  fs_emptyDir : string -> option string;   (* [Some msg]: emptying rejects *)
  proc_kill : string -> option string;     (* [Some msg]: [kill()] throws *)
  socket_created : string -> bool;         (* the VMM made its API socket *)
  vm_sandbox : string -> Z -> vm_outcome;
  vm_local : string -> local_outcome;
  hash_type_error : js_value -> string     (* [update(x)], [x] no string *)
}.

(** What a backend does to the machine. *)
Inductive event :=
| EvExec (c : command)
| EvSpawn (vm : string)
| EvKill (vm : string)
| EvSandbox (code : string)
| EvLocal (code : string).

(** The machine as the runner's own calls leave it: the files it has
    written and not removed, the children it has spawned and not killed,
    and what it has run.  What a command or a submitted source does on
    the machine while it runs is not followed: of a command only its
    outcome is known. *)
Record World := mkWorld {
  files : gset string;     (* paths that exist *)
  live : gset string;      (* VM ids whose firecracker child runs *)
  trace : list event       (* backend activity, oldest first *)
}.

Definition log_event (e : event) (w : World) : World :=
  mkWorld (files w) (live w) (trace w ++ [e]).

(** ** Asynchronous code as state passing *)

Module Async.

Section Monad.
Context {S : Type}.

Definition t (A : Type) : Type := S -> completion A * S.

Definition ret {A} (a : A) : t A := fun s => (Returned a, s).

Definition throw {A} (e : js_error) : t A := fun s => (Thrown e, s).

Definition bind {A B} (m : t A) (k : A -> t B) : t B :=
  fun s =>
    match m s with
    | (Returned a, s') => k a s'
    | (Thrown e, s') => (Thrown e, s')
    | (Pending, s') => (Pending, s')
    end.

Definition gets {A} (f : S -> A) : t A := fun s => (Returned (f s), s).

Definition modify (f : S -> S) : t unit := fun s => (Returned tt, f s).

(** [try { m } catch (e) { handler e }] *)
Definition try_catch {A} (m : t A) (handler : js_error -> t A) : t A :=
  fun s =>
    match m s with
    | (Thrown e, s') => handler e s'
    | other => other
    end.

(** [try { m } finally { fin }]: [fin] runs once [m] has returned or
    thrown, and a throw of [fin] replaces the completion of [m]. *)
Definition try_finally {A} (m : t A) (fin : t unit) : t A :=
  fun s =>
    match m s with
    | (Pending, s') => (Pending, s')
    | (c, s') =>
        match fin s' with
        | (Returned _, s'') => (c, s'')
        | (Thrown e, s'') => (Thrown e, s'')
        | (Pending, s'') => (Pending, s'')
        end
    end.

(** [m.catch(() => { })] *)
Definition swallow (m : t unit) : t unit := try_catch m (fun _ => ret tt).

End Monad.

Arguments t : clear implicits.

End Async.

Notation "x <- m ;; k" := (Async.bind m (fun x => k))
  (at level 100, m at next level, right associativity).
Notation "m ;; k" := (Async.bind m (fun _ => k))
  (at level 100, right associativity).

(** ** What the sources call on the host

    Each is a step on a state [R * World]: [R] is the runner object. *)

Section Primitives.
Context {R : Type}.
Variable h : Host.

Definition on_world (f : World -> World) : Async.t (R * World) unit :=
  Async.modify (fun s => (fst s, f (snd s))).

(** [await fs.writeFile(path, ...)] and [await fs.writeJson(path, ...)] *)
Definition fs_writeFile (path : string) : Async.t (R * World) unit :=
  match fs_write h path with
  | Some msg => Async.throw (mkError true msg)
  | None => on_world (fun w => mkWorld ({[path]} ∪ files w) (live w) (trace w))
  end.

(** [fs.remove(path)] of fs-extra: a missing path is no error. *)
Definition fs_removeP (path : string) : Async.t (R * World) unit :=
  match fs_remove h path with
  | Some msg => Async.throw (mkError true msg)
  | None => on_world (fun w => mkWorld (files w ∖ {[path]}) (live w) (trace w))
  end.

(** [fs.unlink(path)]: a missing path rejects. *)
Definition fs_unlink (path : string) : Async.t (R * World) unit :=
  fun s =>
    if decide (path ∈ files (snd s)) then fs_removeP path s
    else Async.throw (mkError true "ENOENT: no such file or directory") s.

(** [fs.emptyDir(dir)]: every path below [dir] goes. *)
Definition fs_emptyDirP (dir : string) : Async.t (R * World) unit :=
  match fs_emptyDir h dir with
  | Some msg => Async.throw (mkError true msg)
  | None =>
      on_world (fun w =>
        mkWorld (filter (fun p => String.prefix (dir +:+ "/") p = false) (files w))
                (live w) (trace w))
  end.

(** [await execPromise(cmd)]: the command is noted as run and its outcome
    handed on; what it does on the machine is not followed. *)
Definition execPromise (c : command) : Async.t (R * World) (string * string) :=
  fun s =>
    let s' := (fst s, log_event (EvExec c) (snd s)) in
    match exec h c with
    | ExecResolved out err => (Returned (out, err), s')
    | ExecRejected msg => (Thrown (mkError true msg), s')
    | ExecPending => (Pending, s')
    end.

(** [spawn('firecracker', ['--api-sock', socketPath, '--config-file', ...])]:
    the child is handed back at once (a failed launch shows later, on an
    event of the child that the runner does not listen to). *)
Definition spawn_firecracker (vm socketPath : string) : Async.t (R * World) unit :=
  on_world (fun w =>
    mkWorld (if socket_created h socketPath then {[socketPath]} ∪ files w else files w)
            ({[vm]} ∪ live w)
            (trace w ++ [EvSpawn vm])).

(** [process.kill()] on the child spawned for [vm] *)
Definition kill (vm : string) : Async.t (R * World) unit :=
  match proc_kill h vm with
  | Some msg => Async.throw (mkError true msg)
  | None => on_world (fun w => mkWorld (files w) (live w ∖ {[vm]}) (trace w ++ [EvKill vm]))
  end.

End Primitives.

Definition newline : string := String (ascii_of_nat 10) EmptyString.

(** ** The enhanced runner (the second version of firecracker-runner.js) *)

Module Runner.

Record t := mk {
  tempDir : string;
  vmCount : Z;
  maxVMs : Z;
  processes : list (string * string);   (* VM id -> its child process *)
  cache : list (string * result);
  executionTimeout : Z;
  memoryLimit : Z;
  useFirecracker : bool;
  useDocker : bool
}.

Definition set_vmCount (n : Z) (r : t) : t :=
  mk (tempDir r) n (maxVMs r) (processes r) (cache r) (executionTimeout r)
     (memoryLimit r) (useFirecracker r) (useDocker r).

Definition set_processes (p : list (string * string)) (r : t) : t :=
  mk (tempDir r) (vmCount r) (maxVMs r) p (cache r) (executionTimeout r)
     (memoryLimit r) (useFirecracker r) (useDocker r).

Definition set_cache (c : list (string * result)) (r : t) : t :=
  mk (tempDir r) (vmCount r) (maxVMs r) (processes r) c (executionTimeout r)
     (memoryLimit r) (useFirecracker r) (useDocker r).

Definition set_useFirecracker (b : bool) (r : t) : t :=
  mk (tempDir r) (vmCount r) (maxVMs r) (processes r) (cache r) (executionTimeout r)
     (memoryLimit r) b (useDocker r).

Definition set_useDocker (b : bool) (r : t) : t :=
  mk (tempDir r) (vmCount r) (maxVMs r) (processes r) (cache r) (executionTimeout r)
     (memoryLimit r) (useFirecracker r) b.

(** The object the constructor leaves, before the probe has answered. *)
Definition init (dirname : string) : t :=
  mk (JsString.path_join dirname "temp") 0 3 [] [] 5000 128 false false.

Definition on_runner (f : t -> t) : Async.t (t * World) unit :=
  Async.modify (fun s => (f (fst s), snd s)).

Section Methods.
Variable h : Host.

(** [checkAvailableExecutors] *)
Definition checkAvailableExecutors : Async.t (t * World) unit :=
  Async.try_catch
    (_ <- execPromise h WhichFirecracker ;;
     on_runner (set_useFirecracker true))
    (fun _ => Async.ret tt) ;;
  Async.try_catch
    (_ <- execPromise h DockerVersion ;;
     on_runner (set_useDocker true) ;;
     Async.try_catch (_ <- execPromise h DockerPull ;; Async.ret tt)
                     (fun _ => Async.ret tt))
    (fun _ => Async.ret tt).

Definition queue_full : result :=
  mkResult false ""
    "Maximum number of concurrent VMs reached. Please try again later."
    (Some "firecracker-queue-full") None None None None.

Definition fc_socketPath (vm : string) : string :=
  "/tmp/firecracker-" +:+ vm +:+ ".sock".

Definition fc_codeFile (r : t) (vm : string) : string :=
  JsString.path_join (tempDir r) (vm +:+ ".js").

Definition fc_configFile (r : t) (vm : string) : string :=
  JsString.path_join (tempDir r) (vm +:+ "-config.json").

(** The [try] block of [runWithFirecracker]. *)
Definition fc_try (code vm codeHash codeFile configFile socketPath : string)
  : Async.t (t * World) result :=
  on_runner (fun r => set_vmCount (vmCount r + 1) r) ;;
  fs_writeFile h codeFile ;;
  fs_writeFile h configFile ;;
  spawn_firecracker h vm socketPath ;;
  on_runner (fun r => set_processes (JsMap.set (processes r) vm vm) r) ;;
  (* the one-second boot wait: a timer, it always fires *)
  out <- execPromise h (NodeFile codeFile) ;;
  let res := mkResult true (JsString.trim (fst out)) (JsString.trim (snd out))
                      (Some "firecracker") None (Some vm) None None in
  on_runner (fun r => set_cache (JsMap.set (cache r) codeHash res) r) ;;
  Async.ret res.

(** Its [catch] block. *)
Definition fc_catch (e : js_error) : Async.t (t * World) result :=
  Async.ret (mkResult false "" (message e) (Some "firecracker") None None None None).

(** Its [finally] block. *)
Definition fc_finally (vm codeFile configFile socketPath : string)
  : Async.t (t * World) unit :=
  p <- Async.gets (fun s => JsMap.get (processes (fst s)) vm) ;;
  match p with
  | Some child =>
      kill h child ;;
      on_runner (fun r => set_processes (JsMap.delete (processes r) vm) r)
  | None => Async.ret tt
  end ;;
  Async.swallow (fs_removeP h codeFile) ;;
  Async.swallow (fs_removeP h configFile) ;;
  Async.try_catch (Async.swallow (fs_unlink h socketPath)) (fun _ => Async.ret tt) ;;
  on_runner (fun r => set_vmCount (vmCount r - 1) r).

Definition runWithFirecracker (code id codeHash : string) : Async.t (t * World) result :=
  fun s =>
    let r := fst s in
    if vmCount r >=? maxVMs r then Async.ret queue_full s
    else
      let vm := id in
      let socketPath := fc_socketPath vm in
      let codeFile := fc_codeFile r vm in
      let configFile := fc_configFile r vm in
      Async.try_finally
        (Async.try_catch
           (fc_try code vm codeHash codeFile configFile socketPath) fc_catch)
        (fc_finally vm codeFile configFile socketPath) s.

Definition docker_container (id : string) : string := "code-exec-" +:+ id.

Definition docker_try (code codeHash container codeFile : string)
  : Async.t (t * World) result :=
  fs_writeFile h codeFile ;;
  lim <- Async.gets (fun s => (memoryLimit (fst s), executionTimeout (fst s))) ;;
  out <- execPromise h (DockerRun container codeFile (fst lim) (snd lim)) ;;
  let res := mkResult true (JsString.trim (fst out)) (JsString.trim (snd out))
                      (Some "docker") None None (Some container) None in
  on_runner (fun r => set_cache (JsMap.set (cache r) codeHash res) r) ;;
  Async.ret res.

Definition docker_catch (e : js_error) : Async.t (t * World) result :=
  let isTimeout := JsString.includes "timeout" (message e)
                   || JsString.includes "timed out" (message e) in
  Async.ret (mkResult false ""
               (if isTimeout then "Execution timed out" else message e)
               (Some "docker") None None None None).

Definition docker_finally (container codeFile : string) : Async.t (t * World) unit :=
  Async.swallow (fs_removeP h codeFile) ;;
  Async.swallow (_ <- execPromise h (DockerRm container) ;; Async.ret tt).

Definition runWithDocker (code id codeHash : string) : Async.t (t * World) result :=
  fun s =>
    let container := docker_container id in
    let codeFile := fc_codeFile (fst s) id in
    Async.try_finally
      (Async.try_catch (docker_try code codeHash container codeFile) docker_catch)
      (docker_finally container codeFile) s.

(** The lines the sandbox's [console] collects. *)
Definition sandbox_logs (calls : list console_call) : list string :=
  omap (fun c : console_call =>
          match fst c with
          | ConsoleLog => Some (JsString.join " " (snd c))
          | _ => None
          end) calls.

Definition sandbox_errors (calls : list console_call) : list string :=
  omap (fun c : console_call =>
          match fst c with
          | ConsoleLog => None
          | ConsoleError => Some (JsString.join " " (snd c))
          | ConsoleWarn => Some ("[WARN] " +:+ JsString.join " " (snd c))
          end) calls.

(** [new vm.Script(code)] and [script.runInContext(context, {timeout})]:
    the calls of [console] when the script has ended, else the value the
    [catch] block is handed.  The error of the time limit is made in the
    context of the script and is no instance of the runner's [Error]. *)
Definition run_script (code : string)
  : Async.t (t * World) (list console_call + js_thrown) :=
  fun s =>
    let limit := executionTimeout (fst s) in
    let s' := (fst s, log_event (EvSandbox code) (snd s)) in
    match vm_sandbox h code limit with
    | VmCompleted calls => (Returned (inl calls), s')
    | VmThrew v => (Returned (inr v), s')
    | VmTimedOut =>
        (Returned (inr (ThrownObject (mkError false
           ("Script execution timed out after " +:+ pretty limit +:+ "ms")))), s')
    end.

(** The [try] block of [runWithVMSandbox] after the script has ended. *)
Definition sandbox_try (id codeHash : string) (calls : list console_call)
  : Async.t (t * World) result :=
  let res := mkResult true (JsString.join newline (sandbox_logs calls))
                      (JsString.join newline (sandbox_errors calls))
                      (Some "vm-sandbox") None None None (Some id) in
  on_runner (fun r => set_cache (JsMap.set (cache r) codeHash res) r) ;;
  Async.ret res.

(** Its [catch] block.  [error instanceof Error] is false for [null] and
    [undefined], and [error.message] is then read for the result: the
    [catch] block itself throws. *)
Definition sandbox_catch (v : js_thrown) : Async.t (t * World) result :=
  match v with
  | ThrownObject e =>
      let isTimeout := is_Error e
                       && JsString.includes "Script execution timed out" (message e) in
      Async.ret (mkResult false ""
                   (if isTimeout then "Execution timed out" else message e)
                   (Some "vm-sandbox") None None None None)
  | ThrownNullish type_error => Async.throw (mkError true type_error)
  end.

(** Nothing but the script can throw in the [try] block: the block runs
    to its end, or the [catch] block gets what the script threw. *)
Definition runWithVMSandbox (code id codeHash : string) : Async.t (t * World) result :=
  out <- run_script code ;;
  match out with
  | inl calls => sandbox_try id codeHash calls
  | inr v => sandbox_catch v
  end.

(** [runJavaScript(code)]; [id] is the value [uuidv4()] gives this call. *)
Definition runJavaScript (code id : string) : Async.t (t * World) result :=
  fun s =>
    let r := fst s in
    let codeHash := MD5.digest_hex code in
    match JsMap.get (cache r) codeHash with
    | Some cached => Async.ret (with_fromCache cached) s
    | None =>
        if useFirecracker r then runWithFirecracker code id codeHash s
        else if useDocker r then runWithDocker code id codeHash s
        else runWithVMSandbox code id codeHash s
    end.

Definition clearCache : Async.t (t * World) unit :=
  on_runner (fun r => set_cache (JsMap.clear (cache r)) r).

(** The loop of [shutdown]: [kill()] each tracked child, a throw caught. *)
Fixpoint kill_all (ps : list (string * string)) : Async.t (t * World) unit :=
  match ps with
  | [] => Async.ret tt
  | (_, child) :: rest =>
      Async.try_catch (kill h child) (fun _ => Async.ret tt) ;; kill_all rest
  end.

Definition shutdown : Async.t (t * World) unit :=
  ps <- Async.gets (fun s => processes (fst s)) ;;
  kill_all ps ;;
  on_runner (fun r => set_processes (JsMap.clear (processes r)) r) ;;
  dir <- Async.gets (fun s => tempDir (fst s)) ;;
  Async.try_catch (fs_emptyDirP h dir) (fun _ => Async.ret tt).

End Methods.

End Runner.

(** ** The first runner (firecracker-runner.js, "Updated version") *)

Module RunnerV1.

Record t := mk {
  tempDir : string;
  vmCount : Z;
  maxVMs : Z;
  processes : list (string * string)
}.

Definition set_vmCount (n : Z) (r : t) : t :=
  mk (tempDir r) n (maxVMs r) (processes r).

Definition init (dirname : string) : t :=
  mk (JsString.path_join dirname "temp") 0 3 [].

Definition on_runner (f : t -> t) : Async.t (t * World) unit :=
  Async.modify (fun s => (f (fst s), snd s)).

Section Methods.
Variable h : Host.

Definition queue_full : result :=
  mkResult false ""
    "Maximum number of concurrent VMs reached. Please try again later."
    None None None None None.

Definition codeFile_of (r : t) (vm : string) : string :=
  JsString.path_join (tempDir r) (vm +:+ ".js").

Definition run_try (code vm codeFile : string) : Async.t (t * World) result :=
  on_runner (fun r => set_vmCount (vmCount r + 1) r) ;;
  fs_writeFile h codeFile ;;
  out <- execPromise h (NodeFile codeFile) ;;
  Async.ret (mkResult true (JsString.trim (fst out)) (JsString.trim (snd out))
                      (Some "direct-execution") None (Some vm) None None).

Definition run_catch (e : js_error) : Async.t (t * World) result :=
  Async.ret (mkResult false "" (message e) (Some "direct-execution")
                      None None None None).

(** [finally { try { await fs.remove(codeFile); this.vmCount--; ... }
    catch (error) { console.error(...) } }] *)
Definition run_finally (codeFile : string) : Async.t (t * World) unit :=
  Async.try_catch
    (fs_removeP h codeFile ;;
     on_runner (fun r => set_vmCount (vmCount r - 1) r))
    (fun _ => Async.ret tt).

(** [runJavaScript(code)]; [id] is what [uuidv4()] gives this call. *)
Definition runJavaScript (code id : string) : Async.t (t * World) result :=
  fun s =>
    let r := fst s in
    if vmCount r >=? maxVMs r then Async.ret queue_full s
    else
      let codeFile := codeFile_of r id in
      Async.try_finally
        (Async.try_catch (run_try code id codeFile) run_catch)
        (run_finally codeFile) s.

Definition sim_try (code vm codeFile : string) : Async.t (t * World) result :=
  fs_writeFile h codeFile ;;
  (* the half-second timer always fires *)
  out <- execPromise h (NodeFile codeFile) ;;
  Async.ret (mkResult true (JsString.trim (fst out)) (JsString.trim (snd out))
                      (Some "simulated-firecracker") None (Some vm) None None).

Definition sim_catch (e : js_error) : Async.t (t * World) result :=
  Async.ret (mkResult false "" (message e) (Some "simulated-firecracker")
                      None None None None).

Definition runJavaScriptWithFirecracker (code id : string)
  : Async.t (t * World) result :=
  fun s =>
    let codeFile := codeFile_of (fst s) id in
    Async.try_finally
      (Async.try_catch (sim_try code id codeFile) sim_catch)
      (fs_removeP h codeFile) s.

End Methods.

End RunnerV1.

(** ** The HTTP handler (index.js) *)

Module Index.

(** What [if (!code)] lets through. *)
Definition truthy (v : js_value) : bool :=
  match v with
  | JsUndefined | JsNull => false
  | JsBool b => b
  | JsNumber n => negb (n =? 0)
  | JsStr s => negb (String.eqb s "")
  | JsObject => true
  end.

Inductive body :=
| ErrorBody (msg : string)
| ResultBody (r : result).

(** [res.status(status).json(body)] *)
Record response := Json { status : Z; payload : body }.

Record Server := mkServer {
  outputCache : list (string * result);
  firecrackerAvailable : bool
}.

Definition cache_limit : nat := 100.

(** The block under "Cache successful results". *)
Definition store (cacheKey : string) (res : result) (m : list (string * result))
  : list (string * result) :=
  if success res && String.eqb (error res) "" then
    let m1 := JsMap.set m cacheKey res in
    if (cache_limit <? JsMap.size m1)%nat then
      match JsMap.first_key m1 with
      | Some firstKey => JsMap.delete m1 firstKey
      | None => m1
      end
    else m1
  else m.

Section Handler.
Context {C : Type}.
Variable h : Host.
(** [firecrackerRunner.runJavaScript], the export of ./firecracker-runner:
    either runner of the repository, on its own state [C]. *)
Variable runJavaScript : string -> Async.t (C * World) result.

(** [executeLocalJS(code)] *)
Definition executeLocalJS (code : string) : Async.t (C * World) result :=
  fun s =>
    let s' := (fst s, log_event (EvLocal code) (snd s)) in
    match vm_local h code with
    | LocalCompleted calls =>
        let out := String.concat ""
                     (map (fun args => JsString.join " " args +:+ newline) calls) in
        (Returned (mkResult true (JsString.trim out) "" (Some "local")
                            None None None None), s')
    | LocalThrew (ThrownObject e) =>
        (Returned (mkResult false "" (message e) (Some "local")
                            None None None None), s')
    | LocalThrew (ThrownNullish type_error) =>
        (* [error.message] in the [catch] block throws *)
        (Thrown (mkError true type_error), s')
    | LocalPending => (Pending, s')
    end.

(** A call on the runner's part of the state. *)
Definition lift {A} (m : Async.t (C * World) A) : Async.t (Server * (C * World)) A :=
  fun s => let '(c, cw) := m (snd s) in (c, (fst s, cw)).

Definition on_server (f : Server -> Server) : Async.t (Server * (C * World)) unit :=
  Async.modify (fun s => (f (fst s), snd s)).

(** [crypto.createHash('md5').update(code).digest('hex')]: [update] throws
    a [TypeError] on anything but a string. *)
Definition cache_key (code : js_value) : Async.t (Server * (C * World)) string :=
  match code with
  | JsStr s => Async.ret (MD5.digest_hex s)
  | other => Async.throw (mkError true (hash_type_error h other))
  end.

(** The text handed on as source; only strings get here. *)
Definition source_of (code : js_value) : string :=
  match code with JsStr s => s | _ => "" end.

(** [app.post('/execute', ...)] on a body whose [code] field is [code].
    ([result.mode = 'firecracker'] writes into the object the runner
    returned; when that object is also the one the runner has just cached,
    the cached entry's [mode] changes with it.  The runner is a parameter
    here, and nothing below reads the [mode] of one of its entries.) *)
Definition post_execute (code : js_value) : Async.t (Server * (C * World)) response :=
  if negb (truthy code) then Async.ret (Json 400 (ErrorBody "No code provided"))
  else
    Async.try_catch
      (cacheKey <- cache_key code ;;
       hit <- Async.gets (fun s => JsMap.get (outputCache (fst s)) cacheKey) ;;
       match hit with
       | Some cached => Async.ret (Json 200 (ResultBody cached))
       | None =>
           fc <- Async.gets (fun s => firecrackerAvailable (fst s)) ;;
           res <- (if fc : bool
                   then r <- lift (runJavaScript (source_of code)) ;;
                        Async.ret (with_mode "firecracker" r)
                   else lift (executeLocalJS (source_of code))) ;;
           on_server (fun sv => mkServer (store cacheKey res (outputCache sv))
                                         (firecrackerAvailable sv)) ;;
           Async.ret (Json 200 (ResultBody res))
       end)
      (fun e => Async.ret (Json 500 (ErrorBody (message e)))).

(** [checkFirecracker()] *)
Definition checkFirecracker : Async.t (Server * (C * World)) unit :=
  Async.try_catch
    (_ <- lift (execPromise h WhichFirecracker) ;;
     on_server (fun sv => mkServer (outputCache sv) true))
    (fun _ => on_server (fun sv => mkServer (outputCache sv) false)).

End Handler.

(** The server as the module leaves it: an empty [outputCache]. *)
Definition fresh (firecracker : bool) : Server := mkServer [] firecracker.

(** Requests served one after the other, each with the machine and the
    runner behaving in its own way. *)
Fixpoint serve_all {C : Type}
    (reqs : list (Host * (string -> Async.t (C * World) result) * js_value))
    (s : Server * (C * World)) : Server * (C * World) :=
  match reqs with
  | [] => s
  | (h, run, code) :: rest => serve_all rest (snd (post_execute h run code s))
  end.

(** Results stored one after the other. *)
Definition store_all (entries : list (string * result)) (m : list (string * result))
  : list (string * result) :=
  fold_left (fun acc kv => store (fst kv) (snd kv) acc) entries m.

(** A result the handler would store. *)
Definition clean (res : result) : Prop := success res = true /\ error res = "".

End Index.

(** ** How calls follow one another

    A runner lives through a sequence of calls.  Each call runs to its
    end before the next; one that never settles leaves the state it had
    reached when it stopped. *)

Module Session.

Inductive call :=
| Probe
| Run (code id : string)
| RunFirecracker (code id codeHash : string)
| RunDocker (code id codeHash : string)
| RunSandbox (code id codeHash : string)
| ClearCache
| Shutdown.

Definition perform (h : Host) (c : call) (s : Runner.t * World) : Runner.t * World :=
  match c with
  | Probe => snd (Runner.checkAvailableExecutors h s)
  | Run code id => snd (Runner.runJavaScript h code id s)
  | RunFirecracker code id codeHash => snd (Runner.runWithFirecracker h code id codeHash s)
  | RunDocker code id codeHash => snd (Runner.runWithDocker h code id codeHash s)
  | RunSandbox code id codeHash => snd (Runner.runWithVMSandbox h code id codeHash s)
  | ClearCache => snd (Runner.clearCache s)
  | Shutdown => snd (Runner.shutdown h s)
  end.

(** The states a runner can be in: the constructor's object on a machine
    with any files, then any calls under any behaviour of the host. *)
Inductive reachable : Runner.t * World -> Prop :=
| reach_init (dirname : string) (fs : gset string) :
    reachable (Runner.init dirname, mkWorld fs ∅ [])
| reach_step (h : Host) (c : call) (s : Runner.t * World) :
    reachable s -> reachable (perform h c s).

(** Running a list of calls, each under its own behaviour of the host. *)
Fixpoint perform_all (cs : list (Host * call)) (s : Runner.t * World) : Runner.t * World :=
  match cs with
  | [] => s
  | (h, c) :: rest => perform_all rest (perform h c s)
  end.



End Session.

(** A failed result carries no output. *)
Definition failure_has_no_output (c : completion result) : Prop :=
  forall res, c = Returned res -> success res = false -> output res = "".

(** Every entry of a cache is a successful result. *)
Definition all_success (m : list (string * result)) : Prop :=
  Forall (fun kv => success (snd kv) = true) m.

(** A property of the runner's cache, as a property of the state. *)
Definition cache_has (Q : list (string * result) -> Prop) (s : Runner.t * World) : Prop :=
  Q (Runner.cache (fst s)).

(** Every entry of a cache is a success with no error text. *)
Definition all_clean (m : list (string * result)) : Prop :=
  Forall (fun kv => success (snd kv) = true /\ error (snd kv) = "") m.

(** ** Sample machines *)

Module Sample.

(** A machine on which nothing fails: files are written and removed,
    children die when killed, [node file] prints nothing and exits with
    0, scripts end without a word. *)
Definition calm : Host :=
  mkHost (fun _ => ExecResolved "" "")
         (fun _ => None) (fun _ => None) (fun _ => None) (fun _ => None)
         (fun _ => true)
         (fun _ _ => VmCompleted [])
         (fun _ => LocalCompleted [])
         (fun _ => "The data argument must be of type string").

(** The source never ends: [node file] does not exit, and [vm] stops the
    script at its time limit. *)
Definition looping : Host :=
  mkHost (fun c => match c with NodeFile _ => ExecPending | _ => exec calm c end)
         (fs_write calm) (fs_remove calm) (fs_emptyDir calm) (proc_kill calm)
         (socket_created calm)
         (fun _ _ => VmTimedOut)
         (fun _ => LocalPending)
         (hash_type_error calm).

(** Nothing can be removed (a busy or read-only file system). *)
Definition stuck_files : Host :=
  mkHost (exec calm) (fs_write calm)
         (fun _ => Some "EBUSY: resource busy or locked")
         (fun _ => Some "EBUSY: resource busy or locked")
         (proc_kill calm) (socket_created calm) (vm_sandbox calm) (vm_local calm)
         (hash_type_error calm).

(** The source writes one line to standard error and ends well. *)
Definition noisy : Host :=
  mkHost (fun c => match c with
                   | NodeFile _ | DockerRun _ _ _ _ => ExecResolved "" "deprecated"
                   | _ => exec calm c
                   end)
         (fs_write calm) (fs_remove calm) (fs_emptyDir calm) (proc_kill calm)
         (socket_created calm)
         (fun _ _ => VmCompleted [(ConsoleError, ["deprecated"])])
         (vm_local calm)
         (hash_type_error calm).

(** Docker is installed, Firecracker is not. *)
Definition docker_only : Host :=
  mkHost (fun c => match c with
                   | WhichFirecracker => ExecRejected "Command failed: which firecracker"
                   | _ => exec calm c
                   end)
         (fs_write calm) (fs_remove calm) (fs_emptyDir calm) (proc_kill calm)
         (socket_created calm) (vm_sandbox calm) (vm_local calm) (hash_type_error calm).

(** The same machine, given a source that keeps its container busy. *)
Definition docker_busy : Host :=
  mkHost (fun c => match c with
                   | DockerRun _ _ _ _ => ExecPending
                   | _ => exec docker_only c
                   end)
         (fs_write calm) (fs_remove calm) (fs_emptyDir calm) (proc_kill calm)
         (socket_created calm) (vm_sandbox calm) (vm_local calm) (hash_type_error calm).

(** Neither Firecracker nor Docker is installed. *)
Definition plain : Host :=
  mkHost (fun c => match c with
                   | WhichFirecracker => ExecRejected "Command failed: which firecracker"
                   | DockerVersion => ExecRejected "Command failed: docker --version"
                   | _ => exec calm c
                   end)
         (fs_write calm) (fs_remove calm) (fs_emptyDir calm) (proc_kill calm)
         (socket_created calm) (vm_sandbox calm) (vm_local calm) (hash_type_error calm).

(** Three Firecracker runs of a source that never ends: each holds its
    slot. *)
Definition hung_runs : list (Host * Session.call) :=
  [(looping, Session.RunFirecracker "for(;;){}" "id-1" "k1");
   (looping, Session.RunFirecracker "for(;;){}" "id-2" "k2");
   (looping, Session.RunFirecracker "for(;;){}" "id-3" "k3")].

(** A runner with three such runs in flight, after a probe that found
    Firecracker, Docker alone, or neither. *)
Definition busy_firecracker : Runner.t * World :=
  Session.perform_all ((calm, Session.Probe) :: hung_runs)
    (Runner.init "/srv", mkWorld ∅ ∅ []).

Definition busy_docker : Runner.t * World :=
  Session.perform_all ((docker_only, Session.Probe) :: hung_runs)
    (Runner.init "/srv", mkWorld ∅ ∅ []).

Definition busy_sandbox : Runner.t * World :=
  Session.perform_all ((plain, Session.Probe) :: hung_runs)
    (Runner.init "/srv", mkWorld ∅ ∅ []).

(** One file cannot be removed: the code file of the run "id-1". *)
Definition busy_code_file : Host :=
  mkHost (exec calm) (fs_write calm)
         (fun p => if String.eqb p "/srv/temp/id-1.js"
                   then Some "EBUSY: resource busy or locked" else None)
         (fs_emptyDir calm) (proc_kill calm) (socket_created calm)
         (vm_sandbox calm) (vm_local calm) (hash_type_error calm).

(** The scratch directory cannot be emptied. *)
Definition busy_directory : Host :=
  mkHost (exec calm) (fs_write calm) (fs_remove calm)
         (fun _ => Some "EBUSY: resource busy or locked")
         (proc_kill calm) (socket_created calm)
         (vm_sandbox calm) (vm_local calm) (hash_type_error calm).

(** A runner whose probe has found Firecracker. *)
Definition with_firecracker : Runner.t :=
  Runner.set_useFirecracker true (Runner.init "/srv").

(** A runner that found Firecracker, ran the source "1" on a machine
    where its code file could not be removed, and is now to shut down. *)
Definition before_shutdown : Runner.t * World :=
  Session.perform_all
    [(calm, Session.Probe); (busy_code_file, Session.Run "1" "id-1")]
    (Runner.init "/srv", mkWorld ∅ ∅ []).

(** A machine with nothing on it. *)
Definition bare : World := mkWorld ∅ ∅ [].

(** The enhanced runner on the calm machine, as the handler's runner. *)
Definition calm_runner (id : string) (code : string) : Async.t (Runner.t * World) result :=
  Runner.runJavaScript calm code id.

(** The handler and the enhanced runner as the modules leave them. *)
Definition start (firecracker : bool) : Index.Server * (Runner.t * World) :=
  (Index.fresh firecracker, (Runner.init "/srv", bare)).

(** A clean success that printed [out]. *)
Definition ok_result (out : string) : result :=
  mkResult true out "" (Some "local") None None None None.

(** [n] clean results under the keys "0", "1", ... *)
Definition numbered (n : nat) : list (string * result) :=
  map (fun i : nat => (pretty i, ok_result (pretty i))) (seq 0 n).

(** [n] requests to the runner, for the sources "0", "1", ..., each with
    an id of its own, on the calm machine. *)
Definition numbered_runs (n : nat) : list (Host * Session.call) :=
  map (fun i : nat => (calm, Session.Run (pretty i) ("id-" +:+ pretty i))) (seq 0 n).

End Sample.

(** A stand-in for the runner that notes every source it is handed. *)
Definition recording_runner (code : string) : Async.t (list string * World) result :=
  fun s => (Returned (mkResult true "" "" None None None None None),
            ((code :: fst s)%list, snd s)).

(** Unfolding the combinators and the calls on the host, without any
    other computation: for proofs by cases on what the host answers. *)
Ltac open_steps :=
  unfold Async.swallow, Async.try_finally, Async.try_catch, Async.bind,
    Async.gets, Async.modify, Async.ret, Async.throw,
    fs_writeFile, fs_removeP, fs_unlink, fs_emptyDirP, execPromise,
    spawn_firecracker, kill, on_world, Runner.on_runner, RunnerV1.on_runner, log_event.

Ltac reduce_steps :=
  cbv beta iota zeta delta
    [Async.swallow Async.try_finally Async.try_catch Async.bind
     Async.gets Async.modify Async.ret Async.throw on_world Runner.on_runner
     RunnerV1.on_runner fs_removeP fs_writeFile];
  cbn [fst snd files live trace
       Runner.processes Runner.vmCount Runner.cache Runner.tempDir Runner.maxVMs
       Runner.executionTimeout Runner.memoryLimit Runner.useFirecracker Runner.useDocker
       Runner.set_processes Runner.set_vmCount Runner.set_cache].

Ltac split_on_socket :=
  match goal with
  | |- context [@decide ?P ?dec] => destruct (@decide P dec) as [Hin|Hout]
  end.

(** Unfolding the combinators and the calls on the host. *)
Ltac run_async :=
  unfold Async.swallow, Async.try_finally, Async.try_catch, Async.bind,
    Async.gets, Async.modify, Async.ret, Async.throw,
    fs_writeFile, fs_removeP, fs_unlink, fs_emptyDirP, execPromise,
    spawn_firecracker, kill, on_world, Runner.on_runner, RunnerV1.on_runner in *;
  cbn [fst snd] in *.

(** The step [m] keeps the property [P] of the state, however it ends. *)
Definition keeps {S A : Type} (P : S -> Prop) (m : Async.t S A) : Prop :=
  forall s, P s -> P (snd (m s)).

(** A property of the state that does not look at the machine. *)
Definition runner_only {R : Type} (P : R * World -> Prop) : Prop :=
  forall r w w', P (r, w) -> P (r, w').

(** A change of the runner object that leaves the machine alone. *)
Definition on_fst {R : Type} (g : R -> R) (s : R * World) : R * World := (g (fst s), snd s).

(** The step [m] commutes with the change [phi] of the state. *)
Definition commutes {S A : Type} (phi : S -> S) (m : Async.t S A) : Prop :=
  forall s, m (phi s) = (fst (m s), phi (snd (m s))).

(** The counter of the runner and its bound have these values. *)
Definition counter_is (n M : Z) (s : Runner.t * World) : Prop :=
  Runner.vmCount (fst s) = n /\ Runner.maxVMs (fst s) = M.

(** The counter is where it was or one above. *)
Definition counter_near (n M : Z) (s : Runner.t * World) : Prop :=
  (Runner.vmCount (fst s) = n \/ Runner.vmCount (fst s) = n + 1) /\
  Runner.maxVMs (fst s) = M.

(** The counter is within its bounds. *)
Definition counter_ok (s : Runner.t * World) : Prop :=
  0 <= Runner.vmCount (fst s) <= Runner.maxVMs (fst s).

(** Nothing is left below the runner's scratch directory. *)
Definition scratch_empty (r : Runner.t) (w : World) : Prop :=
  forall p, p ∈ files w -> String.prefix (Runner.tempDir r +:+ "/") p = false.

(** The handler's cache holds clean successes only. *)
Definition serves_clean {C : Type} (s : Index.Server * (C * World)) : Prop :=
  all_clean (Index.outputCache (fst s)).

(** The string of the given bytes. *)
Definition utf8 (bytes : list Z) : string :=
  string_of_list_ascii (map (fun b => ascii_of_nat (Z.to_nat b)) bytes).

(** ** Who takes a slot *)

(** The runner has found Firecracker. *)
Definition uses_firecracker (s : Runner.t * World) : Prop :=
  Runner.useFirecracker (fst s) = true.


(** ** What a command came to *)

(** The command ended well. *)
Definition resolves (o : exec_outcome) : bool :=
  match o with ExecResolved _ _ => true | _ => false end.

(** The command has not ended. *)
Definition unsettled (o : exec_outcome) : bool :=
  match o with ExecPending => true | _ => false end.
(** What a backend hands back when it returns: the result, how the cache
    stands, and the backend's name on the result. *)
Definition answered (backend codeHash : string) (r : Runner.t)
    (res : result) (s' : Runner.t * World) : Prop :=
  mode res = Some backend /\ fromCache res = None /\
  (success res = true ->
   Runner.cache (fst s') = JsMap.set (Runner.cache r) codeHash res) /\
  (success res = false -> Runner.cache (fst s') = Runner.cache r).

(** The backend [runJavaScript] goes to on a miss. *)
Definition chosen_backend (r : Runner.t) : string :=
  if Runner.useFirecracker r
  then (if Runner.vmCount r >=? Runner.maxVMs r
        then "firecracker-queue-full" else "firecracker")
  else if Runner.useDocker r then "docker" else "vm-sandbox".


(** ** Calls on the first runner, one after the other *)

Module SessionV1.

Inductive call :=
| Run (code id : string)
| RunSimulated (code id : string).

Definition perform (h : Host) (c : call) (s : RunnerV1.t * World) : RunnerV1.t * World :=
  match c with
  | Run code id => snd (RunnerV1.runJavaScript h code id s)
  | RunSimulated code id => snd (RunnerV1.runJavaScriptWithFirecracker h code id s)
  end.

Fixpoint perform_all (cs : list (Host * call)) (s : RunnerV1.t * World)
  : RunnerV1.t * World :=
  match cs with
  | [] => s
  | (h, c) :: rest => perform_all rest (perform h c s)
  end.

End SessionV1.

(** ** More sample machines *)

Module Faulty.

(** The child cannot be signalled: [kill()] throws. *)
Definition unkillable : Host :=
  mkHost (exec Sample.calm) (fs_write Sample.calm) (fs_remove Sample.calm)
         (fs_emptyDir Sample.calm)
         (fun _ => Some "kill EPERM")
         (socket_created Sample.calm) (vm_sandbox Sample.calm) (vm_local Sample.calm)
         (hash_type_error Sample.calm).

(** Nothing can be written. *)
Definition read_only : Host :=
  mkHost (exec Sample.calm)
         (fun _ => Some "EROFS: read-only file system")
         (fs_remove Sample.calm) (fs_emptyDir Sample.calm) (proc_kill Sample.calm)
         (socket_created Sample.calm) (vm_sandbox Sample.calm) (vm_local Sample.calm)
         (hash_type_error Sample.calm).

(** [docker run] fails for a reason of its own, and the message quotes
    the command line. *)
Definition docker_failing : Host :=
  mkHost (fun c => match c with
                   | DockerRun _ _ _ _ =>
                       ExecRejected "Command failed: docker run node:18-alpine timeout 5 node code.js"
                   | _ => exec Sample.docker_only c
                   end)
         (fs_write Sample.calm) (fs_remove Sample.calm) (fs_emptyDir Sample.calm)
         (proc_kill Sample.calm) (socket_created Sample.calm)
         (vm_sandbox Sample.calm) (vm_local Sample.calm) (hash_type_error Sample.calm).

(** The script prints a line and warns. *)
Definition warning : Host :=
  mkHost (exec Sample.plain) (fs_write Sample.calm) (fs_remove Sample.calm)
         (fs_emptyDir Sample.calm) (proc_kill Sample.calm) (socket_created Sample.calm)
         (fun _ _ => VmCompleted [(ConsoleLog, ["hello"]); (ConsoleWarn, ["careful"])])
         (vm_local Sample.calm) (hash_type_error Sample.calm).

(** The script throws an error of its own. *)
Definition throwing : Host :=
  mkHost (exec Sample.plain) (fs_write Sample.calm) (fs_remove Sample.calm)
         (fs_emptyDir Sample.calm) (proc_kill Sample.calm) (socket_created Sample.calm)
         (fun _ _ => VmThrew (ThrownObject (mkError false "x is not defined")))
         (fun _ => LocalThrew (ThrownObject (mkError false "x is not defined")))
         (hash_type_error Sample.calm).

(** The script is [throw null]. *)
Definition throwing_null : Host :=
  mkHost (exec Sample.plain) (fs_write Sample.calm) (fs_remove Sample.calm)
         (fs_emptyDir Sample.calm) (proc_kill Sample.calm) (socket_created Sample.calm)
         (fun _ _ => VmThrew (ThrownNullish
                       "Cannot read properties of null (reading 'message')"))
         (fun _ => LocalThrew (ThrownNullish
                     "Cannot read properties of null (reading 'message')"))
         (hash_type_error Sample.calm).

(** The enhanced runner after one run of the source "1" in the sandbox. *)
Definition after_one_run : Runner.t * World :=
  snd (Runner.runJavaScript Sample.calm "1" "id-1" (Runner.init "/srv", Sample.bare)).

(** The first runner after three runs whose code file could not be
    removed. *)
Definition v1_starved : RunnerV1.t * World :=
  SessionV1.perform_all
    [(Sample.stuck_files, SessionV1.Run "1" "id-1");
     (Sample.stuck_files, SessionV1.Run "2" "id-2");
     (Sample.stuck_files, SessionV1.Run "3" "id-3")]
    (RunnerV1.init "/srv", Sample.bare).


(** A runner that has found both Firecracker and Docker. *)
Definition with_both : Runner.t :=
  Runner.set_useDocker true Sample.with_firecracker.

End Faulty.

(** ** What a run leaves alone *)

(** The file [p] and the process [vm] are there or not as they were when
    the files were [F] and the running processes [L]. *)
Definition as_before {R : Type} (p : string) (F : gset string) (vm : string)
    (L : gset string) (s : R * World) : Prop :=
  (p ∈ files (snd s) <-> p ∈ F) /\ (vm ∈ live (snd s) <-> vm ∈ L).

(** The registry holds nothing under [id], or the process of the run
    [id] itself. *)
Definition own_process (id : string) (s : Runner.t * World) : Prop :=
  JsMap.get (Runner.processes (fst s)) id = None \/
  JsMap.get (Runner.processes (fst s)) id = Some id.

(** * Facts *)

(** ** The digest agrees with the published MD5 test vectors *)

Example digest_empty : MD5.digest_hex "" = "d41d8cd98f00b204e9800998ecf8427e".
Proof. vm_compute. reflexivity. Qed.

Example digest_abc : MD5.digest_hex "abc" = "900150983cd24fb0d6963f7d28e17f72".
Proof. vm_compute. reflexivity. Qed.

(** Inputs of 56 and of 64 bytes: the padding takes a second block. *)
Example digest_56 :
  MD5.digest_hex "aaaaaaaaaaaaaaaaaaaaaaaaaaaaaaaaaaaaaaaaaaaaaaaaaaaaaaaa"
  = "3b0c8ac703f828b04c6c197006d17218".
Proof. vm_compute. reflexivity. Qed.

Example digest_64 :
  MD5.digest_hex "aaaaaaaaaaaaaaaaaaaaaaaaaaaaaaaaaaaaaaaaaaaaaaaaaaaaaaaaaaaaaaaa"
  = "014842d480b571495a4a0363793f7367".
Proof. vm_compute. reflexivity. Qed.

Example digest_source :
  MD5.digest_hex "while(true){}" = "d7e67e41a6fb0de823f771996dfd552f".
Proof. vm_compute. reflexivity. Qed.

(** ** Reading a completion back through the combinators *)

Section AsyncFacts.
Context {S : Type}.

Lemma bind_returned {A B} (m : Async.t S A) (k : A -> Async.t S B) s b s' :
  Async.bind m k s = (Returned b, s') ->
  exists a s1, m s = (Returned a, s1) /\ k a s1 = (Returned b, s').
Proof.
  unfold Async.bind. destruct (m s) as [[a|e|] s1]; intros H; try discriminate.
  exists a, s1. split; [reflexivity | exact H].
Qed.

Lemma try_catch_returned {A} (m : Async.t S A) handler s a s' :
  Async.try_catch m handler s = (Returned a, s') ->
  m s = (Returned a, s') \/
  exists e s1, m s = (Thrown e, s1) /\ handler e s1 = (Returned a, s').
Proof.
  unfold Async.try_catch. destruct (m s) as [[a0|e|] s1]; intros H.
  - left. exact H.
  - right. exists e, s1. split; [reflexivity | exact H].
  - discriminate.
Qed.

Lemma try_finally_returned {A} (m : Async.t S A) fin s a s' :
  Async.try_finally m fin s = (Returned a, s') ->
  exists s1, m s = (Returned a, s1) /\ fin s1 = (Returned tt, s').
Proof.
  unfold Async.try_finally.
  destruct (m s) as [[a0|e|] s1]; try discriminate;
    destruct (fin s1) as [[[]|e'|] s2] eqn:Hf; intros H; try discriminate.
  inversion H; subst. exists s1. split; [reflexivity | exact Hf].
Qed.

(** A [finally] block runs exactly when the [try] block has settled. *)
Lemma try_finally_settled {A} (m : Async.t S A) fin s :
  fst (Async.try_finally m fin s) <> Pending ->
  exists c s1 u,
    m s = (c, s1) /\ c <> Pending /\
    fin s1 = (u, snd (Async.try_finally m fin s)) /\ u <> Pending /\
    fst (Async.try_finally m fin s) =
      match u with Returned _ => c | Thrown e => Thrown e | Pending => Pending end.
Proof.
  unfold Async.try_finally.
  destruct (m s) as [[a|e|] s1] eqn:Hm; cbn; intros H; try congruence;
    destruct (fin s1) as [[[]|e'|] s2] eqn:Hf; cbn in *; try congruence.
  - exists (Returned a), s1, (Returned tt). rewrite Hf. repeat split; congruence.
  - exists (Returned a), s1, (Thrown e'). rewrite Hf. repeat split; congruence.
  - exists (Thrown e), s1, (Returned tt). rewrite Hf. repeat split; congruence.
  - exists (Thrown e), s1, (Thrown e'). rewrite Hf. repeat split; congruence.
Qed.

End AsyncFacts.

(** ** Insertion-ordered maps *)

Section JsMapFacts.
Context {V : Type}.
Implicit Types (m : list (string * V)) (k : string) (v : V).

Lemma get_set_eq m k v : JsMap.get (JsMap.set m k v) k = Some v.
Proof.
  induction m as [|[k' v'] m IH]; cbn.
  - now rewrite String.eqb_refl.
  - destruct (String.eqb k' k) eqn:E; cbn; rewrite E; [reflexivity | exact IH].
Qed.

Lemma get_set_ne m k k' v : k <> k' -> JsMap.get (JsMap.set m k v) k' = JsMap.get m k'.
Proof.
  intros Hne. induction m as [|[k0 v0] m IH]; cbn.
  - destruct (String.eqb k k') eqn:E; [apply String.eqb_eq in E; contradiction | reflexivity].
  - destruct (String.eqb k0 k) eqn:E; cbn.
    + apply String.eqb_eq in E. subst k0.
      destruct (String.eqb k k') eqn:E'; [apply String.eqb_eq in E'; contradiction | reflexivity].
    + now rewrite IH.
Qed.

Lemma get_delete_ne m k k' : k <> k' -> JsMap.get (JsMap.delete m k) k' = JsMap.get m k'.
Proof.
  intros Hne. induction m as [|[k0 v0] m IH]; cbn; [reflexivity|].
  destruct (String.eqb k0 k) eqn:E; cbn.
  - apply String.eqb_eq in E. subst k0.
    destruct (String.eqb k k') eqn:E'; [apply String.eqb_eq in E'; contradiction | reflexivity].
  - now rewrite IH.
Qed.

Lemma get_delete_Some m k k' v :
  JsMap.get (JsMap.delete m k) k' = Some v -> k <> k' -> JsMap.get m k' = Some v.
Proof. intros H Hne. now rewrite get_delete_ne in H. Qed.

(** A key that is not in the map goes to its end. *)
Lemma set_fresh m k v : JsMap.get m k = None -> JsMap.set m k v = (m ++ [(k, v)])%list.
Proof.
  induction m as [|[k0 v0] m IH]; cbn; [reflexivity|].
  destruct (String.eqb k0 k); [discriminate|]. intros H. now rewrite IH.
Qed.

Lemma size_set_present m k v v0 :
  JsMap.get m k = Some v0 -> JsMap.size (JsMap.set m k v) = JsMap.size m.
Proof.
  unfold JsMap.size. induction m as [|[k1 v1] m IH]; cbn; [discriminate|].
  destruct (String.eqb k1 k); cbn; [reflexivity|]. intros H. now rewrite IH.
Qed.

Lemma size_set_fresh m k v :
  JsMap.get m k = None -> JsMap.size (JsMap.set m k v) = Datatypes.S (JsMap.size m).
Proof.
  intros H. rewrite (set_fresh _ _ _ H). unfold JsMap.size.
  rewrite length_app. cbn. lia.
Qed.

Lemma get_app_l m m' k v :
  JsMap.get m k = Some v -> JsMap.get (m ++ m')%list k = Some v.
Proof.
  induction m as [|[k0 v0] m IH]; cbn; [discriminate|].
  destruct (String.eqb k0 k); [trivial | exact IH].
Qed.

Lemma get_app_r m m' k :
  JsMap.get m k = None -> JsMap.get (m ++ m')%list k = JsMap.get m' k.
Proof.
  induction m as [|[k0 v0] m IH]; cbn; [reflexivity|].
  destruct (String.eqb k0 k); [discriminate | exact IH].
Qed.

Lemma Forall_get (Q : V -> Prop) m k v :
  Forall (fun kv => Q (snd kv)) m -> JsMap.get m k = Some v -> Q v.
Proof.
  induction 1 as [|[k0 v0] m Hq _ IH]; cbn; [discriminate|].
  destruct (String.eqb k0 k); [intros [= <-]; exact Hq | exact IH].
Qed.

Lemma Forall_set (P : string * V -> Prop) m k v :
  Forall P m -> (forall k0, P (k0, v)) -> Forall P (JsMap.set m k v).
Proof.
  intros Hm Hv. induction Hm as [|[k0 v0] m Hq Hm IH]; cbn.
  - constructor; [apply Hv | constructor].
  - destruct (String.eqb k0 k); constructor; auto.
Qed.

Lemma Forall_delete (P : string * V -> Prop) m k :
  Forall P m -> Forall P (JsMap.delete m k).
Proof.
  induction 1 as [|[k0 v0] m Hq Hm IH]; cbn; [constructor|].
  destruct (String.eqb k0 k); [exact Hm | constructor; assumption].
Qed.

Lemma get_None_not_key m k : JsMap.get m k = None <-> ~ In k (JsMap.keys m).
Proof.
  induction m as [|[k0 v0] m IH]; cbn.
  - tauto.
  - destruct (String.eqb k0 k) eqn:E.
    + apply String.eqb_eq in E. split; [discriminate | intros H; exfalso; apply H; now left].
    + apply String.eqb_neq in E. rewrite IH. tauto.
Qed.

End JsMapFacts.

(** ** Properties of the state that every step keeps *)

Section Keeps.
Context {S : Type}.

Lemma keeps_ret {A} (P : S -> Prop) (a : A) : keeps P (Async.ret a).
Proof. intros s H. exact H. Qed.

Lemma keeps_throw {A} (P : S -> Prop) e : keeps P (@Async.throw S A e).
Proof. intros s H. exact H. Qed.

Lemma keeps_gets {A} (P : S -> Prop) (f : S -> A) : keeps P (Async.gets f).
Proof. intros s H. exact H. Qed.

Lemma keeps_modify (P : S -> Prop) (f : S -> S) : (forall s, P s -> P (f s)) -> keeps P (Async.modify f).
Proof. intros Hf s H. apply Hf, H. Qed.

Lemma keeps_bind {A B} (P : S -> Prop) (m : Async.t S A) (k : A -> Async.t S B) :
  keeps P m -> (forall a, keeps P (k a)) -> keeps P (Async.bind m k).
Proof.
  intros Hm Hk s H. unfold Async.bind. specialize (Hm s H).
  destruct (m s) as [[a|e|] s1]; cbn in *; try exact Hm. apply Hk, Hm.
Qed.

Lemma keeps_try_catch {A} (P : S -> Prop) (m : Async.t S A) handler :
  keeps P m -> (forall e, keeps P (handler e)) -> keeps P (Async.try_catch m handler).
Proof.
  intros Hm Hk s H. unfold Async.try_catch. specialize (Hm s H).
  destruct (m s) as [[a|e|] s1]; cbn in *; try exact Hm. apply Hk, Hm.
Qed.

Lemma keeps_try_finally {A} (P : S -> Prop) (m : Async.t S A) fin :
  keeps P m -> keeps P fin -> keeps P (Async.try_finally m fin).
Proof.
  intros Hm Hf s H. unfold Async.try_finally. specialize (Hm s H).
  destruct (m s) as [[a|e|] s1]; cbn in *; try exact Hm;
    specialize (Hf s1 Hm); destruct (fin s1) as [[[]|e'|] s2]; exact Hf.
Qed.

Lemma keeps_swallow (P : S -> Prop) (m : Async.t S unit) : keeps P m -> keeps P (Async.swallow m).
Proof. intros Hm. apply keeps_try_catch; [exact Hm | intros e; apply keeps_ret]. Qed.

End Keeps.

Create HintDb keeps discriminated.
#[export] Hint Resolve keeps_ret keeps_throw keeps_gets keeps_bind keeps_try_catch
  keeps_try_finally keeps_swallow : keeps.

(** A property of the runner object alone survives whatever happens to
    the machine. *)
Section KeepsRunner.
Context {R : Type}.
Variable h : Host.
Variable P : R * World -> Prop.
Hypothesis HP : runner_only P.

Lemma keeps_on_world (f : World -> World) : keeps P (on_world f).
Proof. intros [r w] H. cbn. eapply HP, H. Qed.

Lemma keeps_fs_writeFile p : keeps P (fs_writeFile h p).
Proof. unfold fs_writeFile. destruct (fs_write h p); [apply keeps_throw | apply keeps_on_world]. Qed.

Lemma keeps_fs_removeP p : keeps P (fs_removeP h p).
Proof. unfold fs_removeP. destruct (fs_remove h p); [apply keeps_throw | apply keeps_on_world]. Qed.

Lemma keeps_fs_unlink p : keeps P (fs_unlink h p).
Proof.
  intros s H. unfold fs_unlink. destruct (decide (p ∈ files (snd s))).
  - now apply keeps_fs_removeP.
  - exact H.
Qed.

Lemma keeps_fs_emptyDirP p : keeps P (fs_emptyDirP h p).
Proof. unfold fs_emptyDirP. destruct (fs_emptyDir h p); [apply keeps_throw | apply keeps_on_world]. Qed.

Lemma keeps_execPromise c : keeps P (execPromise h c).
Proof. intros [r w] H. unfold execPromise. destruct (exec h c); cbn; eapply HP, H. Qed.

Lemma keeps_spawn vm p : keeps P (spawn_firecracker h vm p).
Proof. apply keeps_on_world. Qed.

Lemma keeps_kill vm : keeps P (kill h vm).
Proof. unfold kill. destruct (proc_kill h vm); [apply keeps_throw | apply keeps_on_world]. Qed.

End KeepsRunner.

#[export] Hint Resolve keeps_on_world keeps_fs_writeFile keeps_fs_removeP keeps_fs_unlink
  keeps_fs_emptyDirP keeps_execPromise keeps_spawn keeps_kill : keeps.

(** ** The enhanced runner: what its cache holds *)

Lemma all_success_set m k res :
  all_success m -> success res = true -> all_success (JsMap.set m k res).
Proof. intros Hm Hres. apply Forall_set; [exact Hm | intros ?; exact Hres]. Qed.

(** A property [Q] of the cache that survives the store of a successful
    result under [codeHash] survives a whole run with that digest. *)
Section RunnerCache.
Variable h : Host.
Variable Q : list (string * result) -> Prop.
Variable codeHash : string.
Hypothesis HQ : forall m res, Q m -> success res = true -> Q (JsMap.set m codeHash res).

Lemma cache_has_runner_only : runner_only (cache_has Q).
Proof. intros r w w' H. exact H. Qed.

(** A step that leaves the cache alone. *)
Lemma keeps_cache_frame (f : Runner.t -> Runner.t) :
  (forall r, Runner.cache (f r) = Runner.cache r) ->
  keeps (cache_has Q) (Runner.on_runner f).
Proof. intros Hf s H. unfold cache_has in *. cbn. now rewrite Hf. Qed.

Lemma keeps_cache_store res :
  success res = true ->
  keeps (cache_has Q)
    (Runner.on_runner (fun r => Runner.set_cache (JsMap.set (Runner.cache r) codeHash res) r)).
Proof. intros Hres s H. unfold cache_has in *. cbn. now apply HQ. Qed.

#[local] Hint Resolve cache_has_runner_only : keeps.

Lemma keeps_fc_try code vm codeFile configFile socketPath :
  keeps (cache_has Q) (Runner.fc_try h code vm codeHash codeFile configFile socketPath).
Proof.
  unfold Runner.fc_try.
  repeat (first [ apply keeps_bind; [|intros ?] | apply keeps_cache_frame; reflexivity
                | apply keeps_cache_store; reflexivity | solve [auto with keeps] ]).
Qed.

Lemma keeps_fc_finally vm codeFile configFile socketPath :
  keeps (cache_has Q) (Runner.fc_finally h vm codeFile configFile socketPath).
Proof.
  unfold Runner.fc_finally.
  apply keeps_bind; [auto with keeps | intros p].
  apply keeps_bind.
  - destruct p; [apply keeps_bind; [auto with keeps | intros _; now apply keeps_cache_frame]
                | auto with keeps].
  - intros _. repeat (first [ apply keeps_bind; [|intros ?] | apply keeps_cache_frame; reflexivity
                            | solve [auto 10 with keeps] ]).
Qed.

Lemma keeps_runWithFirecracker code id :
  keeps (cache_has Q) (Runner.runWithFirecracker h code id codeHash).
Proof.
  intros s H. unfold Runner.runWithFirecracker.
  destruct (Runner.vmCount (fst s) >=? Runner.maxVMs (fst s)); [exact H|].
  cbv zeta. apply (keeps_try_finally (cache_has Q)); [apply keeps_try_catch | | exact H].
  - apply keeps_fc_try.
  - intros e. apply keeps_ret.
  - apply keeps_fc_finally.
Qed.

Lemma keeps_docker_finally container codeFile :
  keeps (cache_has Q) (Runner.docker_finally h container codeFile).
Proof. unfold Runner.docker_finally. auto 10 with keeps. Qed.

Lemma keeps_runWithDocker code id :
  keeps (cache_has Q) (Runner.runWithDocker h code id codeHash).
Proof.
  intros s H. unfold Runner.runWithDocker.
  cbv zeta. apply (keeps_try_finally (cache_has Q)); [apply keeps_try_catch | | exact H].
  - unfold Runner.docker_try.
    repeat (first [ apply keeps_bind; [|intros ?] | apply keeps_cache_store; reflexivity
                  | solve [auto with keeps] ]).
  - intros e. apply keeps_ret.
  - apply keeps_docker_finally.
Qed.

Lemma keeps_run_script code : keeps (cache_has Q) (Runner.run_script h code).
Proof. intros s H. unfold Runner.run_script. destruct (vm_sandbox h code _); exact H. Qed.

Lemma keeps_runWithVMSandbox code id :
  keeps (cache_has Q) (Runner.runWithVMSandbox h code id codeHash).
Proof.
  unfold Runner.runWithVMSandbox.
  apply keeps_bind; [apply keeps_run_script | intros [calls|v]].
  - unfold Runner.sandbox_try.
    apply keeps_bind; [now apply keeps_cache_store | intros _; apply keeps_ret].
  - unfold Runner.sandbox_catch. destruct v; [apply keeps_ret | apply keeps_throw].
Qed.

Lemma keeps_kill_all ps : keeps (cache_has Q) (Runner.kill_all h ps).
Proof.
  induction ps as [|[vm child] ps IH]; cbn; auto 10 with keeps.
Qed.

Lemma keeps_shutdown : keeps (cache_has Q) (Runner.shutdown h).
Proof.
  unfold Runner.shutdown.
  apply keeps_bind; [apply keeps_gets | intros ps].
  apply keeps_bind; [apply keeps_kill_all | intros _].
  apply keeps_bind; [now apply keeps_cache_frame | intros _].
  auto 10 with keeps.
Qed.

Lemma keeps_checkAvailableExecutors : keeps (cache_has Q) (Runner.checkAvailableExecutors h).
Proof.
  unfold Runner.checkAvailableExecutors.
  repeat (first [ apply keeps_bind; [|intros ?] | apply keeps_try_catch; [|intros ?]
                | apply keeps_cache_frame; reflexivity | solve [auto with keeps] ]).
Qed.

End RunnerCache.

(** The runner's cache holds successful results only. *)
Lemma keeps_runJavaScript_success h code id :
  keeps (cache_has all_success) (Runner.runJavaScript h code id).
Proof.
  intros s H. unfold Runner.runJavaScript.
  destruct (JsMap.get _ _); [exact H|].
  destruct (Runner.useFirecracker _);
    [apply keeps_runWithFirecracker; [intros; now apply all_success_set | exact H]|].
  destruct (Runner.useDocker _);
    [apply keeps_runWithDocker; [intros; now apply all_success_set | exact H]|].
  apply keeps_runWithVMSandbox; [intros; now apply all_success_set | exact H].
Qed.

Lemma perform_cache_ok h c s :
  cache_has all_success s -> cache_has all_success (Session.perform h c s).
Proof.
  intros H. destruct c; cbn.
  - now apply keeps_checkAvailableExecutors.
  - now apply keeps_runJavaScript_success.
  - apply keeps_runWithFirecracker; [intros; now apply all_success_set | exact H].
  - apply keeps_runWithDocker; [intros; now apply all_success_set | exact H].
  - apply keeps_runWithVMSandbox; [intros; now apply all_success_set | exact H].
  - constructor.
  - now apply keeps_shutdown.
Qed.

Lemma reachable_cache_ok s : Session.reachable s -> cache_has all_success s.
Proof.
  induction 1 as [dirname fs | h c s _ IH].
  - constructor.
  - now apply perform_cache_ok.
Qed.

(** ** Failed results carry no output *)

Section FailureOutput.
Variable h : Host.

Lemma fc_try_success code vm codeHash codeFile configFile socketPath s res s' :
  Runner.fc_try h code vm codeHash codeFile configFile socketPath s = (Returned res, s') ->
  success res = true.
Proof.
  unfold Runner.fc_try. intros H.
  repeat (apply bind_returned in H as (? & ? & _ & H)).
  inversion H. reflexivity.
Qed.

Lemma runWithFirecracker_failure code id codeHash s :
  failure_has_no_output (fst (Runner.runWithFirecracker h code id codeHash s)).
Proof.
  intros res Hc Hfail. unfold Runner.runWithFirecracker in Hc.
  destruct (Runner.vmCount (fst s) >=? Runner.maxVMs (fst s)).
  - inversion Hc. reflexivity.
  - cbv zeta in Hc.
    destruct (Async.try_finally _ _ s) as [c s'] eqn:E. cbn in Hc. subst c.
    apply try_finally_returned in E as (s1 & E & _).
    apply try_catch_returned in E as [E | (e & s2 & _ & E)].
    + apply fc_try_success in E. congruence.
    + inversion E. reflexivity.
Qed.

Lemma docker_try_success code codeHash container codeFile s res s' :
  Runner.docker_try h code codeHash container codeFile s = (Returned res, s') ->
  success res = true.
Proof.
  unfold Runner.docker_try. intros H.
  repeat (apply bind_returned in H as (? & ? & _ & H)).
  inversion H. reflexivity.
Qed.

Lemma runWithDocker_failure code id codeHash s :
  failure_has_no_output (fst (Runner.runWithDocker h code id codeHash s)).
Proof.
  intros res Hc Hfail. unfold Runner.runWithDocker in Hc. cbv zeta in Hc.
  destruct (Async.try_finally _ _ s) as [c s'] eqn:E. cbn in Hc. subst c.
  apply try_finally_returned in E as (s1 & E & _).
  apply try_catch_returned in E as [E | (e & s2 & _ & E)].
  - apply docker_try_success in E. congruence.
  - inversion E. reflexivity.
Qed.

Lemma sandbox_try_success id codeHash calls s res s' :
  Runner.sandbox_try id codeHash calls s = (Returned res, s') -> success res = true.
Proof.
  unfold Runner.sandbox_try. intros H.
  repeat (apply bind_returned in H as (? & ? & _ & H)).
  inversion H. reflexivity.
Qed.

(** A call of the sandbox that returns has left the [try] block at its
    end, or the [catch] block with a failure. *)
Lemma sandbox_returned code id codeHash s res s' :
  Runner.runWithVMSandbox h code id codeHash s = (Returned res, s') ->
  (exists calls s1, Runner.sandbox_try id codeHash calls s1 = (Returned res, s')) \/
  (exists e, res = mkResult false ""
                     (if is_Error e
                         && JsString.includes "Script execution timed out" (message e)
                      then "Execution timed out" else message e)
                     (Some "vm-sandbox") None None None None).
Proof.
  unfold Runner.runWithVMSandbox. intros H.
  apply bind_returned in H as ([calls|v] & s1 & _ & H).
  - left. now exists calls, s1.
  - right. destruct v as [e|t]; [|discriminate].
    exists e. unfold Runner.sandbox_catch, Async.ret in H. now inversion H.
Qed.

Lemma runWithVMSandbox_failure code id codeHash s :
  failure_has_no_output (fst (Runner.runWithVMSandbox h code id codeHash s)).
Proof.
  intros res Hc Hfail.
  destruct (Runner.runWithVMSandbox h code id codeHash s) as [c s'] eqn:E.
  cbn in Hc. subst c.
  apply sandbox_returned in E as [(calls & s1 & E) | (e & ->)].
  - apply sandbox_try_success in E. congruence.
  - reflexivity.
Qed.

Lemma runJavaScript_failure code id s :
  cache_has all_success s -> failure_has_no_output (fst (Runner.runJavaScript h code id s)).
Proof.
  intros Hok. unfold Runner.runJavaScript.
  destruct (JsMap.get _ _) as [cached|] eqn:Hget.
  - intros res Hc Hfail. inversion Hc; subst res. cbn in Hfail.
    apply (Forall_get (fun r => success r = true) _ _ _ Hok) in Hget. congruence.
  - destruct (Runner.useFirecracker _); [apply runWithFirecracker_failure|].
    destruct (Runner.useDocker _); [apply runWithDocker_failure|].
    apply runWithVMSandbox_failure.
Qed.

Lemma v1_run_try_success code vm codeFile s res s' :
  RunnerV1.run_try h code vm codeFile s = (Returned res, s') -> success res = true.
Proof.
  unfold RunnerV1.run_try. intros H.
  repeat (apply bind_returned in H as (? & ? & _ & H)).
  inversion H. reflexivity.
Qed.

Lemma v1_runJavaScript_failure code id s :
  failure_has_no_output (fst (RunnerV1.runJavaScript h code id s)).
Proof.
  intros res Hc Hfail. unfold RunnerV1.runJavaScript in Hc.
  destruct (RunnerV1.vmCount (fst s) >=? RunnerV1.maxVMs (fst s)).
  - inversion Hc. reflexivity.
  - cbv zeta in Hc.
    destruct (Async.try_finally _ _ s) as [c s'] eqn:E. cbn in Hc. subst c.
    apply try_finally_returned in E as (s1 & E & _).
    apply try_catch_returned in E as [E | (e & s2 & _ & E)].
    + apply v1_run_try_success in E. congruence.
    + inversion E. reflexivity.
Qed.

Lemma v1_simulated_failure code id s :
  failure_has_no_output (fst (RunnerV1.runJavaScriptWithFirecracker h code id s)).
Proof.
  intros res Hc Hfail. unfold RunnerV1.runJavaScriptWithFirecracker in Hc. cbv zeta in Hc.
  destruct (Async.try_finally _ _ s) as [c s'] eqn:E. cbn in Hc. subst c.
  apply try_finally_returned in E as (s1 & E & _).
  apply try_catch_returned in E as [E | (e & s2 & _ & E)].
  - unfold RunnerV1.sim_try in E.
    repeat (apply bind_returned in E as (? & ? & _ & E)).
    inversion E; subst res. discriminate.
  - inversion E. reflexivity.
Qed.

Lemma executeLocalJS_failure {C} code (s : C * World) :
  failure_has_no_output (fst (Index.executeLocalJS h code s)).
Proof.
  intros res Hc Hfail. unfold Index.executeLocalJS in Hc.
  destruct (vm_local h code) as [calls|[e|t]|]; cbn in Hc; inversion Hc; subst res;
    [discriminate | reflexivity].
Qed.

End FailureOutput.

(** ** The Firecracker path has no time limit *)

(** C1 (as the code has it on the Firecracker path).  When the source
    does not end, [runJavaScript] on a runner that has found Firecracker
    does not settle: no result, of any class, ever comes back.  The slot
    taken for the call stays taken. *)
Theorem firecracker_run_never_settles (h : Host) (code id : string)
    (r : Runner.t) (w : World) :
  Runner.useFirecracker r = true ->
  JsMap.get (Runner.cache r) (MD5.digest_hex code) = None ->
  Runner.vmCount r < Runner.maxVMs r ->
  fs_write h (Runner.fc_codeFile r id) = None ->
  fs_write h (Runner.fc_configFile r id) = None ->
  exec h (NodeFile (Runner.fc_codeFile r id)) = ExecPending ->
  fst (Runner.runJavaScript h code id (r, w)) = Pending /\
  Runner.vmCount (fst (snd (Runner.runJavaScript h code id (r, w)))) = Runner.vmCount r + 1.
Proof.
  intros Hfc Hmiss Hslot Hw1 Hw2 Hexec.
  unfold Runner.runJavaScript. cbn [fst snd]. rewrite Hmiss, Hfc.
  unfold Runner.runWithFirecracker. cbn [fst snd].
  destruct (Runner.vmCount r >=? Runner.maxVMs r) eqn:E; [lia|].
  unfold Runner.fc_try. run_async. rewrite Hw1, Hw2. cbn. rewrite Hexec. cbn.
  split; reflexivity.
Qed.

Lemma firecracker_run_never_settles_witness :
  fst (Runner.runJavaScript Sample.looping "while(true){}" "id-1"
         (Runner.set_useFirecracker true (Runner.init "/srv"), Sample.bare)) = Pending /\
  Runner.vmCount (fst (snd (Runner.runJavaScript Sample.looping "while(true){}" "id-1"
         (Runner.set_useFirecracker true (Runner.init "/srv"), Sample.bare)))) = 0 + 1.
Proof.
  apply (firecracker_run_never_settles Sample.looping "while(true){}" "id-1"
           (Runner.set_useFirecracker true (Runner.init "/srv")) Sample.bare);
    solve [reflexivity | cbn; lia].
Defined.

(** The sandbox does stop such a source, at the time limit, and answers
    with a failure.  The error of the time limit is no instance of the
    runner's [Error], so the [catch] block does not take it for a
    time-out: the result carries the message of Node as it is, and not
    the text "Execution timed out". *)
Lemma sandbox_reports_timeout (h : Host) (code id codeHash : string) (s : Runner.t * World) :
  vm_sandbox h code (Runner.executionTimeout (fst s)) = VmTimedOut ->
  exists res,
    Runner.runWithVMSandbox h code id codeHash s
      = (Returned res, (fst s, log_event (EvSandbox code) (snd s))) /\
    success res = false /\ output res = "" /\
    error res = "Script execution timed out after "
                +:+ pretty (Runner.executionTimeout (fst s)) +:+ "ms" /\
    error res <> "Execution timed out".
Proof.
  intros Hvm. unfold Runner.runWithVMSandbox, Runner.run_script, Runner.sandbox_catch.
  open_steps. cbn [fst snd]. rewrite Hvm. reduce_steps.
  eexists. split; [reflexivity|]. cbn [success output error is_Error andb].
  split; [reflexivity|]. split; [reflexivity|]. split; [reflexivity|].
  cbn. discriminate.
Qed.

(** ** The first runner: a failed removal keeps the slot *)

(** C2 (as the first runner has it).  [this.vmCount--] stands behind
    [await fs.remove(codeFile)] inside one [try]: when the removal
    rejects, the call still returns its result, and the slot it took is
    not given back. *)
Theorem v1_failed_removal_keeps_slot (h : Host) (code id msg : string)
    (r : RunnerV1.t) (w : World) :
  RunnerV1.vmCount r < RunnerV1.maxVMs r ->
  fs_remove h (RunnerV1.codeFile_of r id) = Some msg ->
  exec h (NodeFile (RunnerV1.codeFile_of r id)) <> ExecPending ->
  (exists res, fst (RunnerV1.runJavaScript h code id (r, w)) = Returned res) /\
  RunnerV1.vmCount (fst (snd (RunnerV1.runJavaScript h code id (r, w))))
    = RunnerV1.vmCount r + 1.
Proof.
  intros Hslot Hrm Hexec.
  unfold RunnerV1.runJavaScript. cbn [fst snd].
  destruct (RunnerV1.vmCount r >=? RunnerV1.maxVMs r) eqn:E; [lia|].
  unfold RunnerV1.run_try, RunnerV1.run_catch, RunnerV1.run_finally. run_async.
  rewrite Hrm.
  destruct (fs_write h (RunnerV1.codeFile_of r id)); cbn.
  - split; [eexists; reflexivity | reflexivity].
  - destruct (exec h (NodeFile (RunnerV1.codeFile_of r id))); cbn;
      try (split; [eexists; reflexivity | reflexivity]).
    congruence.
Qed.

Lemma v1_failed_removal_keeps_slot_witness :
  (exists res, fst (RunnerV1.runJavaScript Sample.stuck_files "1" "id-1"
                      (RunnerV1.init "/srv", Sample.bare)) = Returned res) /\
  RunnerV1.vmCount (fst (snd (RunnerV1.runJavaScript Sample.stuck_files "1" "id-1"
                      (RunnerV1.init "/srv", Sample.bare)))) = 0 + 1.
Proof.
  apply (v1_failed_removal_keeps_slot Sample.stuck_files "1" "id-1"
           "EBUSY: resource busy or locked" (RunnerV1.init "/srv") Sample.bare);
    solve [reflexivity | cbn; lia | discriminate].
Defined.

(** Three such runs, one after the other, and the first runner turns
    every later request away, whatever the machine then does, although
    nothing is running. *)
Lemma v1_pool_starved :
  let s1 := snd (RunnerV1.runJavaScript Sample.stuck_files "1" "id-1"
                   (RunnerV1.init "/srv", Sample.bare)) in
  let s2 := snd (RunnerV1.runJavaScript Sample.stuck_files "2" "id-2" s1) in
  let s3 := snd (RunnerV1.runJavaScript Sample.stuck_files "3" "id-3" s2) in
  RunnerV1.vmCount (fst s3) = 3 /\
  forall h code id,
    RunnerV1.runJavaScript h code id s3 = (Returned RunnerV1.queue_full, s3).
Proof.
  cbv zeta. split; [reflexivity|]. intros h code id.
  unfold RunnerV1.runJavaScript.
  match goal with |- (if ?b then _ else _) = _ => replace b with true by reflexivity end.
  reflexivity.
Qed.

(** ** Empty source *)

(** C10.  A request whose [code] is the empty string gets the answer of a
    request with no [code] at all: status 400, "No code provided", with no
    change to any state (no digest, no cache entry, no run); and whatever
    the request holds, no empty source is ever handed to the runner. *)
Theorem empty_source_is_no_source (C : Type) (h : Host)
    (runJavaScript : string -> Async.t (C * World) result)
    (sv : Index.Server) (s : C * World) (code : js_value) (w : World) :
  Index.post_execute h runJavaScript (JsStr "") (sv, s)
    = Index.post_execute h runJavaScript JsUndefined (sv, s) /\
  Index.post_execute h runJavaScript (JsStr "") (sv, s)
    = (Returned (Index.Json 400 (Index.ErrorBody "No code provided")), (sv, s)) /\
  ~ In "" (fst (snd (snd (Index.post_execute h recording_runner code (sv, ([], w)))))).
Proof.
  split; [reflexivity|]. split; [reflexivity|].
  unfold Index.post_execute.
  destruct (negb (Index.truthy code)) eqn:Ht; [cbn; tauto|].
  destruct code as [| |b|n|src|]; try (cbn; tauto).
  cbn in Ht. apply negb_false_iff, negb_true_iff, String.eqb_neq in Ht.
  unfold Index.cache_key, Index.lift, Index.on_server, recording_runner. run_async.
  destruct (JsMap.get _ _); [cbn; tauto|]. cbn [fst snd Index.source_of].
  destruct (Index.firecrackerAvailable sv); cbn [fst snd].
  - intros [Hin|[]]. congruence.
  - unfold Index.executeLocalJS.
    destruct (vm_local h src) as [calls|[e|t]|]; cbn [fst snd]; cbn; tauto.
Qed.

(** C9.  Whatever path produced it (the queue-full answer, a backend's
    [catch] block with or without a time-out, either runner, the local
    fallback of the handler, or an entry served from the runner's cache),
    a result with [success = false] has the empty string as [output]. *)
Theorem failed_results_have_no_output (h : Host) (code id codeHash : string)
    (s : Runner.t * World) (s1 : RunnerV1.t * World) :
  Session.reachable s ->
  failure_has_no_output (fst (Runner.runJavaScript h code id s)) /\
  failure_has_no_output (fst (Runner.runWithFirecracker h code id codeHash s)) /\
  failure_has_no_output (fst (Runner.runWithDocker h code id codeHash s)) /\
  failure_has_no_output (fst (Runner.runWithVMSandbox h code id codeHash s)) /\
  failure_has_no_output (fst (RunnerV1.runJavaScript h code id s1)) /\
  failure_has_no_output (fst (RunnerV1.runJavaScriptWithFirecracker h code id s1)) /\
  failure_has_no_output (fst (Index.executeLocalJS h code s1)).
Proof.
  intros Hreach. repeat split.
  - apply runJavaScript_failure, reachable_cache_ok, Hreach.
  - apply runWithFirecracker_failure.
  - apply runWithDocker_failure.
  - apply runWithVMSandbox_failure.
  - apply v1_runJavaScript_failure.
  - apply v1_simulated_failure.
  - apply executeLocalJS_failure.
Qed.

Lemma failed_results_have_no_output_witness :
  failure_has_no_output
    (fst (Runner.runJavaScript Sample.looping "while(true){}" "id-1"
            (Runner.init "/srv", Sample.bare))) /\
  failure_has_no_output
    (fst (Runner.runWithFirecracker Sample.looping "while(true){}" "id-1" "k"
            (Runner.init "/srv", Sample.bare))) /\
  failure_has_no_output
    (fst (Runner.runWithDocker Sample.looping "while(true){}" "id-1" "k"
            (Runner.init "/srv", Sample.bare))) /\
  failure_has_no_output
    (fst (Runner.runWithVMSandbox Sample.looping "while(true){}" "id-1" "k"
            (Runner.init "/srv", Sample.bare))) /\
  failure_has_no_output
    (fst (RunnerV1.runJavaScript Sample.looping "while(true){}" "id-1"
            (RunnerV1.init "/srv", Sample.bare))) /\
  failure_has_no_output
    (fst (RunnerV1.runJavaScriptWithFirecracker Sample.looping "while(true){}" "id-1"
            (RunnerV1.init "/srv", Sample.bare))) /\
  failure_has_no_output
    (fst (Index.executeLocalJS Sample.looping "while(true){}"
            (RunnerV1.init "/srv", Sample.bare))).
Proof.
  apply (failed_results_have_no_output Sample.looping "while(true){}" "id-1" "k"
           (Runner.init "/srv", Sample.bare) (RunnerV1.init "/srv", Sample.bare)).
  apply Session.reach_init.
Defined.

(** On that machine the sandbox path does return such a failure. *)
Example sandbox_timeout_result :
  fst (Runner.runJavaScript Sample.looping "while(true){}" "id-1"
         (Runner.init "/srv", Sample.bare))
  = Returned (mkResult false "" "Script execution timed out after 5000ms"
                       (Some "vm-sandbox") None None None None).
Proof. vm_compute. reflexivity. Qed.

(** ** The handler's cache: what it stores *)

Lemma store_noop key res m :
  success res && String.eqb (error res) "" = false -> Index.store key res m = m.
Proof. intros H. unfold Index.store. now rewrite H. Qed.

Lemma clean_test res :
  success res && String.eqb (error res) "" = true <-> Index.clean res.
Proof.
  unfold Index.clean. rewrite andb_true_iff, String.eqb_eq. reflexivity.
Qed.

Lemma store_keeps_clean key res m : all_clean m -> all_clean (Index.store key res m).
Proof.
  intros Hm. unfold Index.store.
  destruct (success res && String.eqb (error res) "") eqn:Hc; [|exact Hm].
  apply clean_test in Hc.
  assert (Hset : all_clean (JsMap.set m key res))
    by (apply Forall_set; [exact Hm | intros ?; exact Hc]).
  destruct (Index.cache_limit <? _)%nat; [|exact Hset].
  destruct (JsMap.first_key _); [|exact Hset].
  apply Forall_delete, Hset.
Qed.

Section HandlerCache.
Context {C : Type}.
Variable h : Host.
Variable run : string -> Async.t (C * World) result.

Lemma keeps_lift {A} (m : Async.t (C * World) A) : keeps serves_clean (Index.lift m).
Proof.
  intros s H. unfold Index.lift. destruct (m (snd s)) as [c cw]. exact H.
Qed.

Lemma keeps_post_execute code : keeps serves_clean (Index.post_execute h run code).
Proof.
  unfold Index.post_execute.
  destruct (negb (Index.truthy code)); [apply keeps_ret|].
  apply keeps_try_catch; [|intros e; apply keeps_ret].
  apply keeps_bind; [unfold Index.cache_key; destruct code; auto with keeps | intros key].
  apply keeps_bind; [apply keeps_gets | intros [cached|]]; [apply keeps_ret|].
  apply keeps_bind; [apply keeps_gets | intros fc].
  apply keeps_bind.
  - destruct fc; [apply keeps_bind; [apply keeps_lift | intros r; apply keeps_ret]
                 | apply keeps_lift].
  - intros res. apply keeps_bind; [|intros _; apply keeps_ret].
    apply keeps_modify. intros s H. unfold serves_clean in *. cbn.
    now apply store_keeps_clean.
Qed.

End HandlerCache.

Lemma serve_all_keeps_clean {C : Type}
    (reqs : list (Host * (string -> Async.t (C * World) result) * js_value)) s :
  serves_clean s -> serves_clean (Index.serve_all reqs s).
Proof.
  revert s. induction reqs as [|[[h run] code] reqs IH]; intros s H; cbn; [exact H|].
  apply IH. now apply keeps_post_execute.
Qed.

(** C3, as the code has it.  The handler's cache takes a result only when
    it is a success with an empty [error]: storing anything else changes
    nothing, and no sequence of requests puts a failure or an error text
    into [outputCache].  The runner's cache takes every result of a run
    that ended well, whatever its [error] text (what the run wrote to
    standard error): in every state the runner can reach, its entries all
    have [success = true]. *)
Theorem caches_hold_successes (C : Type)
    (reqs : list (Host * (string -> Async.t (C * World) result) * js_value))
    (firecracker : bool) (st : C * World) (key : string) (res : result)
    (m : list (string * result)) (s : Runner.t * World) :
  Session.reachable s ->
  (success res && String.eqb (error res) "" = false -> Index.store key res m = m) /\
  all_clean (Index.outputCache
               (fst (Index.serve_all reqs (Index.fresh firecracker, st)))) /\
  all_success (Runner.cache (fst s)).
Proof.
  intros Hreach. split; [apply store_noop|]. split.
  - apply (serve_all_keeps_clean reqs (Index.fresh firecracker, st)). constructor.
  - apply reachable_cache_ok, Hreach.
Qed.

Lemma caches_hold_successes_witness :
  (success RunnerV1.queue_full && String.eqb (error RunnerV1.queue_full) "" = false ->
   Index.store "k" RunnerV1.queue_full [] = []) /\
  all_clean (Index.outputCache
               (fst (Index.serve_all
                       [(Sample.calm,
                         fun code => Runner.runJavaScript Sample.calm code "id-1",
                         JsStr "1")]
                       (Index.fresh false, (Runner.init "/srv", Sample.bare))))) /\
  all_success (Runner.cache (fst (Runner.init "/srv", Sample.bare))).
Proof.
  apply (caches_hold_successes Runner.t
           [(Sample.calm, fun code => Runner.runJavaScript Sample.calm code "id-1",
             JsStr "1")]
           false (Runner.init "/srv", Sample.bare) "k" RunnerV1.queue_full []
           (Runner.init "/srv", Sample.bare)).
  apply Session.reach_init.
Defined.

(** C3 as stated fails on the runner's cache: one run of a source that
    writes to [console.error] and ends well leaves, in a state the runner
    reaches, a cached entry whose [error] is not empty. *)
Lemma runner_caches_error_text :
  Session.reachable
    (Session.perform Sample.noisy (Session.Run "console.error('deprecated')" "id-1")
       (Runner.init "/srv", Sample.bare)) /\
  JsMap.get
    (Runner.cache
       (fst (Session.perform Sample.noisy (Session.Run "console.error('deprecated')" "id-1")
               (Runner.init "/srv", Sample.bare))))
    (MD5.digest_hex "console.error('deprecated')")
  = Some (mkResult true "" "deprecated" (Some "vm-sandbox") None None None (Some "id-1")).
Proof.
  split; [apply Session.reach_step, Session.reach_init|].
  vm_compute. reflexivity.
Qed.

(** ** The handler's cache: its size and its order *)

Lemma size_set_le {V} (m : list (string * V)) k v :
  (JsMap.size (JsMap.set m k v) <= Datatypes.S (JsMap.size m))%nat.
Proof.
  destruct (JsMap.get m k) eqn:E.
  - rewrite (size_set_present _ _ _ _ E). lia.
  - rewrite (size_set_fresh _ _ _ E). lia.
Qed.

Lemma delete_first_key {V} (m : list (string * V)) k :
  JsMap.first_key m = Some k -> JsMap.delete m k = tl m.
Proof.
  destruct m as [|[k0 v0] m]; cbn; [discriminate|].
  intros [= ->]. now rewrite String.eqb_refl.
Qed.

Lemma store_size_bound key res m :
  (JsMap.size m <= Index.cache_limit)%nat ->
  (JsMap.size (Index.store key res m) <= Index.cache_limit)%nat.
Proof.
  intros Hm. unfold Index.store.
  destruct (success res && String.eqb (error res) ""); [|exact Hm].
  pose proof (size_set_le m key res) as Hle.
  destruct (Index.cache_limit <? _)%nat eqn:Hlt.
  - destruct (JsMap.first_key _) as [k0|] eqn:Hk.
    + rewrite (delete_first_key _ _ Hk).
      unfold JsMap.size in *. destruct (JsMap.set m key res); cbn in *; lia.
    + destruct (JsMap.set m key res) as [|[] ?]; [|discriminate].
      cbn. lia.
  - apply Nat.ltb_ge in Hlt. exact Hlt.
Qed.

Lemma store_all_size_bound entries m :
  (JsMap.size m <= Index.cache_limit)%nat ->
  (JsMap.size (Index.store_all entries m) <= Index.cache_limit)%nat.
Proof.
  revert m. induction entries as [|[k r] entries IH]; intros m Hm; cbn; [exact Hm|].
  apply IH, store_size_bound, Hm.
Qed.

Lemma store_all_snoc entries k r m :
  Index.store_all (entries ++ [(k, r)])%list m = Index.store k r (Index.store_all entries m).
Proof. unfold Index.store_all. now rewrite fold_left_app. Qed.

Lemma get_drop_None {V} (m : list (string * V)) n k :
  ~ In k (JsMap.keys m) -> JsMap.get (drop n m) k = None.
Proof.
  intros Hk. apply get_None_not_key. intros Hin. apply Hk.
  unfold JsMap.keys in *. apply in_map_iff in Hin as ((k0 & v0) & <- & Hin).
  apply in_map_iff. exists (k0, v0). split; [reflexivity|].
  apply list_elem_of_In. apply list_elem_of_In in Hin.
  exact (subseteq_drop n m _ Hin).
Qed.

(** With distinct keys and clean results, the cache is the last
    [cache_limit] of the entries stored, in the order they came. *)
Lemma store_all_fifo entries :
  NoDup (JsMap.keys entries) ->
  Forall (fun kv => Index.clean (snd kv)) entries ->
  Index.store_all entries [] = drop (length entries - Index.cache_limit) entries.
Proof.
  induction entries as [|[k r] entries IH] using rev_ind; intros Hnd Hclean; [reflexivity|].
  unfold JsMap.keys in Hnd. rewrite map_app in Hnd. cbn in Hnd.
  apply NoDup_app in Hnd as (Hnd & Hfresh & _).
  apply Forall_app in Hclean as [Hclean Hr]. inversion Hr as [|? ? Hc _]; subst. cbn in Hc.
  rewrite store_all_snoc, (IH Hnd Hclean). clear IH.
  assert (Hk : ~ In k (JsMap.keys entries)).
  { intros Hin. apply (Hfresh k); [apply list_elem_of_In; exact Hin | left]. }
  unfold Index.store. apply clean_test in Hc. rewrite Hc.
  rewrite (set_fresh _ _ _ (get_drop_None _ _ _ Hk)).
  unfold JsMap.size. rewrite !length_app, length_drop. cbn [length].
  destruct (Index.cache_limit <? _)%nat eqn:Hlt.
  - apply Nat.ltb_lt in Hlt.
    assert (Hlen : (Index.cache_limit <= length entries)%nat) by lia.
    assert (H1 : (1 <= Index.cache_limit)%nat) by (unfold Index.cache_limit; lia).
    destruct (drop (length entries - Index.cache_limit) entries) as [|[k0 v0] rest] eqn:Hd.
    { apply (f_equal length) in Hd. rewrite length_drop in Hd. cbn in Hd. lia. }
    cbn. rewrite String.eqb_refl.
    replace (length entries + 1 - Index.cache_limit)%nat
      with (Datatypes.S (length entries - Index.cache_limit)) by lia.
    rewrite drop_app_le by lia.
    f_equal.
    replace (Datatypes.S (length entries - Index.cache_limit))
      with (length entries - Index.cache_limit + 1)%nat by lia.
    rewrite <- drop_drop, Hd. reflexivity.
  - apply Nat.ltb_ge in Hlt.
    replace (length entries - Index.cache_limit)%nat with 0%nat by lia.
    replace (length entries + 1 - Index.cache_limit)%nat with 0%nat by lia.
    reflexivity.
Qed.

Lemma get_In_NoDup {V} (m : list (string * V)) k v :
  NoDup (JsMap.keys m) -> In (k, v) m -> JsMap.get m k = Some v.
Proof.
  induction m as [|[k0 v0] m IH]; cbn; [tauto|].
  intros Hnd [Heq | Hin].
  - inversion Heq; subst. now rewrite String.eqb_refl.
  - apply NoDup_cons in Hnd as [Hk0 Hnd].
    destruct (String.eqb k0 k) eqn:E; [|now apply IH].
    apply String.eqb_eq in E. subst k0. exfalso. apply Hk0.
    apply list_elem_of_In. unfold JsMap.keys. apply in_map_iff. now exists (k, v).
Qed.

(** ** The runner's cache: nothing is ever taken out by a run *)

Lemma runner_entry_stays h code id s k cached :
  JsMap.get (Runner.cache (fst s)) k = Some cached ->
  JsMap.get (Runner.cache (fst (snd (Runner.runJavaScript h code id s)))) k = Some cached.
Proof.
  intros Hk. unfold Runner.runJavaScript.
  destruct (JsMap.get (Runner.cache (fst s)) (MD5.digest_hex code)) eqn:Hmiss; [exact Hk|].
  assert (Hne : MD5.digest_hex code <> k) by congruence.
  assert (HQ : forall m res, JsMap.get m k = Some cached -> success res = true ->
                 JsMap.get (JsMap.set m (MD5.digest_hex code) res) k = Some cached).
  { intros m res Hm _. now rewrite get_set_ne. }
  destruct (Runner.useFirecracker _);
    [exact (keeps_runWithFirecracker h _ _ HQ code id s Hk)|].
  destruct (Runner.useDocker _);
    [exact (keeps_runWithDocker h _ _ HQ code id s Hk)|].
  exact (keeps_runWithVMSandbox h _ _ HQ code id s Hk).
Qed.

(** C5, as the code has it.  The handler's cache never holds more than
    [cache_limit] (100) entries, whatever is stored; after 101 clean
    results under distinct keys the first one stored is gone and each of
    the other 100 is still there, with its result.  The runner's own
    cache has no capacity: a run never takes an entry out of it. *)
Theorem handler_cache_bounded_fifo (stores entries : list (string * result))
    (h : Host) (code id k : string) (cached : result) (s : Runner.t * World) :
  NoDup (JsMap.keys entries) ->
  Forall (fun kv => Index.clean (snd kv)) entries ->
  length entries = Datatypes.S Index.cache_limit ->
  JsMap.get (Runner.cache (fst s)) k = Some cached ->
  (JsMap.size (Index.store_all stores []) <= Index.cache_limit)%nat /\
  JsMap.size (Index.store_all entries []) = Index.cache_limit /\
  (forall e, head entries = Some e ->
             JsMap.get (Index.store_all entries []) (fst e) = None) /\
  (forall e, In e (tl entries) ->
             JsMap.get (Index.store_all entries []) (fst e) = Some (snd e)) /\
  JsMap.get (Runner.cache (fst (snd (Runner.runJavaScript h code id s)))) k = Some cached.
Proof.
  intros Hnd Hclean Hlen Hk.
  split; [apply store_all_size_bound, Nat.le_0_l|].
  rewrite (store_all_fifo entries Hnd Hclean), Hlen.
  replace (Datatypes.S Index.cache_limit - Index.cache_limit)%nat with 1%nat by lia.
  destruct entries as [|[k0 r0] rest]; [discriminate|]. cbn [skipn head tl length] in *.
  unfold JsMap.keys in Hnd. cbn [map fst] in Hnd. apply NoDup_cons in Hnd as [Hk0 Hnd].
  rewrite drop_0.
  split; [unfold JsMap.size; lia|]. split; [|split].
  - intros e [= <-]. cbn. apply get_None_not_key. intros Hin. apply Hk0.
    apply list_elem_of_In. exact Hin.
  - intros [k1 r1] Hin. cbn. now apply get_In_NoDup.
  - now apply runner_entry_stays.
Qed.

Lemma handler_cache_bounded_fifo_witness :
  (JsMap.size (Index.store_all [("k", RunnerV1.queue_full)] []) <= Index.cache_limit)%nat /\
  JsMap.size (Index.store_all (Sample.numbered 101) []) = Index.cache_limit /\
  (forall e, head (Sample.numbered 101) = Some e ->
             JsMap.get (Index.store_all (Sample.numbered 101) []) (fst e) = None) /\
  (forall e, In e (tl (Sample.numbered 101)) ->
             JsMap.get (Index.store_all (Sample.numbered 101) []) (fst e) = Some (snd e)) /\
  JsMap.get
    (Runner.cache
       (fst (snd (Runner.runJavaScript Sample.calm "2" "id-2"
                    (Session.perform Sample.calm (Session.Run "1" "id-1")
                       (Runner.init "/srv", Sample.bare))))))
    (MD5.digest_hex "1")
  = Some (mkResult true "" "" (Some "vm-sandbox") None None None (Some "id-1")).
Proof.
  apply (handler_cache_bounded_fifo [("k", RunnerV1.queue_full)] (Sample.numbered 101)
           Sample.calm "2" "id-2" (MD5.digest_hex "1")
           (mkResult true "" "" (Some "vm-sandbox") None None None (Some "id-1"))
           (Session.perform Sample.calm (Session.Run "1" "id-1")
              (Runner.init "/srv", Sample.bare))).
  - apply (bool_decide_unpack _). vm_compute. exact I.
  - apply (bool_decide_unpack _). vm_compute. exact I.
  - reflexivity.
  - vm_compute. reflexivity.
Defined.

Lemma perform_all_reachable cs s :
  Session.reachable s -> Session.reachable (Session.perform_all cs s).
Proof.
  revert s. induction cs as [|[h c] cs IH]; intros s H; cbn; [exact H|].
  apply IH. now constructor.
Qed.

(** C5 as stated fails on the runner's cache: 101 runs of distinct
    sources leave 101 entries in it, more than the limit, and the one
    stored first can still be read. *)
Lemma runner_cache_grows_past_limit :
  Session.reachable
    (Session.perform_all (Sample.numbered_runs 101) (Runner.init "/srv", Sample.bare)) /\
  (Index.cache_limit <
   JsMap.size (Runner.cache
                 (fst (Session.perform_all (Sample.numbered_runs 101)
                         (Runner.init "/srv", Sample.bare)))))%nat /\
  JsMap.get
    (Runner.cache
       (fst (Session.perform_all (Sample.numbered_runs 101)
               (Runner.init "/srv", Sample.bare))))
    (MD5.digest_hex "0")
  = Some (mkResult true "" "" (Some "vm-sandbox") None None None (Some "id-0")).
Proof.
  split; [apply perform_all_reachable, Session.reach_init|].
  split.
  - apply Nat.ltb_lt. vm_compute. reflexivity.
  - vm_compute. reflexivity.
Qed.

(** ** A source submitted twice *)

Lemma store_get_clean key res m :
  JsMap.get m key = None -> Index.clean res ->
  JsMap.get (Index.store key res m) key = Some res.
Proof.
  intros Hmiss Hc. unfold Index.store. apply clean_test in Hc. rewrite Hc.
  destruct (Index.cache_limit <? _)%nat eqn:Hlt; [|apply get_set_eq].
  destruct (JsMap.first_key _) as [k0|] eqn:Hk; [|apply get_set_eq].
  rewrite get_delete_ne; [apply get_set_eq|].
  intros ->. destruct m as [|[k1 v1] m].
  - cbn in Hlt. discriminate.
  - cbn in Hk, Hmiss. destruct (String.eqb k1 key) eqn:E; [discriminate|].
    cbn in Hk. inversion Hk; subst. now rewrite String.eqb_refl in E.
Qed.

Section RunTwice.
Variable h : Host.

Lemma fc_try_cached code vm codeHash codeFile configFile socketPath s res s' :
  Runner.fc_try h code vm codeHash codeFile configFile socketPath s = (Returned res, s') ->
  JsMap.get (Runner.cache (fst s')) codeHash = Some res.
Proof.
  unfold Runner.fc_try. intros H.
  do 6 (apply bind_returned in H as (? & ? & _ & H)).
  apply bind_returned in H as (? & ? & Hs & H).
  inversion H; subst. inversion Hs; subst. cbn. apply get_set_eq.
Qed.

Lemma docker_try_cached code codeHash container codeFile s res s' :
  Runner.docker_try h code codeHash container codeFile s = (Returned res, s') ->
  JsMap.get (Runner.cache (fst s')) codeHash = Some res.
Proof.
  unfold Runner.docker_try. intros H.
  do 3 (apply bind_returned in H as (? & ? & _ & H)).
  apply bind_returned in H as (? & ? & Hs & H).
  inversion H; subst. inversion Hs; subst. cbn. apply get_set_eq.
Qed.

Lemma sandbox_try_cached id codeHash calls s res s' :
  Runner.sandbox_try id codeHash calls s = (Returned res, s') ->
  JsMap.get (Runner.cache (fst s')) codeHash = Some res.
Proof.
  unfold Runner.sandbox_try. intros H.
  apply bind_returned in H as (? & ? & Hs & H).
  inversion H; subst. inversion Hs; subst. cbn. apply get_set_eq.
Qed.

(** A run that returns a success has stored it under the digest. *)
Lemma run_success_cached code id s res s' :
  JsMap.get (Runner.cache (fst s)) (MD5.digest_hex code) = None ->
  Runner.runJavaScript h code id s = (Returned res, s') ->
  success res = true ->
  JsMap.get (Runner.cache (fst s')) (MD5.digest_hex code) = Some res.
Proof.
  intros Hmiss Hrun Hres. unfold Runner.runJavaScript in Hrun. rewrite Hmiss in Hrun.
  destruct (Runner.useFirecracker _); [|destruct (Runner.useDocker _)].
  - unfold Runner.runWithFirecracker in Hrun.
    destruct (Runner.vmCount _ >=? _); [inversion Hrun; subst; discriminate|].
    cbv zeta in Hrun. apply try_finally_returned in Hrun as (s1 & Hbody & Hfin).
    apply try_catch_returned in Hbody as [Hbody | (e & s2 & _ & Hbody)];
      [|inversion Hbody; subst; discriminate].
    apply fc_try_cached in Hbody.
    pose proof (keeps_fc_finally h (fun m => JsMap.get m (MD5.digest_hex code) = Some res)
                  id (Runner.fc_codeFile (fst s) id) (Runner.fc_configFile (fst s) id)
                  (Runner.fc_socketPath id) s1 Hbody) as Hk.
    now rewrite Hfin in Hk.
  - unfold Runner.runWithDocker in Hrun.
    cbv zeta in Hrun. apply try_finally_returned in Hrun as (s1 & Hbody & Hfin).
    apply try_catch_returned in Hbody as [Hbody | (e & s2 & _ & Hbody)];
      [|inversion Hbody; subst; discriminate].
    apply docker_try_cached in Hbody.
    pose proof (keeps_docker_finally h (fun m => JsMap.get m (MD5.digest_hex code) = Some res)
                  (Runner.docker_container id) (Runner.fc_codeFile (fst s) id) s1 Hbody) as Hk.
    now rewrite Hfin in Hk.
  - apply sandbox_returned in Hrun as [(calls & s2 & Hbody) | (e & ->)];
      [|discriminate].
    now apply sandbox_try_cached in Hbody.
Qed.

End RunTwice.

Lemma run_twice h1 h2 code id1 id2 s res1 s1 :
  Runner.runJavaScript h1 code id1 s = (Returned res1, s1) ->
  success res1 = true ->
  exists res2,
    Runner.runJavaScript h2 code id2 s1 = (Returned res2, s1) /\
    fromCache res2 = Some true /\ output res2 = output res1.
Proof.
  intros Hrun Hres.
  destruct (JsMap.get (Runner.cache (fst s)) (MD5.digest_hex code)) as [cached|] eqn:Hget.
  - unfold Runner.runJavaScript in Hrun. rewrite Hget in Hrun. inversion Hrun; subst.
    exists (with_fromCache cached). unfold Runner.runJavaScript. rewrite Hget.
    repeat split.
  - pose proof (run_success_cached h1 code id1 s res1 s1 Hget Hrun Hres) as Hc.
    exists (with_fromCache res1). unfold Runner.runJavaScript. rewrite Hc.
    repeat split.
Qed.

Lemma post_twice {C : Type} h1 h2
    (run1 run2 : string -> Async.t (C * World) result) code s status res s1 :
  Index.post_execute h1 run1 (JsStr code) s
    = (Returned (Index.Json status (Index.ResultBody res)), s1) ->
  Index.clean res ->
  Index.post_execute h2 run2 (JsStr code) s1
    = (Returned (Index.Json 200 (Index.ResultBody res)), s1).
Proof.
  intros Hpost Hclean. unfold Index.post_execute in *.
  destruct (negb (Index.truthy (JsStr code))); [discriminate|].
  assert (Hkey : JsMap.get (Index.outputCache (fst s1)) (MD5.digest_hex code) = Some res).
  { revert Hpost. unfold Index.cache_key, Index.lift, Index.on_server. run_async.
    destruct (JsMap.get _ _) as [cached|] eqn:Hget.
    - intros [= <- <- <-]. exact Hget.
    - cbn [Index.source_of].
      destruct (Index.firecrackerAvailable (fst s)).
      + destruct (run1 code (snd s)) as [[r|e|] cw]; cbn [fst snd]; intros [= <- <- <-].
        cbn. now apply store_get_clean.
      + destruct (Index.executeLocalJS h1 code (snd s)) as [[r|e|] cw];
          cbn [fst snd]; intros [= <- <- <-].
        cbn. now apply store_get_clean. }
  unfold Index.cache_key. run_async. rewrite Hkey. reflexivity.
Qed.

(** C6, as the code has it.  When a source has produced a success, the
    same source submitted again is answered from a cache, with the same
    output, and nothing else happens (the state, the machine's included,
    is the one before the call).  [runJavaScript] returns the cached result
    with [fromCache] set; the handler returns the stored result as it is
    and adds no [fromCache]. *)
Theorem repeated_source_is_served_from_cache (C : Type) (h1 h2 : Host)
    (run1 run2 : string -> Async.t (C * World) result)
    (code id1 id2 : string) (s s1 : Runner.t * World) (res1 : result)
    (sv sv1 : Index.Server * (C * World)) (status : Z) (res : result) :
  Runner.runJavaScript h1 code id1 s = (Returned res1, s1) ->
  success res1 = true ->
  Index.post_execute h1 run1 (JsStr code) sv
    = (Returned (Index.Json status (Index.ResultBody res)), sv1) ->
  Index.clean res ->
  (exists res2,
     Runner.runJavaScript h2 code id2 s1 = (Returned res2, s1) /\
     fromCache res2 = Some true /\ output res2 = output res1) /\
  Index.post_execute h2 run2 (JsStr code) sv1
    = (Returned (Index.Json 200 (Index.ResultBody res)), sv1).
Proof.
  intros Hrun Hres Hpost Hclean. split.
  - eapply run_twice; eassumption.
  - eapply post_twice; eassumption.
Qed.

Lemma repeated_source_is_served_from_cache_witness :
  (exists res2,
     Runner.runJavaScript Sample.noisy "1" "id-2"
       (snd (Runner.runJavaScript Sample.calm "1" "id-1" (Runner.init "/srv", Sample.bare)))
     = (Returned res2,
        snd (Runner.runJavaScript Sample.calm "1" "id-1" (Runner.init "/srv", Sample.bare))) /\
     fromCache res2 = Some true /\
     output res2 = output (mkResult true "" "" (Some "vm-sandbox") None None None (Some "id-1"))) /\
  Index.post_execute Sample.noisy (Sample.calm_runner "id-2") (JsStr "1")
    (snd (Index.post_execute Sample.calm (Sample.calm_runner "id-1") (JsStr "1")
            (Sample.start false)))
  = (Returned (Index.Json 200 (Index.ResultBody (Sample.ok_result ""))),
     snd (Index.post_execute Sample.calm (Sample.calm_runner "id-1") (JsStr "1")
            (Sample.start false))).
Proof.
  apply (repeated_source_is_served_from_cache Runner.t Sample.calm Sample.noisy
           (Sample.calm_runner "id-1") (Sample.calm_runner "id-2") "1" "id-1" "id-2"
           (Runner.init "/srv", Sample.bare)
           (snd (Runner.runJavaScript Sample.calm "1" "id-1" (Runner.init "/srv", Sample.bare)))
           (mkResult true "" "" (Some "vm-sandbox") None None None (Some "id-1"))
           (Sample.start false)
           (snd (Index.post_execute Sample.calm (Sample.calm_runner "id-1") (JsStr "1")
                   (Sample.start false)))
           200 (Sample.ok_result "")).
  - vm_compute. reflexivity.
  - reflexivity.
  - vm_compute. reflexivity.
  - split; reflexivity.
Defined.

(** C6 as stated fails on the handler.  The source "1" is submitted
    twice; the first answer is a clean success; the second answer comes
    from [outputCache] and is that same result: it has no [fromCache].
    This is so with the local fallback and with the runner alike. *)
Lemma handler_hit_has_no_fromCache_flag :
  (fst (Index.post_execute Sample.calm (Sample.calm_runner "id-1") (JsStr "1")
          (Sample.start false))
   = Returned (Index.Json 200 (Index.ResultBody (Sample.ok_result ""))) /\
   fst (Index.post_execute Sample.calm (Sample.calm_runner "id-2") (JsStr "1")
          (snd (Index.post_execute Sample.calm (Sample.calm_runner "id-1") (JsStr "1")
                  (Sample.start false))))
   = Returned (Index.Json 200 (Index.ResultBody (Sample.ok_result ""))) /\
   fromCache (Sample.ok_result "") <> Some true) /\
  (fst (Index.post_execute Sample.calm (Sample.calm_runner "id-1") (JsStr "1")
          (Sample.start true))
   = Returned (Index.Json 200 (Index.ResultBody
       (mkResult true "" "" (Some "firecracker") None None None (Some "id-1")))) /\
   fst (Index.post_execute Sample.calm (Sample.calm_runner "id-2") (JsStr "1")
          (snd (Index.post_execute Sample.calm (Sample.calm_runner "id-1") (JsStr "1")
                  (Sample.start true))))
   = Returned (Index.Json 200 (Index.ResultBody
       (mkResult true "" "" (Some "firecracker") None None None (Some "id-1")))) /\
   fromCache (mkResult true "" "" (Some "firecracker") None None None (Some "id-1"))
     <> Some true).
Proof.
  split; (split; [vm_compute; reflexivity | split; [vm_compute; reflexivity | discriminate]]).
Qed.

(** ** The concurrency counter *)

Lemma firecracker_full h code id codeHash r w :
  Runner.maxVMs r <= Runner.vmCount r ->
  Runner.runWithFirecracker h code id codeHash (r, w) = (Returned Runner.queue_full, (r, w)).
Proof.
  intros Hfull. unfold Runner.runWithFirecracker. cbn [fst snd].
  destruct (Runner.vmCount r >=? Runner.maxVMs r) eqn:E; [reflexivity | lia].
Qed.

(** A step [m] commutes with a change [phi] of the state when it runs
    the same way after the change and leaves the changed state. *)
Section Commutes.
Context {S : Type}.
Variable phi : S -> S.

Lemma commutes_ret {A} (a : A) : commutes phi (Async.ret a).
Proof. intros s. reflexivity. Qed.

Lemma commutes_throw {A} e : commutes phi (@Async.throw S A e).
Proof. intros s. reflexivity. Qed.

Lemma commutes_gets {A} (f : S -> A) : (forall s, f (phi s) = f s) -> commutes phi (Async.gets f).
Proof. intros Hf s. unfold Async.gets. now rewrite Hf. Qed.

Lemma commutes_modify (f : S -> S) :
  (forall s, f (phi s) = phi (f s)) -> commutes phi (Async.modify f).
Proof. intros Hf s. unfold Async.modify. now rewrite Hf. Qed.

Lemma commutes_bind {A B} (m : Async.t S A) (k : A -> Async.t S B) :
  commutes phi m -> (forall a, commutes phi (k a)) -> commutes phi (Async.bind m k).
Proof.
  intros Hm Hk s. unfold Async.bind. rewrite Hm.
  destruct (m s) as [[a|e|] s1]; cbn [fst snd]; [apply Hk | reflexivity | reflexivity].
Qed.

Lemma commutes_try_catch {A} (m : Async.t S A) handler :
  commutes phi m -> (forall e, commutes phi (handler e)) ->
  commutes phi (Async.try_catch m handler).
Proof.
  intros Hm Hk s. unfold Async.try_catch. rewrite Hm.
  destruct (m s) as [[a|e|] s1]; cbn [fst snd]; [reflexivity | apply Hk | reflexivity].
Qed.

Lemma commutes_try_finally {A} (m : Async.t S A) fin :
  commutes phi m -> commutes phi fin -> commutes phi (Async.try_finally m fin).
Proof.
  intros Hm Hf s. unfold Async.try_finally. rewrite Hm.
  destruct (m s) as [[a|e|] s1]; cbn [fst snd]; try reflexivity;
    rewrite Hf; destruct (fin s1) as [[[]|e'|] s2]; reflexivity.
Qed.

Lemma commutes_swallow (m : Async.t S unit) : commutes phi m -> commutes phi (Async.swallow m).
Proof. intros Hm. apply commutes_try_catch; [exact Hm | intros e; apply commutes_ret]. Qed.

End Commutes.

(** What happens on the machine commutes with any change of the runner
    object. *)
Section CommutesWorld.
Context {R : Type}.
Variable h : Host.
Variable g : R -> R.

Lemma commutes_on_world (f : World -> World) : commutes (on_fst g) (@on_world R f).
Proof. intros [r w]. reflexivity. Qed.

Lemma commutes_fs_writeFile p : commutes (on_fst g) (@fs_writeFile R h p).
Proof.
  unfold fs_writeFile. destruct (fs_write h p); [apply commutes_throw | apply commutes_on_world].
Qed.

Lemma commutes_fs_removeP p : commutes (on_fst g) (@fs_removeP R h p).
Proof.
  unfold fs_removeP. destruct (fs_remove h p); [apply commutes_throw | apply commutes_on_world].
Qed.

Lemma commutes_fs_unlink p : commutes (on_fst g) (@fs_unlink R h p).
Proof.
  intros [r w]. unfold fs_unlink, on_fst. cbn [fst snd].
  destruct (decide (p ∈ files w)); [apply (commutes_fs_removeP p (r, w)) | reflexivity].
Qed.

Lemma commutes_execPromise c : commutes (on_fst g) (@execPromise R h c).
Proof. intros [r w]. unfold execPromise, on_fst. cbn [fst snd]. destruct (exec h c); reflexivity. Qed.

Lemma commutes_spawn vm p : commutes (on_fst g) (@spawn_firecracker R h vm p).
Proof. apply commutes_on_world. Qed.

Lemma commutes_kill vm : commutes (on_fst g) (@kill R h vm).
Proof.
  unfold kill. destruct (proc_kill h vm); [apply commutes_throw | apply commutes_on_world].
Qed.

End CommutesWorld.

Create HintDb commutes discriminated.
#[export] Hint Resolve commutes_ret commutes_throw commutes_bind commutes_try_catch
  commutes_try_finally commutes_swallow commutes_on_world commutes_fs_writeFile
  commutes_fs_removeP commutes_fs_unlink commutes_execPromise commutes_spawn
  commutes_kill : commutes.

Lemma commutes_on_runner (g f : Runner.t -> Runner.t) :
  (forall r, f (g r) = g (f r)) -> commutes (on_fst g) (Runner.on_runner f).
Proof. intros Hf [r w]. unfold Runner.on_runner, Async.modify, on_fst. cbn. now rewrite Hf. Qed.

(** The Docker path neither reads nor writes [vmCount]. *)
Lemma docker_ignores_counter h code id codeHash n :
  commutes (on_fst (Runner.set_vmCount n)) (Runner.runWithDocker h code id codeHash).
Proof.
  intros [r w]. unfold Runner.runWithDocker. cbv zeta.
  change (Runner.fc_codeFile (fst (on_fst (Runner.set_vmCount n) (r, w))) id)
    with (Runner.fc_codeFile (fst (r, w)) id).
  apply commutes_try_finally; [apply commutes_try_catch|].
  - unfold Runner.docker_try.
    apply commutes_bind; [auto with commutes | intros _].
    apply commutes_bind; [apply commutes_gets; intros []; reflexivity | intros lim].
    apply commutes_bind; [auto with commutes | intros out].
    apply commutes_bind; [|intros _; apply commutes_ret].
    apply commutes_on_runner. reflexivity.
  - intros e. apply commutes_ret.
  - unfold Runner.docker_finally. auto 10 with commutes.
Qed.

(** Nor does the sandbox path. *)
Lemma sandbox_ignores_counter h code id codeHash n :
  commutes (on_fst (Runner.set_vmCount n)) (Runner.runWithVMSandbox h code id codeHash).
Proof.
  unfold Runner.runWithVMSandbox.
  apply commutes_bind.
  - intros [r w]. unfold Runner.run_script, on_fst. cbn [fst snd].
    change (Runner.executionTimeout (Runner.set_vmCount n r)) with (Runner.executionTimeout r).
    destruct (vm_sandbox h code _); reflexivity.
  - intros [calls|v].
    + unfold Runner.sandbox_try.
      apply commutes_bind; [|intros _; apply commutes_ret].
      apply commutes_on_runner. reflexivity.
    + unfold Runner.sandbox_catch. destruct v; [apply commutes_ret | apply commutes_throw].
Qed.

Lemma docker_never_queue_full h code id codeHash s :
  fst (Runner.runWithDocker h code id codeHash s) <> Returned Runner.queue_full.
Proof.
  intros H. destruct (Runner.runWithDocker h code id codeHash s) as [c s'] eqn:E.
  cbn in H. subst c. unfold Runner.runWithDocker in E. cbv zeta in E.
  apply try_finally_returned in E as (s1 & E & _).
  apply try_catch_returned in E as [E | (e & s2 & _ & E)].
  - apply docker_try_success in E. discriminate.
  - inversion E.
Qed.

Lemma sandbox_never_queue_full h code id codeHash s :
  fst (Runner.runWithVMSandbox h code id codeHash s) <> Returned Runner.queue_full.
Proof.
  intros H. destruct (Runner.runWithVMSandbox h code id codeHash s) as [c s'] eqn:E.
  cbn in H. subst c.
  apply sandbox_returned in E as [(calls & s1 & E) | (e & E)].
  - apply sandbox_try_success in E. discriminate.
  - discriminate.
Qed.

(** The three paths on a cache miss with [vmCount >= maxVMs], on any
    state whatever, also one the program does not reach.  When
    Firecracker is the backend in use, [runJavaScript] returns the
    queue-full result at once and nothing changes (no file, no process,
    no command, the counter as it was).  The Docker and sandbox paths do
    not test the counter: the call is never answered queue-full, and it
    runs as it would with any other value [n] of the counter, which it
    leaves alone. *)
Theorem full_pool_turns_firecracker_runs_away (h : Host) (code id : string)
    (s : Runner.t * World) (n : Z) :
  JsMap.get (Runner.cache (fst s)) (MD5.digest_hex code) = None ->
  Runner.maxVMs (fst s) <= Runner.vmCount (fst s) ->
  (Runner.useFirecracker (fst s) = true ->
   Runner.runJavaScript h code id s = (Returned Runner.queue_full, s)) /\
  (Runner.useFirecracker (fst s) = false ->
   fst (Runner.runJavaScript h code id s) <> Returned Runner.queue_full /\
   Runner.runJavaScript h code id (on_fst (Runner.set_vmCount n) s)
   = (fst (Runner.runJavaScript h code id s),
      on_fst (Runner.set_vmCount n) (snd (Runner.runJavaScript h code id s)))).
Proof.
  intros Hmiss Hfull. unfold Runner.runJavaScript.
  cbn [fst snd on_fst Runner.cache Runner.set_vmCount Runner.useFirecracker Runner.useDocker].
  rewrite Hmiss. split; intros Hfc; rewrite Hfc.
  - destruct s as [r w]. now apply firecracker_full.
  - destruct (Runner.useDocker (fst s)).
    + split; [apply docker_never_queue_full|].
      apply (docker_ignores_counter h code id (MD5.digest_hex code) n s).
    + split; [apply sandbox_never_queue_full|].
      apply (sandbox_ignores_counter h code id (MD5.digest_hex code) n s).
Qed.

Lemma busy_states_reachable :
  Session.reachable Sample.busy_firecracker /\
  Session.reachable Sample.busy_docker /\
  Session.reachable Sample.busy_sandbox.
Proof. repeat split; apply perform_all_reachable, Session.reach_init. Qed.

Lemma full_pool_turns_firecracker_runs_away_witness :
  Runner.runJavaScript Sample.calm "1" "id-4" Sample.busy_firecracker
  = (Returned Runner.queue_full, Sample.busy_firecracker) /\
  (fst (Runner.runJavaScript Sample.calm "1" "id-4" Sample.busy_docker)
     <> Returned Runner.queue_full /\
   Runner.runJavaScript Sample.calm "1" "id-4"
     (on_fst (Runner.set_vmCount 0) Sample.busy_docker)
   = (fst (Runner.runJavaScript Sample.calm "1" "id-4" Sample.busy_docker),
      on_fst (Runner.set_vmCount 0)
        (snd (Runner.runJavaScript Sample.calm "1" "id-4" Sample.busy_docker)))).
Proof.
  destruct (full_pool_turns_firecracker_runs_away Sample.calm "1" "id-4"
              Sample.busy_firecracker 0) as [Hfc _];
    [vm_compute; reflexivity | vm_compute; discriminate |].
  destruct (full_pool_turns_firecracker_runs_away Sample.calm "1" "id-4"
              Sample.busy_docker 0) as [_ Hdk];
    [vm_compute; reflexivity | vm_compute; discriminate |].
  split; [apply Hfc | apply Hdk]; vm_compute; reflexivity.
Defined.

(** The Docker path takes no slot.  The probe finds Docker alone; three
    sources that never end are each given a container; a fourth request
    is served all the same.  The counter is 0 throughout. *)
Example docker_runs_pile_up :
  Session.reachable
    (Session.perform_all
       [(Sample.docker_only, Session.Probe);
        (Sample.docker_busy, Session.Run "for(;;){}" "id-1");
        (Sample.docker_busy, Session.Run "for(;;){};" "id-2");
        (Sample.docker_busy, Session.Run "for(;;){};;" "id-3")]
       (Runner.init "/srv", Sample.bare)) /\
  map (fun c => fst (Runner.runJavaScript Sample.docker_busy (fst c) (snd c)
                       (Session.perform Sample.docker_only Session.Probe
                          (Runner.init "/srv", Sample.bare))))
      [("for(;;){}", "id-1"); ("for(;;){};", "id-2"); ("for(;;){};;", "id-3")]
  = [Pending; Pending; Pending] /\
  Runner.vmCount
    (fst (Session.perform_all
            [(Sample.docker_only, Session.Probe);
             (Sample.docker_busy, Session.Run "for(;;){}" "id-1");
             (Sample.docker_busy, Session.Run "for(;;){};" "id-2");
             (Sample.docker_busy, Session.Run "for(;;){};;" "id-3")]
            (Runner.init "/srv", Sample.bare))) = 0 /\
  fst (Runner.runJavaScript Sample.docker_only "1" "id-4"
         (Session.perform_all
            [(Sample.docker_only, Session.Probe);
             (Sample.docker_busy, Session.Run "for(;;){}" "id-1");
             (Sample.docker_busy, Session.Run "for(;;){};" "id-2");
             (Sample.docker_busy, Session.Run "for(;;){};;" "id-3")]
            (Runner.init "/srv", Sample.bare)))
  = Returned (mkResult true "" "" (Some "docker") None None (Some "code-exec-id-4") None).
Proof.
  split; [apply perform_all_reachable, Session.reach_init|].
  repeat split; vm_compute; reflexivity.
Qed.

(** ** Teardown *)

Lemma get_delete_set_fresh {V} (m : list (string * V)) k v :
  JsMap.get m k = None -> JsMap.get (JsMap.delete (JsMap.set m k v) k) k = None.
Proof.
  induction m as [|[k0 v0] m IH]; cbn.
  - now rewrite String.eqb_refl.
  - destruct (String.eqb k0 k) eqn:E; [discriminate|]. intros H.
    cbn. rewrite E. cbn. rewrite E. now apply IH.
Qed.

Section Teardown.
Variable h : Host.

(** The [finally] block of the Firecracker path, started in a state where
    the execution's process is either tracked and alive or neither. *)
Lemma fc_finally_post vm codeFile configFile socketPath r1 w1 :
  proc_kill h vm = None ->
  (JsMap.get (Runner.processes r1) vm = None /\ (vm ∉ live w1)) \/
  (exists m, Runner.processes r1 = JsMap.set m vm vm /\ JsMap.get m vm = None) ->
  exists r2 w2,
    Runner.fc_finally h vm codeFile configFile socketPath (r1, w1) = (Returned tt, (r2, w2)) /\
    JsMap.get (Runner.processes r2) vm = None /\
    (vm ∉ live w2) /\
    Runner.vmCount r2 = Runner.vmCount r1 - 1 /\
    (fs_remove h codeFile = None -> codeFile ∉ files w2) /\
    (fs_remove h configFile = None -> configFile ∉ files w2) /\
    (fs_remove h socketPath = None -> socketPath ∉ files w2).
Proof.
  intros Hkill Htracked. unfold Runner.fc_finally. open_steps. cbn [fst snd].
  destruct Htracked as [[Hnone Hdead] | (m & Hm & Hfresh)].
  - rewrite Hnone.
    destruct (fs_remove h codeFile) eqn:E1; destruct (fs_remove h configFile) eqn:E2;
      reduce_steps; split_on_socket; try destruct (fs_remove h socketPath) eqn:E3;
      reduce_steps; eexists _, _; (split; [reflexivity|]); reduce_steps;
      repeat split; try done; try lia; intros; set_solver.
  - rewrite Hm, get_set_eq, Hkill.
    destruct (fs_remove h codeFile) eqn:E1; destruct (fs_remove h configFile) eqn:E2;
      reduce_steps; split_on_socket; try destruct (fs_remove h socketPath) eqn:E3;
      reduce_steps; eexists _, _; (split; [reflexivity|]); reduce_steps;
      rewrite ?Hm; repeat split; try (now apply get_delete_set_fresh); try lia;
      intros; set_solver.
Qed.

(** The [try] block of the Firecracker path: the slot is taken, and the
    process is registered as soon as it is spawned. *)
Lemma fc_try_post code vm codeHash codeFile configFile socketPath r w :
  JsMap.get (Runner.processes r) vm = None ->
  vm ∉ live w ->
  exists c r1 w1,
    Runner.fc_try h code vm codeHash codeFile configFile socketPath (r, w) = (c, (r1, w1)) /\
    Runner.vmCount r1 = Runner.vmCount r + 1 /\
    ((JsMap.get (Runner.processes r1) vm = None /\ (vm ∉ live w1)) \/
     (exists m, Runner.processes r1 = JsMap.set m vm vm /\ JsMap.get m vm = None)) /\
    (c = Pending -> exec h (NodeFile codeFile) = ExecPending).
Proof.
  intros Hfresh Hdead. unfold Runner.fc_try. open_steps. cbn [fst snd].
  destruct (fs_write h codeFile) eqn:E1; reduce_steps.
  { eexists _, _, _. split; [reflexivity|]. reduce_steps.
    split; [reflexivity|]. split; [left; now split | discriminate]. }
  destruct (fs_write h configFile) eqn:E2; reduce_steps.
  { eexists _, _, _. split; [reflexivity|]. reduce_steps.
    split; [reflexivity|]. split; [left; now split | discriminate]. }
  destruct (exec h (NodeFile codeFile)) eqn:E3; reduce_steps;
    eexists _, _, _; (split; [reflexivity|]); reduce_steps;
    (split; [reflexivity|]);
    (split; [right; now exists (Runner.processes r) | congruence]).
Qed.

(** A settled Firecracker run has torn everything down. *)
Lemma fc_run_post code id codeHash r w :
  proc_kill h id = None ->
  Runner.vmCount r < Runner.maxVMs r ->
  JsMap.get (Runner.processes r) id = None ->
  id ∉ live w ->
  fst (Runner.runWithFirecracker h code id codeHash (r, w)) <> Pending ->
  exists res r2 w2,
    Runner.runWithFirecracker h code id codeHash (r, w) = (Returned res, (r2, w2)) /\
    JsMap.get (Runner.processes r2) id = None /\
    (id ∉ live w2) /\
    Runner.vmCount r2 = Runner.vmCount r /\
    (fs_remove h (Runner.fc_codeFile r id) = None -> Runner.fc_codeFile r id ∉ files w2) /\
    (fs_remove h (Runner.fc_configFile r id) = None -> Runner.fc_configFile r id ∉ files w2) /\
    (fs_remove h (Runner.fc_socketPath id) = None -> Runner.fc_socketPath id ∉ files w2).
Proof.
  intros Hkill Hslot Hfresh Hdead.
  unfold Runner.runWithFirecracker. cbn [fst snd].
  destruct (Runner.vmCount r >=? Runner.maxVMs r) eqn:E; [lia|]. cbv zeta.
  destruct (fc_try_post code id codeHash (Runner.fc_codeFile r id) (Runner.fc_configFile r id)
              (Runner.fc_socketPath id) r w Hfresh Hdead)
    as (c & r1 & w1 & Htry & Hcount & Htracked & Hpend).
  destruct (fc_finally_post id (Runner.fc_codeFile r id) (Runner.fc_configFile r id)
              (Runner.fc_socketPath id) r1 w1 Hkill Htracked)
    as (r2 & w2 & Hfin & Hreg & Hlive & Hcount2 & Hf1 & Hf2 & Hf3).
  unfold Async.try_finally, Async.try_catch. rewrite Htry.
  destruct c as [res|e|].
  - rewrite Hfin. intros _. exists res, r2, w2. repeat split; try assumption. lia.
  - unfold Runner.fc_catch, Async.ret. rewrite Hfin. intros _.
    eexists _, r2, w2. repeat split; try assumption. lia.
  - cbn [fst]. congruence.
Qed.

(** The [finally] block of the Docker path. *)
Lemma docker_finally_post container codeFile r1 w1 :
  exists u w2,
    Runner.docker_finally h container codeFile (r1, w1) = (u, (r1, w2)) /\
    (u = Returned tt \/ u = Pending) /\
    (fs_remove h codeFile = None -> codeFile ∉ files w2) /\
    In (EvExec (DockerRm container)) (trace w2).
Proof.
  unfold Runner.docker_finally. open_steps. cbn [fst snd].
  destruct (fs_remove h codeFile) eqn:E1; reduce_steps;
    destruct (exec h (DockerRm container)) eqn:E2; reduce_steps;
    eexists _, _; (split; [reflexivity|]); reduce_steps;
    (split; [auto|]); (split; [intros; try discriminate; set_solver|]);
    apply in_or_app; right; now left.
Qed.

Lemma docker_run_post code id codeHash r w :
  fst (Runner.runWithDocker h code id codeHash (r, w)) <> Pending ->
  exists res r2 w2,
    Runner.runWithDocker h code id codeHash (r, w) = (Returned res, (r2, w2)) /\
    (fs_remove h (Runner.fc_codeFile r id) = None -> Runner.fc_codeFile r id ∉ files w2) /\
    In (EvExec (DockerRm (Runner.docker_container id))) (trace w2).
Proof.
  unfold Runner.runWithDocker. cbn [fst snd]. cbv zeta.
  unfold Async.try_finally, Async.try_catch.
  destruct (Runner.docker_try h code codeHash _ _ (r, w)) as [c [r1 w1]].
  destruct (docker_finally_post (Runner.docker_container id) (Runner.fc_codeFile r id) r1 w1)
    as (u & w2 & Hfin & [-> | ->] & Hfile & Htrace).
  - destruct c as [res|e|]; [| unfold Runner.docker_catch, Async.ret |];
      try rewrite Hfin; cbn [fst]; intros Hsettled; try congruence;
      eexists _, r1, w2; repeat split; assumption.
  - destruct c as [res|e|]; [| unfold Runner.docker_catch, Async.ret |];
      try rewrite Hfin; cbn [fst]; intros Hsettled; congruence.
Qed.

End Teardown.

(** C7, as the code has it.  Whenever a Firecracker or a Docker run
    settles, its [finally] block has run, whatever the [try] block did:
    the call returns the result of the execution; the process tracked for
    the id has been killed and is no longer in the registry; each of the
    code file, the config file and the socket path has been removed unless
    its own removal failed, a failure that is swallowed and stops nothing
    after it; on the Docker path [docker rm -f] has been issued.  (An
    artifact whose removal fails stays on disk; [kill()] is taken not to
    throw, and the id to be a fresh one.) *)
Theorem teardown_on_every_settled_path (h : Host) (code id codeHash : string)
    (r : Runner.t) (w : World) :
  proc_kill h id = None ->
  JsMap.get (Runner.processes r) id = None ->
  id ∉ live w ->
  (Runner.vmCount r < Runner.maxVMs r ->
   fst (Runner.runWithFirecracker h code id codeHash (r, w)) <> Pending ->
   (exists res, fst (Runner.runWithFirecracker h code id codeHash (r, w)) = Returned res) /\
   JsMap.get (Runner.processes
                (fst (snd (Runner.runWithFirecracker h code id codeHash (r, w))))) id = None /\
   (id ∉ live (snd (snd (Runner.runWithFirecracker h code id codeHash (r, w))))) /\
   (fs_remove h (Runner.fc_codeFile r id) = None ->
    Runner.fc_codeFile r id
      ∉ files (snd (snd (Runner.runWithFirecracker h code id codeHash (r, w))))) /\
   (fs_remove h (Runner.fc_configFile r id) = None ->
    Runner.fc_configFile r id
      ∉ files (snd (snd (Runner.runWithFirecracker h code id codeHash (r, w))))) /\
   (fs_remove h (Runner.fc_socketPath id) = None ->
    Runner.fc_socketPath id
      ∉ files (snd (snd (Runner.runWithFirecracker h code id codeHash (r, w)))))) /\
  (fst (Runner.runWithDocker h code id codeHash (r, w)) <> Pending ->
   (exists res, fst (Runner.runWithDocker h code id codeHash (r, w)) = Returned res) /\
   (fs_remove h (Runner.fc_codeFile r id) = None ->
    Runner.fc_codeFile r id
      ∉ files (snd (snd (Runner.runWithDocker h code id codeHash (r, w))))) /\
   In (EvExec (DockerRm (Runner.docker_container id)))
      (trace (snd (snd (Runner.runWithDocker h code id codeHash (r, w)))))).
Proof.
  intros Hkill Hfresh Hdead. split.
  - intros Hslot Hfc.
    destruct (fc_run_post h code id codeHash r w Hkill Hslot Hfresh Hdead Hfc)
      as (res & r2 & w2 & -> & Hreg & Hlive & _ & Hf1 & Hf2 & Hf3).
    cbn [fst snd]. repeat split; try assumption. now exists res.
  - intros Hdk.
    destruct (docker_run_post h code id codeHash r w Hdk)
      as (res & r2 & w2 & -> & Hf & Htrace).
    cbn [fst snd]. repeat split; try assumption. now exists res.
Qed.

Lemma teardown_on_every_settled_path_witness :
  ((exists res, fst (Runner.runWithFirecracker Sample.busy_code_file "1" "id-1" "k"
                       (Runner.init "/srv", Sample.bare)) = Returned res) /\
   JsMap.get (Runner.processes
                (fst (snd (Runner.runWithFirecracker Sample.busy_code_file "1" "id-1" "k"
                             (Runner.init "/srv", Sample.bare))))) "id-1" = None /\
   ("id-1" ∉ live (snd (snd (Runner.runWithFirecracker Sample.busy_code_file "1" "id-1" "k"
                               (Runner.init "/srv", Sample.bare))))) /\
   (Runner.fc_configFile (Runner.init "/srv") "id-1"
      ∉ files (snd (snd (Runner.runWithFirecracker Sample.busy_code_file "1" "id-1" "k"
                           (Runner.init "/srv", Sample.bare))))) /\
   (Runner.fc_socketPath "id-1"
      ∉ files (snd (snd (Runner.runWithFirecracker Sample.busy_code_file "1" "id-1" "k"
                           (Runner.init "/srv", Sample.bare)))))) /\
  ((exists res, fst (Runner.runWithDocker Sample.calm "1" "id-1" "k"
                       (Runner.init "/srv", Sample.bare)) = Returned res) /\
   (Runner.fc_codeFile (Runner.init "/srv") "id-1"
      ∉ files (snd (snd (Runner.runWithDocker Sample.calm "1" "id-1" "k"
                           (Runner.init "/srv", Sample.bare))))) /\
   In (EvExec (DockerRm (Runner.docker_container "id-1")))
      (trace (snd (snd (Runner.runWithDocker Sample.calm "1" "id-1" "k"
                          (Runner.init "/srv", Sample.bare)))))).
Proof.
  split.
  - destruct (teardown_on_every_settled_path Sample.busy_code_file "1" "id-1" "k"
                (Runner.init "/srv") Sample.bare) as [Hfc _];
      [reflexivity | reflexivity | cbn; set_solver |].
    destruct Hfc as (Hres & Hreg & Hlive & _ & Hconfig & Hsocket);
      [cbn; lia | vm_compute; discriminate |].
    exact (conj Hres (conj Hreg (conj Hlive (conj (Hconfig eq_refl) (Hsocket eq_refl))))).
  - destruct (teardown_on_every_settled_path Sample.calm "1" "id-1" "k"
                (Runner.init "/srv") Sample.bare) as [_ Hdk];
      [reflexivity | reflexivity | cbn; set_solver |].
    destruct Hdk as (Hres & Hfile & Htrace); [vm_compute; discriminate|].
    exact (conj Hres (conj (Hfile eq_refl) Htrace)).
Defined.

(** C7 as stated fails where a removal fails.  The code file of the run
    cannot be removed; the run returns its result all the same, the config
    file and the socket are gone, the process is killed and out of the
    registry, and the code file of that id is still in the scratch
    directory. *)
Lemma failed_removal_leaves_the_code_file :
  fst (Runner.runJavaScript Sample.busy_code_file "1" "id-1"
         (Sample.with_firecracker, Sample.bare))
  = Returned (mkResult true "" "" (Some "firecracker") None (Some "id-1") None None) /\
  files (snd (snd (Runner.runJavaScript Sample.busy_code_file "1" "id-1"
                     (Sample.with_firecracker, Sample.bare))))
  = {["/srv/temp/id-1.js"]} /\
  Runner.processes (fst (snd (Runner.runJavaScript Sample.busy_code_file "1" "id-1"
                                (Sample.with_firecracker, Sample.bare)))) = [].
Proof.
  split; [vm_compute; reflexivity|]. split; [|vm_compute; reflexivity].
  unfold Runner.runJavaScript, Runner.runWithFirecracker, Runner.fc_try, Runner.fc_finally.
  open_steps. cbn. set_solver.
Qed.

(** ** Shutdown *)

Section Shutdown.
Variable h : Host.

(** The loop over the registry always comes to its end and touches no
    file. *)
Lemma kill_all_post ps r w :
  exists w2,
    Runner.kill_all h ps (r, w) = (Returned tt, (r, w2)) /\ files w2 = files w.
Proof.
  revert w. induction ps as [|[vm child] ps IH]; intros w; cbn [Runner.kill_all].
  - exists w. split; reflexivity.
  - open_steps. destruct (proc_kill h child); reduce_steps.
    + destruct (IH w) as (w2 & -> & Hf). now exists w2.
    + match goal with
      | |- context [Runner.kill_all h ps (r, ?w1)] =>
          destruct (IH w1) as (w2 & -> & Hf)
      end.
      now exists w2.
Qed.

Lemma shutdown_post r w :
  exists w',
    Runner.shutdown h (r, w) = (Returned tt, (Runner.set_processes [] r, w')) /\
    (fs_emptyDir h (Runner.tempDir r) = None -> scratch_empty r w') /\
    (fs_emptyDir h (Runner.tempDir r) <> None -> files w' = files w) /\
    (fs_emptyDir h (Runner.tempDir r) = None ->
     files w' = filter (fun p => String.prefix (Runner.tempDir r +:+ "/") p = false) (files w)).
Proof.
  unfold Runner.shutdown. open_steps. cbn [fst snd].
  destruct (kill_all_post (Runner.processes r) r w) as (w2 & -> & Hf).
  reduce_steps. unfold JsMap.clear.
  destruct (fs_emptyDir h (Runner.tempDir r)) eqn:E; reduce_steps.
  - exists w2. split; [reflexivity|].
    split; [discriminate|]. split; [intros _; exact Hf | discriminate].
  - eexists. split; [reflexivity|]. split; [|split; [congruence|]].
    + intros _ p Hp. cbn [files] in Hp. apply elem_of_filter in Hp as [Hp _]. exact Hp.
    + intros _. cbn [files]. now rewrite Hf.
Qed.

End Shutdown.

Lemma scratch_filter_again dir (X : gset string) :
  filter (fun p => String.prefix dir p = false) (filter (fun p => String.prefix dir p = false) X)
  = filter (fun p => String.prefix dir p = false) X.
Proof. apply set_eq. intros p. rewrite !elem_of_filter. tauto. Qed.

(** A second [shutdown] after one that emptied the scratch directory. *)
Lemma shutdown_again h h2 r w :
  fs_emptyDir h (Runner.tempDir r) = None ->
  Runner.shutdown h2 (snd (Runner.shutdown h (r, w)))
  = (Returned tt, snd (Runner.shutdown h (r, w))).
Proof.
  intros Hempty.
  unfold Runner.shutdown at 2 3. open_steps. cbn [fst snd].
  destruct (kill_all_post h (Runner.processes r) r w) as (w2 & -> & Hf).
  reduce_steps. rewrite Hempty. reduce_steps. unfold JsMap.clear.
  unfold Runner.shutdown. open_steps. reduce_steps. cbn [Runner.kill_all].
  reduce_steps. unfold JsMap.clear.
  destruct (fs_emptyDir h2 (Runner.tempDir r)); reduce_steps; [reflexivity|].
  rewrite scratch_filter_again. reflexivity.
Qed.

(** C8, as the code has it.  [shutdown] always completes.  After it the
    registry is empty, and so is the scratch directory unless emptying it
    failed (the failure is logged and swallowed, and the files stay).  A
    second [shutdown] completes too, and after a first one that did empty
    the directory it changes nothing. *)
Theorem shutdown_clears_and_repeats (h h2 : Host) (r : Runner.t) (w : World) :
  fst (Runner.shutdown h (r, w)) = Returned tt /\
  Runner.processes (fst (snd (Runner.shutdown h (r, w)))) = [] /\
  (fs_emptyDir h (Runner.tempDir r) = None ->
   scratch_empty r (snd (snd (Runner.shutdown h (r, w))))) /\
  fst (Runner.shutdown h2 (snd (Runner.shutdown h (r, w)))) = Returned tt /\
  (fs_emptyDir h (Runner.tempDir r) = None ->
   Runner.shutdown h2 (snd (Runner.shutdown h (r, w)))
   = (Returned tt, snd (Runner.shutdown h (r, w)))).
Proof.
  destruct (shutdown_post h r w) as (w' & Hs & Hempty & _ & _).
  rewrite Hs. cbn [fst snd].
  destruct (shutdown_post h2 (Runner.set_processes [] r) w') as (w'' & Hs2 & _).
  rewrite Hs2. cbn [fst snd].
  repeat split; try assumption.
  intros He. pose proof (shutdown_again h h2 r w He) as Hagain.
  rewrite Hs in Hagain. cbn [snd] in Hagain. rewrite Hs2 in Hagain. exact Hagain.
Qed.

Lemma shutdown_clears_and_repeats_witness :
  scratch_empty (Runner.init "/srv")
    (snd (snd (Runner.shutdown Sample.calm (Runner.init "/srv", Sample.bare)))) /\
  Runner.shutdown Sample.busy_directory
    (snd (Runner.shutdown Sample.calm (Runner.init "/srv", Sample.bare)))
  = (Returned tt, snd (Runner.shutdown Sample.calm (Runner.init "/srv", Sample.bare))).
Proof.
  destruct (shutdown_clears_and_repeats Sample.calm Sample.busy_directory
              (Runner.init "/srv") Sample.bare) as (_ & _ & Hempty & _ & Hagain).
  split; [apply Hempty | apply Hagain]; reflexivity.
Defined.

Lemma before_shutdown_files :
  files (snd Sample.before_shutdown) = {["/srv/temp/id-1.js"]}.
Proof.
  unfold Sample.before_shutdown, Session.perform_all, Session.perform,
    Runner.checkAvailableExecutors, Runner.runJavaScript, Runner.runWithFirecracker,
    Runner.fc_try, Runner.fc_finally.
  open_steps. cbn. set_solver.
Qed.

(** C8 as stated fails where the scratch directory cannot be emptied.
    A runner that has Firecracker ran one source on a machine where the
    code file could not be removed; [shutdown] then fails to empty the
    directory: it completes, the registry is empty, and the code file is
    still there.  A second [shutdown], on a machine that lets it, removes
    the file: the second call does change the state. *)
Lemma shutdown_can_leave_files :
  Session.reachable Sample.before_shutdown /\
  fst (Runner.shutdown Sample.busy_directory Sample.before_shutdown) = Returned tt /\
  Runner.processes
    (fst (snd (Runner.shutdown Sample.busy_directory Sample.before_shutdown))) = [] /\
  files (snd (snd (Runner.shutdown Sample.busy_directory Sample.before_shutdown)))
  = {["/srv/temp/id-1.js"]} /\
  ~ scratch_empty (fst Sample.before_shutdown)
      (snd (snd (Runner.shutdown Sample.busy_directory Sample.before_shutdown))) /\
  files (snd (snd (Runner.shutdown Sample.calm
                     (snd (Runner.shutdown Sample.busy_directory Sample.before_shutdown)))))
  = ∅.
Proof.
  assert (Hfiles :
    files (snd (snd (Runner.shutdown Sample.busy_directory Sample.before_shutdown)))
    = {["/srv/temp/id-1.js"]}).
  { destruct Sample.before_shutdown as [r w] eqn:E.
    destruct (shutdown_post Sample.busy_directory r w) as (w' & -> & _ & Hkeep & _).
    cbn [fst snd]. rewrite Hkeep by discriminate.
    change w with (snd (r, w)). rewrite <- E. apply before_shutdown_files. }
  split; [apply perform_all_reachable, Session.reach_init|].
  split; [vm_compute; reflexivity|]. split; [vm_compute; reflexivity|].
  split; [exact Hfiles|]. split.
  - intros Hempty. specialize (Hempty "/srv/temp/id-1.js").
    rewrite Hfiles in Hempty. specialize (Hempty ltac:(set_solver)).
    vm_compute in Hempty. discriminate.
  - destruct (Runner.shutdown Sample.busy_directory Sample.before_shutdown) as [c [r1 w1]] eqn:E.
    cbn [fst snd] in *.
    assert (Hdir : Runner.tempDir r1 = "/srv/temp").
    { change r1 with (fst (snd (c, (r1, w1)))). rewrite <- E. vm_compute. reflexivity. }
    destruct (shutdown_post Sample.calm r1 w1) as (w' & -> & _ & _ & Hgone).
    cbn [fst snd]. rewrite Hgone by reflexivity. rewrite Hfiles, Hdir.
    apply set_eq. intros p. rewrite elem_of_filter, elem_of_singleton. split.
    + intros [Hp ->]. vm_compute in Hp. discriminate.
    + set_solver.
Qed.

(** ** The enhanced runner: its counter stays within bounds *)

Section Ends.
Context {S : Type}.

(** From [Q] a block ends in [R] when its first step keeps [Q], and the
    rest, started in [Q], ends in [R]. *)
Lemma ends_bind {A B} (Q R : S -> Prop) (m : Async.t S A) (k : A -> Async.t S B) :
  keeps Q m -> (forall s, Q s -> R s) ->
  (forall a s, Q s -> R (snd (k a s))) ->
  forall s, Q s -> R (snd (Async.bind m k s)).
Proof.
  intros Hm Hqr Hk s Hs. unfold Async.bind. specialize (Hm s Hs).
  destruct (m s) as [[a|e|] s1]; cbn [snd] in *; auto.
Qed.

End Ends.

Section Counter.
Variable h : Host.
Variables n M : Z.

Lemma counter_is_runner_only : runner_only (counter_is n M).
Proof. intros r w w' H. exact H. Qed.

Lemma keeps_counter_frame (f : Runner.t -> Runner.t) :
  (forall r, Runner.vmCount (f r) = Runner.vmCount r /\ Runner.maxVMs (f r) = Runner.maxVMs r) ->
  keeps (counter_is n M) (Runner.on_runner f).
Proof.
  intros Hf [r w] [Hn HM]. unfold counter_is in *. cbn in *.
  destruct (Hf r) as [-> ->]. now split.
Qed.

#[local] Hint Resolve counter_is_runner_only : keeps.

Ltac keeps_counter :=
  repeat first
    [ apply keeps_bind; [|intros ?]
    | apply keeps_try_catch; [|intros ?]
    | apply keeps_try_finally
    | apply keeps_counter_frame; intros ?; split; reflexivity
    | solve [auto 10 with keeps] ].

Lemma keeps_counter_docker code id codeHash :
  keeps (counter_is n M) (Runner.runWithDocker h code id codeHash).
Proof.
  intros s Hs. unfold Runner.runWithDocker. cbv zeta.
  apply (keeps_try_finally (counter_is n M)); [| |exact Hs].
  - unfold Runner.docker_try, Runner.docker_catch. keeps_counter.
  - unfold Runner.docker_finally. keeps_counter.
Qed.

Lemma keeps_counter_sandbox code id codeHash :
  keeps (counter_is n M) (Runner.runWithVMSandbox h code id codeHash).
Proof.
  unfold Runner.runWithVMSandbox.
  apply keeps_bind.
  - intros s Hs. unfold Runner.run_script. destruct (vm_sandbox h code _); exact Hs.
  - intros [calls|v].
    + unfold Runner.sandbox_try. keeps_counter.
    + unfold Runner.sandbox_catch. destruct v; keeps_counter.
Qed.

Lemma keeps_counter_probe : keeps (counter_is n M) (Runner.checkAvailableExecutors h).
Proof. unfold Runner.checkAvailableExecutors. keeps_counter. Qed.

Lemma keeps_counter_kill_all ps : keeps (counter_is n M) (Runner.kill_all h ps).
Proof. induction ps as [|[vm child] ps IH]; cbn; keeps_counter. Qed.

Lemma keeps_counter_shutdown : keeps (counter_is n M) (Runner.shutdown h).
Proof.
  unfold Runner.shutdown.
  apply keeps_bind; [apply keeps_gets | intros ps].
  apply keeps_bind; [apply keeps_counter_kill_all | intros _]. keeps_counter.
Qed.

Lemma keeps_counter_clearCache : keeps (counter_is n M) Runner.clearCache.
Proof. unfold Runner.clearCache. keeps_counter. Qed.

End Counter.

Section CounterFirecracker.
Variable h : Host.
Variables n M : Z.

#[local] Hint Resolve counter_is_runner_only : keeps.

(** The [try] block takes the slot first and keeps it. *)
Lemma fc_try_counter code vm codeHash codeFile configFile socketPath s :
  counter_is n M s ->
  counter_is (n + 1) M
    (snd (Runner.fc_try h code vm codeHash codeFile configFile socketPath s)).
Proof.
  intros [Hn HM]. unfold Runner.fc_try.
  unfold Async.bind at 1. unfold Runner.on_runner at 1, Async.modify at 1.
  match goal with
  | |- counter_is _ _ (snd (?rest ?s1)) =>
      assert (H1 : counter_is (n + 1) M s1) by (split; cbn; [now rewrite Hn | exact HM]);
      revert H1; generalize s1
  end.
  change (keeps (counter_is (n + 1) M)
            (fs_writeFile h codeFile ;;
             fs_writeFile h configFile ;;
             spawn_firecracker h vm socketPath ;;
             Runner.on_runner (fun r => Runner.set_processes (JsMap.set (Runner.processes r) vm vm) r) ;;
             out <- execPromise h (NodeFile codeFile) ;;
             Runner.on_runner
               (fun r => Runner.set_cache
                  (JsMap.set (Runner.cache r) codeHash
                     (mkResult true (JsString.trim (fst out)) (JsString.trim (snd out))
                        (Some "firecracker") None (Some vm) None None)) r) ;;
             Async.ret (mkResult true (JsString.trim (fst out)) (JsString.trim (snd out))
                          (Some "firecracker") None (Some vm) None None))).
  repeat first
    [ apply keeps_bind; [|intros ?]
    | apply keeps_counter_frame; intros ?; split; reflexivity
    | solve [auto 10 with keeps] ].
Qed.

(** The [finally] block gives it back, or stops before it does. *)
Lemma fc_finally_counter vm codeFile configFile socketPath s :
  counter_is (n + 1) M s ->
  counter_near n M (snd (Runner.fc_finally h vm codeFile configFile socketPath s)).
Proof.
  assert (Hweak : forall s0, counter_is (n + 1) M s0 -> counter_near n M s0).
  { intros s0 [Hn HM]. split; [right; exact Hn | exact HM]. }
  unfold Runner.fc_finally. revert s.
  apply ends_bind; [apply keeps_gets | exact Hweak | intros p].
  apply ends_bind; [|exact Hweak|intros _].
  { destruct p; [apply keeps_bind; [auto with keeps | intros _]|apply keeps_ret].
    apply keeps_counter_frame. intros ?; split; reflexivity. }
  apply ends_bind; [auto 10 with keeps | exact Hweak | intros _].
  apply ends_bind; [auto 10 with keeps | exact Hweak | intros _].
  apply ends_bind; [auto 10 with keeps | exact Hweak | intros _].
  intros [r w] [Hn HM]. unfold counter_near. cbn in *. split; [left; lia | exact HM].
Qed.

Lemma firecracker_counter code id codeHash s :
  counter_is n M s -> n < M ->
  counter_near n M (snd (Runner.runWithFirecracker h code id codeHash s)).
Proof.
  intros Hs Hslot. pose proof Hs as [Hn HM].
  unfold Runner.runWithFirecracker.
  destruct (Runner.vmCount (fst s) >=? Runner.maxVMs (fst s)) eqn:E; [lia|]. cbv zeta.
  unfold Async.try_finally, Async.try_catch.
  pose proof (fc_try_counter code id codeHash (Runner.fc_codeFile (fst s) id)
                (Runner.fc_configFile (fst s) id) (Runner.fc_socketPath id) s Hs) as Htry.
  destruct (Runner.fc_try h code id codeHash _ _ _ s) as [[res|e|] s1]; cbn [snd] in Htry.
  - pose proof (fc_finally_counter id (Runner.fc_codeFile (fst s) id)
                  (Runner.fc_configFile (fst s) id) (Runner.fc_socketPath id) s1 Htry) as Hfin.
    destruct (Runner.fc_finally h id _ _ _ s1) as [[[]|e'|] s2]; exact Hfin.
  - unfold Runner.fc_catch, Async.ret.
    pose proof (fc_finally_counter id (Runner.fc_codeFile (fst s) id)
                  (Runner.fc_configFile (fst s) id) (Runner.fc_socketPath id) s1 Htry) as Hfin.
    destruct (Runner.fc_finally h id _ _ _ s1) as [[[]|e'|] s2]; exact Hfin.
  - destruct Htry as [Hn1 HM1]. split; [right; exact Hn1 | exact HM1].
Qed.

End CounterFirecracker.

Lemma counter_ok_of_near n M s : 0 <= n -> n < M -> counter_near n M s -> counter_ok s /\ Runner.maxVMs (fst s) = M.
Proof. intros H0 HM [[Hn | Hn] Hmax]; unfold counter_ok; rewrite Hn, Hmax; split; lia. Qed.

Lemma counter_ok_of_is n M s : 0 <= n <= M -> counter_is n M s -> counter_ok s /\ Runner.maxVMs (fst s) = M.
Proof. intros H0 [Hn Hmax]. unfold counter_ok. rewrite Hn, Hmax. split; lia. Qed.

Lemma firecracker_counter_ok h code id codeHash s :
  counter_ok s ->
  counter_ok (snd (Runner.runWithFirecracker h code id codeHash s)) /\
  Runner.maxVMs (fst (snd (Runner.runWithFirecracker h code id codeHash s)))
    = Runner.maxVMs (fst s).
Proof.
  intros Hok. unfold counter_ok in Hok.
  destruct (Z.ltb_spec (Runner.vmCount (fst s)) (Runner.maxVMs (fst s))) as [Hlt|Hge].
  - apply (counter_ok_of_near (Runner.vmCount (fst s)) (Runner.maxVMs (fst s))); [lia | lia |].
    apply firecracker_counter; [split; reflexivity | exact Hlt].
  - unfold Runner.runWithFirecracker.
    destruct (Runner.vmCount (fst s) >=? Runner.maxVMs (fst s)) eqn:E; [|lia].
    cbn. split; [exact Hok | reflexivity].
Qed.

Lemma perform_counter_ok h c s :
  counter_ok s ->
  counter_ok (Session.perform h c s) /\
  Runner.maxVMs (fst (Session.perform h c s)) = Runner.maxVMs (fst s).
Proof.
  intros Hok.
  assert (Hframe : forall m : Async.t (Runner.t * World) unit,
             keeps (counter_is (Runner.vmCount (fst s)) (Runner.maxVMs (fst s))) m ->
             counter_ok (snd (m s)) /\ Runner.maxVMs (fst (snd (m s))) = Runner.maxVMs (fst s)).
  { intros m Hm. apply (counter_ok_of_is (Runner.vmCount (fst s))); [exact Hok|].
    apply Hm. split; reflexivity. }
  assert (Hframe' : forall m : Async.t (Runner.t * World) result,
             keeps (counter_is (Runner.vmCount (fst s)) (Runner.maxVMs (fst s))) m ->
             counter_ok (snd (m s)) /\ Runner.maxVMs (fst (snd (m s))) = Runner.maxVMs (fst s)).
  { intros m Hm. apply (counter_ok_of_is (Runner.vmCount (fst s))); [exact Hok|].
    apply Hm. split; reflexivity. }
  destruct c; cbn [Session.perform].
  - apply Hframe, keeps_counter_probe.
  - unfold Runner.runJavaScript.
    destruct (JsMap.get _ _); [cbn; split; [exact Hok | reflexivity]|].
    destruct (Runner.useFirecracker _); [now apply firecracker_counter_ok|].
    destruct (Runner.useDocker _);
      [apply Hframe', keeps_counter_docker | apply Hframe', keeps_counter_sandbox].
  - now apply firecracker_counter_ok.
  - apply Hframe', keeps_counter_docker.
  - apply Hframe', keeps_counter_sandbox.
  - apply Hframe, keeps_counter_clearCache.
  - apply Hframe, keeps_counter_shutdown.
Qed.

(** ** A full pool *)

Section Flag.
Variable h : Host.

Lemma uses_firecracker_runner_only : runner_only uses_firecracker.
Proof. intros r w w' H. exact H. Qed.


#[local] Hint Resolve uses_firecracker_runner_only : keeps.







End Flag.








(** In every state the enhanced runner reaches, the counter lies between
    0 and the maximum, which stays 3: no sequence of calls, whatever
    fails on the way, takes it above the maximum or below zero. *)
Theorem reachable_counter_within_bounds (s : Runner.t * World) :
  Session.reachable s ->
  0 <= Runner.vmCount (fst s) <= Runner.maxVMs (fst s) /\ Runner.maxVMs (fst s) = 3.
Proof.
  induction 1 as [dirname fs | h c s _ [IH1 IH2]].
  - cbn. lia.
  - destruct (perform_counter_ok h c s IH1) as [Hok Hmax]. split; [exact Hok | congruence].
Qed.

Lemma reachable_counter_within_bounds_witness :
  0 <= Runner.vmCount (fst Sample.before_shutdown)
    <= Runner.maxVMs (fst Sample.before_shutdown) /\
  Runner.maxVMs (fst Sample.before_shutdown) = 3.
Proof.
  apply (reachable_counter_within_bounds Sample.before_shutdown).
  apply perform_all_reachable, Session.reach_init.
Defined.

(** A Firecracker run that settles gives its slot back (the enhanced
    runner; [kill()] not throwing, the id a fresh one). *)
Theorem firecracker_run_gives_slot_back (h : Host) (code id codeHash : string)
    (r : Runner.t) (w : World) :
  proc_kill h id = None ->
  Runner.vmCount r < Runner.maxVMs r ->
  JsMap.get (Runner.processes r) id = None ->
  id ∉ live w ->
  fst (Runner.runWithFirecracker h code id codeHash (r, w)) <> Pending ->
  Runner.vmCount (fst (snd (Runner.runWithFirecracker h code id codeHash (r, w))))
  = Runner.vmCount r.
Proof.
  intros Hkill Hslot Hfresh Hdead Hfc.
  destruct (fc_run_post h code id codeHash r w Hkill Hslot Hfresh Hdead Hfc)
    as (res & r2 & w2 & -> & _ & _ & Hcount & _).
  exact Hcount.
Qed.

Lemma firecracker_run_gives_slot_back_witness :
  Runner.vmCount (fst (snd (Runner.runWithFirecracker Sample.stuck_files "1" "id-1" "k"
                              (Runner.init "/srv", Sample.bare))))
  = Runner.vmCount (Runner.init "/srv").
Proof.
  apply (firecracker_run_gives_slot_back Sample.stuck_files "1" "id-1" "k"
           (Runner.init "/srv") Sample.bare).
  - reflexivity.
  - cbn. lia.
  - reflexivity.
  - cbn. set_solver.
  - vm_compute. discriminate.
Defined.

Lemma sandbox_reports_timeout_witness :
  exists res,
    Runner.runWithVMSandbox Sample.looping "while(true){}" "id-1" "k"
      (Runner.init "/srv", Sample.bare)
      = (Returned res, (fst (Runner.init "/srv", Sample.bare),
                        log_event (EvSandbox "while(true){}")
                          (snd (Runner.init "/srv", Sample.bare)))) /\
    success res = false /\ output res = "" /\
    error res = "Script execution timed out after "
                +:+ pretty (Runner.executionTimeout (fst (Runner.init "/srv", Sample.bare)))
                +:+ "ms" /\
    error res <> "Execution timed out".
Proof.
  apply (sandbox_reports_timeout Sample.looping "while(true){}" "id-1" "k"
           (Runner.init "/srv", Sample.bare)).
  reflexivity.
Defined.

(** * The rest of the runner *)

(** ** The probe *)

(** [checkAvailableExecutors] never rejects; it can only raise the two
    flags; [useFirecracker] is raised exactly when [which firecracker]
    ends well, [useDocker] exactly when [docker --version] is reached
    and ends well, whatever becomes of [docker pull]; cache, counter,
    registry and files stay as they were. *)
Theorem probe_only_raises_flags (h : Host) (r : Runner.t) (w : World) :
  exists c r' w',
    Runner.checkAvailableExecutors h (r, w) = (c, (r', w')) /\
    (forall e, c <> Thrown e) /\
    Runner.useFirecracker r'
      = Runner.useFirecracker r || resolves (exec h WhichFirecracker) /\
    Runner.useDocker r'
      = Runner.useDocker r
        || (negb (unsettled (exec h WhichFirecracker)) && resolves (exec h DockerVersion)) /\
    Runner.cache r' = Runner.cache r /\
    Runner.vmCount r' = Runner.vmCount r /\
    Runner.maxVMs r' = Runner.maxVMs r /\
    Runner.processes r' = Runner.processes r /\
    files w' = files w.
Proof.
  unfold Runner.checkAvailableExecutors. open_steps. cbn [fst snd].
  destruct r as [td n M ps ca et ml uf ud].
  destruct (exec h WhichFirecracker) eqn:E1; reduce_steps;
    try (destruct (exec h DockerVersion) eqn:E2; reduce_steps;
         try (destruct (exec h DockerPull) eqn:E3; reduce_steps));
    eexists _, _, _; (split; [reflexivity|]);
    cbn [Runner.set_useFirecracker Runner.set_useDocker Runner.useFirecracker
         Runner.useDocker Runner.cache Runner.vmCount Runner.maxVMs Runner.processes files
         resolves unsettled negb andb];
    rewrite ?orb_true_r, ?orb_false_r;
    (split; [intros e; discriminate|]); repeat split; reflexivity.
Qed.

(** ** What a run does to the cache, and what it answers *)

Section RunEffect.
Variable h : Host.

(** The [try] block of each backend writes the cache once, at its end. *)
Lemma fc_try_cache code vm codeHash codeFile configFile socketPath r w :
  exists c s1,
    Runner.fc_try h code vm codeHash codeFile configFile socketPath (r, w) = (c, s1) /\
    match c with
    | Returned res =>
        Runner.cache (fst s1) = JsMap.set (Runner.cache r) codeHash res /\
        exists out err,
          res = mkResult true (JsString.trim out) (JsString.trim err)
                         (Some "firecracker") None (Some vm) None None
    | _ => Runner.cache (fst s1) = Runner.cache r
    end.
Proof.
  unfold Runner.fc_try. open_steps. cbn [fst snd].
  destruct (fs_write h codeFile) eqn:E1; reduce_steps;
    [eexists _, _; split; [reflexivity|]; reflexivity|].
  destruct (fs_write h configFile) eqn:E2; reduce_steps;
    [eexists _, _; split; [reflexivity|]; reflexivity|].
  destruct (exec h (NodeFile codeFile)) eqn:E3; reduce_steps;
    eexists _, _; (split; [reflexivity|]); try reflexivity.
  split; [reflexivity|]. now eexists _, _.
Qed.

Lemma docker_try_cache code codeHash container codeFile r w :
  exists c s1,
    Runner.docker_try h code codeHash container codeFile (r, w) = (c, s1) /\
    match c with
    | Returned res =>
        Runner.cache (fst s1) = JsMap.set (Runner.cache r) codeHash res /\
        exists out err,
          res = mkResult true (JsString.trim out) (JsString.trim err)
                         (Some "docker") None None (Some container) None
    | _ => Runner.cache (fst s1) = Runner.cache r
    end.
Proof.
  unfold Runner.docker_try. open_steps. cbn [fst snd].
  destruct (fs_write h codeFile) eqn:E1; reduce_steps;
    [eexists _, _; split; [reflexivity|]; reflexivity|].
  destruct (exec h (DockerRun container codeFile _ _)) eqn:E3; reduce_steps;
    eexists _, _; (split; [reflexivity|]); try reflexivity.
  split; [reflexivity|]. now eexists _, _.
Qed.

Lemma firecracker_answered code id codeHash r w res s' :
  Runner.vmCount r < Runner.maxVMs r ->
  Runner.runWithFirecracker h code id codeHash (r, w) = (Returned res, s') ->
  answered "firecracker" codeHash r res s'.
Proof.
  intros Hslot. unfold Runner.runWithFirecracker. cbn [fst snd].
  destruct (Runner.vmCount r >=? Runner.maxVMs r) eqn:E; [lia|]. cbv zeta.
  intros Hrun. apply try_finally_returned in Hrun as (s1 & Hbody & Hfin).
  pose proof (fun C Hc =>
    keeps_fc_finally h (fun m => m = C) id (Runner.fc_codeFile r id)
      (Runner.fc_configFile r id) (Runner.fc_socketPath id) s1 Hc) as Hk.
  rewrite Hfin in Hk. cbn [snd] in Hk. unfold cache_has in Hk.
  destruct (fc_try_cache code id codeHash (Runner.fc_codeFile r id)
              (Runner.fc_configFile r id) (Runner.fc_socketPath id) r w)
    as (c & s0 & Htry & Hc).
  unfold Async.try_catch in Hbody. rewrite Htry in Hbody.
  destruct c as [res0|e|]; [| |discriminate].
  - inversion Hbody; subst. destruct Hc as [Hc (out & err & ->)].
    repeat split; try discriminate. intros _. now apply Hk.
  - unfold Runner.fc_catch, Async.ret in Hbody. inversion Hbody; subst.
    repeat split; try discriminate. intros _. now apply Hk.
Qed.

Lemma docker_answered code id codeHash r w res s' :
  Runner.runWithDocker h code id codeHash (r, w) = (Returned res, s') ->
  answered "docker" codeHash r res s'.
Proof.
  unfold Runner.runWithDocker. cbn [fst snd]. cbv zeta.
  intros Hrun. apply try_finally_returned in Hrun as (s1 & Hbody & Hfin).
  pose proof (fun C Hc =>
    keeps_docker_finally h (fun m => m = C) (Runner.docker_container id)
      (Runner.fc_codeFile r id) s1 Hc) as Hk.
  rewrite Hfin in Hk. cbn [snd] in Hk. unfold cache_has in Hk.
  destruct (docker_try_cache code codeHash (Runner.docker_container id)
              (Runner.fc_codeFile r id) r w) as (c & s0 & Htry & Hc).
  unfold Async.try_catch in Hbody. rewrite Htry in Hbody.
  destruct c as [res0|e|]; [| |discriminate].
  - inversion Hbody; subst. destruct Hc as [Hc (out & err & ->)].
    repeat split; try discriminate. intros _. now apply Hk.
  - unfold Runner.docker_catch, Async.ret in Hbody. inversion Hbody; subst.
    repeat split; try discriminate. intros _. now apply Hk.
Qed.

Lemma sandbox_answered code id codeHash r w res s' :
  Runner.runWithVMSandbox h code id codeHash (r, w) = (Returned res, s') ->
  answered "vm-sandbox" codeHash r res s'.
Proof.
  unfold Runner.runWithVMSandbox, Runner.run_script, Runner.sandbox_try,
    Runner.sandbox_catch.
  open_steps. cbn [fst snd].
  destruct (vm_sandbox h code (Runner.executionTimeout r)) as [calls|[e|t]|];
    reduce_steps; intros H; inversion H; subst; unfold answered;
    cbn [mode fromCache success fst Runner.cache Runner.set_cache];
    repeat split; solve [reflexivity | discriminate].
Qed.

End RunEffect.

(** A miss is answered by the backend the flags choose, and its result
    is not marked. *)
Lemma miss_answer (h : Host) (code id : string)
    (s s' : Runner.t * World) (res : result) :
  JsMap.get (Runner.cache (fst s)) (MD5.digest_hex code) = None ->
  Runner.runJavaScript h code id s = (Returned res, s') ->
  fromCache res = None /\ mode res = Some (chosen_backend (fst s)).
Proof.
  intros Hmiss. unfold Runner.runJavaScript, chosen_backend. rewrite Hmiss.
  destruct s as [r w]. cbn [fst].
  destruct (Runner.useFirecracker r); [|destruct (Runner.useDocker r)]; intros Hrun.
  - destruct (Runner.vmCount r >=? Runner.maxVMs r) eqn:E.
    + unfold Runner.runWithFirecracker in Hrun. cbn [fst] in Hrun. rewrite E in Hrun.
      inversion Hrun; subst. now split.
    + apply firecracker_answered in Hrun as (Hm & Hf & _); [now split | lia].
  - now apply docker_answered in Hrun as (Hm & Hf & _).
  - now apply sandbox_answered in Hrun as (Hm & Hf & _).
Qed.

(** On a miss the runner prefers Firecracker to Docker and Docker to the
    sandbox, and the result names the backend that was taken: with
    [useFirecracker] set the answer comes from the Firecracker path (the
    queue-full answer when the pool is full), whatever [useDocker] says;
    without it and with [useDocker] from Docker; else from the sandbox. *)
Theorem backend_preference (h : Host) (code id : string)
    (s s' : Runner.t * World) (res : result) :
  JsMap.get (Runner.cache (fst s)) (MD5.digest_hex code) = None ->
  Runner.runJavaScript h code id s = (Returned res, s') ->
  mode res = Some (chosen_backend (fst s)).
Proof.
  intros Hmiss Hrun.
  destruct (miss_answer h code id s s' res Hmiss Hrun) as [_ Hmode].
  exact Hmode.
Qed.

(** A result is marked [fromCache] exactly when the digest of the source
    was in the runner's cache before the call; and a call that hit has
    changed nothing, in the runner or on the machine. *)
Theorem fromCache_marks_hits (h : Host) (code id : string)
    (s s' : Runner.t * World) (res : result) :
  Runner.runJavaScript h code id s = (Returned res, s') ->
  (fromCache res = Some true <->
   JsMap.get (Runner.cache (fst s)) (MD5.digest_hex code) <> None) /\
  (fromCache res = Some true -> s' = s).
Proof.
  unfold Runner.runJavaScript. destruct s as [r w]. cbn [fst].
  destruct (JsMap.get (Runner.cache r) (MD5.digest_hex code)) as [cached|] eqn:Hget.
  - intros Hrun. inversion Hrun; subst. split; [|reflexivity]. now split.
  - intros Hrun.
    assert (fromCache res = None) as Hnone.
    { apply (miss_answer h code id (r, w) s'); [exact Hget|].
      unfold Runner.runJavaScript. cbn [fst]. now rewrite Hget. }
    rewrite Hnone. split; [split; [discriminate | congruence] | discriminate].
Qed.

(** A run changes the cache by one entry at most: a hit and a failure
    leave it as it was, a success on a miss stores the result under the
    digest of the source. *)
Theorem run_writes_one_cache_entry (h : Host) (code id : string)
    (s s' : Runner.t * World) (res : result) :
  Runner.runJavaScript h code id s = (Returned res, s') ->
  Runner.cache (fst s')
  = if success res
       && negb (bool_decide (is_Some (JsMap.get (Runner.cache (fst s)) (MD5.digest_hex code))))
    then JsMap.set (Runner.cache (fst s)) (MD5.digest_hex code) res
    else Runner.cache (fst s).
Proof.
  unfold Runner.runJavaScript. destruct s as [r w]. cbn [fst].
  destruct (JsMap.get (Runner.cache r) (MD5.digest_hex code)) as [cached|] eqn:Hget.
  - intros Hrun. inversion Hrun; subst.
    rewrite bool_decide_true by (now eexists). now rewrite andb_false_r.
  - intros Hrun. rewrite bool_decide_false by (intros [? ?]; discriminate).
    rewrite andb_true_r.
    assert (success res = false /\ s' = (r, w) \/
            exists b, answered b (MD5.digest_hex code) r res s') as [[Hf ->] | (b & Ha)].
    { destruct (Runner.useFirecracker r); [|destruct (Runner.useDocker r)].
      - destruct (Runner.vmCount r >=? Runner.maxVMs r) eqn:E.
        + unfold Runner.runWithFirecracker in Hrun. cbn [fst] in Hrun. rewrite E in Hrun.
          inversion Hrun; subst. now left.
        + right. exists "firecracker".
          apply firecracker_answered in Hrun; [exact Hrun | lia].
      - right. exists "docker". now apply docker_answered in Hrun.
      - right. exists "vm-sandbox". now apply sandbox_answered in Hrun. }
    + now rewrite Hf.
    + destruct Ha as (_ & _ & Hs & Hf).
      destruct (success res); [now apply Hs | now apply Hf].
Qed.

(** ** A [kill()] that throws *)

(** In the [finally] block of [runWithFirecracker] the call of [kill()]
    stands unguarded.  When it throws, the call rejects with that error
    in place of the result of the execution, the registry keeps the
    process, the two files stay and the slot is not given back. *)
Theorem throwing_kill_loses_the_result (h : Host) (code id codeHash msg : string)
    (r : Runner.t) (w : World) :
  Runner.vmCount r < Runner.maxVMs r ->
  JsMap.get (Runner.processes r) id = None ->
  fs_write h (Runner.fc_codeFile r id) = None ->
  fs_write h (Runner.fc_configFile r id) = None ->
  exec h (NodeFile (Runner.fc_codeFile r id)) <> ExecPending ->
  proc_kill h id = Some msg ->
  exists r' w',
    Runner.runWithFirecracker h code id codeHash (r, w)
      = (Thrown (mkError true msg), (r', w')) /\
    Runner.vmCount r' = Runner.vmCount r + 1 /\
    JsMap.get (Runner.processes r') id = Some id /\
    Runner.fc_codeFile r id ∈ files w' /\
    Runner.fc_configFile r id ∈ files w' /\
    id ∈ live w'.
Proof.
  intros Hslot Hfresh Hw1 Hw2 Hexec Hkill.
  unfold Runner.runWithFirecracker. cbn [fst snd].
  destruct (Runner.vmCount r >=? Runner.maxVMs r) eqn:E; [lia|]. cbv zeta.
  unfold Runner.fc_try, Runner.fc_catch, Runner.fc_finally. open_steps. cbn [fst snd].
  rewrite Hw1, Hw2.
  destruct (exec h (NodeFile (Runner.fc_codeFile r id))) eqn:E3; [| |congruence];
    reduce_steps; rewrite ?get_set_eq, ?Hkill; reduce_steps;
    rewrite ?get_set_eq, ?Hkill; reduce_steps;
    eexists _, _; (split; [reflexivity|]); reduce_steps;
    (split; [reflexivity|]); (split; [apply get_set_eq|]);
    destruct (socket_created h (Runner.fc_socketPath id));
    repeat split; set_solver.
Qed.

(** ** Strings *)

Lemma append_empty (a b : string) : a +:+ b = "" -> a = "" /\ b = "".
Proof. destruct a; cbn; [now split | discriminate]. Qed.

(** A joined list is empty only when each of its parts is. *)
Lemma join_nonempty sep parts x :
  In x parts -> x <> "" -> JsString.join sep parts <> "".
Proof.
  induction parts as [|p rest IH]; [intros []|].
  intros [-> | Hin] Hx; destruct rest as [|q rest]; cbn [JsString.join].
  - exact Hx.
  - intros H. now apply append_empty in H as [? _].
  - destruct Hin.
  - intros H. apply append_empty in H as [_ H]. apply append_empty in H as [_ H].
    now apply IH.
Qed.

Lemma prefix_spec (sub s : string) :
  String.prefix sub s = true <-> exists post, s = sub +:+ post.
Proof.
  revert sub. induction s as [|c s IH]; intros [|d sub]; cbn.
  - split; [now exists "" | reflexivity].
  - split; [discriminate | intros [post H]; discriminate].
  - split; [intros _; now eexists | reflexivity].
  - destruct (ascii_dec d c) as [->|Hne].
    + rewrite IH. split; intros [post H]; exists post; [now rewrite H | now inversion H].
    + split; [discriminate | intros [post H]; inversion H; congruence].
Qed.

Lemma includes_unfold (sub s : string) :
  JsString.includes sub s
  = String.prefix sub s
    || match s with EmptyString => false | String _ s' => JsString.includes sub s' end.
Proof. destruct s; reflexivity. Qed.

(** [includes] is the test for a substring. *)
Lemma includes_spec (sub s : string) :
  JsString.includes sub s = true <-> exists pre post, s = pre +:+ sub +:+ post.
Proof.
  induction s as [|c s IH]; rewrite includes_unfold, orb_true_iff, prefix_spec.
  - split.
    + intros [[post H] | H]; [|discriminate]. now exists "", post.
    + intros (pre & post & H). left. symmetry in H.
      apply append_empty in H as [-> H]. now exists post.
  - rewrite IH. split.
    + intros [[post H] | (pre & post & H)]; [now exists "", post|].
      exists (String c pre), post. cbn. now rewrite H.
    + intros ([|d pre] & post & H); [left; now exists post|].
      right. exists pre, post. cbn in H. now inversion H.
Qed.

Lemma includes_false (sub s : string) :
  JsString.includes sub s = false <-> forall pre post, s <> pre +:+ sub +:+ post.
Proof.
  rewrite <- not_true_iff_false, includes_spec. split.
  - intros H pre post E. apply H. now exists pre, post.
  - intros H (pre & post & E). now apply (H pre post).
Qed.

(** ** The sandbox *)

(** What the script says through [console] decides whether the sandbox's
    result is a clean one.  A script that only calls [console.log] gives
    a success with an empty [error]; one call of [console.warn] is enough
    for a non-empty [error], and the handler of index.js then does not
    store the result. *)
Theorem console_decides_cleanliness (h : Host) (code id codeHash : string)
    (s : Runner.t * World) (calls : list console_call) :
  vm_sandbox h code (Runner.executionTimeout (fst s)) = VmCompleted calls ->
  exists res,
    fst (Runner.runWithVMSandbox h code id codeHash s) = Returned res /\
    success res = true /\
    output res = JsString.join newline (Runner.sandbox_logs calls) /\
    (Forall (fun c => fst c = ConsoleLog) calls -> error res = "") /\
    (forall args, In (ConsoleWarn, args) calls ->
       error res <> "" /\ forall key m, Index.store key res m = m).
Proof.
  intros Hvm. unfold Runner.runWithVMSandbox, Runner.sandbox_try, Runner.run_script.
  open_steps. cbn [fst snd]. rewrite Hvm. reduce_steps.
  eexists. split; [reflexivity|]. cbn [success output error].
  split; [reflexivity|]. split; [reflexivity|]. split.
  - intros Hall. replace (Runner.sandbox_errors calls) with (@nil string); [reflexivity|].
    clear Hvm. induction Hall as [|[k a] l Hk _ IH]; [reflexivity|].
    cbn in Hk. subst k. exact IH.
  - intros args Hin.
    assert (JsString.join newline (Runner.sandbox_errors calls) <> "") as Hne.
    { apply (join_nonempty _ _ ("[WARN] " +:+ JsString.join " " args)); [|discriminate].
      apply list_elem_of_In, list_elem_of_omap. exists (ConsoleWarn, args).
      split; [now apply list_elem_of_In | reflexivity]. }
    split; [exact Hne|]. intros key m. unfold Index.store. cbn [success error andb].
    destruct (String.eqb _ "") eqn:E; [|reflexivity].
    now apply String.eqb_eq in E.
Qed.

(** ** Docker: what a failure says *)

(** When the [try] block of [runWithDocker] throws (the write of the code
    file or the [docker run] command rejects), the call returns a failure
    with no output.  Its [error] is the fixed text "Execution timed out"
    as soon as the message of the error has "timeout" or "timed out"
    anywhere in it, and the message itself otherwise. *)
Theorem docker_failure_text (h : Host) (code id codeHash msg : string)
    (r : Runner.t) (w : World) :
  fs_write h (Runner.fc_codeFile r id) = Some msg \/
  (fs_write h (Runner.fc_codeFile r id) = None /\
   exec h (DockerRun (Runner.docker_container id) (Runner.fc_codeFile r id)
             (Runner.memoryLimit r) (Runner.executionTimeout r)) = ExecRejected msg) ->
  exec h (DockerRm (Runner.docker_container id)) <> ExecPending ->
  exists res s',
    Runner.runWithDocker h code id codeHash (r, w) = (Returned res, s') /\
    success res = false /\ output res = "" /\ mode res = Some "docker" /\
    ((exists pre post, msg = pre +:+ "timeout" +:+ post \/
                       msg = pre +:+ "timed out" +:+ post) ->
     error res = "Execution timed out") /\
    ((forall pre post, msg <> pre +:+ "timeout" +:+ post /\
                       msg <> pre +:+ "timed out" +:+ post) ->
     error res = msg).
Proof.
  intros Hthrow Hrm.
  assert (forall res : result,
            error res = (if JsString.includes "timeout" msg
                            || JsString.includes "timed out" msg
                         then "Execution timed out" else msg) ->
            ((exists pre post, msg = pre +:+ "timeout" +:+ post \/
                               msg = pre +:+ "timed out" +:+ post) ->
             error res = "Execution timed out") /\
            ((forall pre post, msg <> pre +:+ "timeout" +:+ post /\
                               msg <> pre +:+ "timed out" +:+ post) ->
             error res = msg)) as Htext.
  { intros res ->. split.
    - intros (pre & post & [H | H]).
      + replace (JsString.includes "timeout" msg) with true; [reflexivity|].
        symmetry. apply includes_spec. now exists pre, post.
      + replace (JsString.includes "timed out" msg) with true;
          [now rewrite orb_true_r|].
        symmetry. apply includes_spec. now exists pre, post.
    - intros H.
      replace (JsString.includes "timeout" msg) with false.
      + replace (JsString.includes "timed out" msg) with false; [reflexivity|].
        symmetry. apply includes_false. intros pre post. apply H.
      + symmetry. apply includes_false. intros pre post. apply H. }
  unfold Runner.runWithDocker. cbn [fst snd]. cbv zeta.
  unfold Runner.docker_try, Runner.docker_catch, Runner.docker_finally.
  open_steps. cbn [fst snd].
  destruct Hthrow as [Hw | [Hw Hx]]; rewrite Hw; reduce_steps; rewrite ?Hx; reduce_steps;
    destruct (fs_remove h (Runner.fc_codeFile r id)); reduce_steps;
    (destruct (exec h (DockerRm (Runner.docker_container id))) eqn:E; [| |congruence]);
    reduce_steps; eexists _, _; (split; [reflexivity|]);
    (split; [reflexivity|]); (split; [reflexivity|]); (split; [reflexivity|]);
    apply Htext; reflexivity.
Qed.

(** ** Shutdown and the processes *)

Section ShutdownKills.
Variable h : Host.

Lemma kill_all_live ps r w :
  exists w2,
    Runner.kill_all h ps (r, w) = (Returned tt, (r, w2)) /\
    files w2 = files w /\
    live w2 ⊆ live w /\
    forall vm child, In (vm, child) ps -> proc_kill h child = None -> child ∉ live w2.
Proof.
  revert w. induction ps as [|[vm0 child0] ps IH]; intros w; cbn [Runner.kill_all].
  - exists w. repeat split; [set_solver | intros ? ? []].
  - open_steps. destruct (proc_kill h child0) eqn:Hk; reduce_steps.
    + destruct (IH w) as (w2 & -> & Hf & Hsub & Hdead). exists w2.
      repeat split; try assumption.
      intros vm child [Heq | Hin] Hok; [inversion Heq; subst; congruence|].
      now apply (Hdead vm).
    + match goal with
      | |- context [Runner.kill_all h ps (r, ?w1)] =>
          destruct (IH w1) as (w2 & -> & Hf & Hsub & Hdead)
      end.
      cbn [files live] in *. exists w2.
      repeat split; [assumption | set_solver |].
      intros vm child [Heq | Hin] Hok; [inversion Heq; subst; set_solver|].
      now apply (Hdead vm).
Qed.

End ShutdownKills.

(** What [shutdown] leaves of a process it could signal. *)
Lemma shutdown_live (h : Host) (r : Runner.t) (w : World) (vm child : string) :
  In (vm, child) (Runner.processes r) ->
  proc_kill h child = None ->
  Runner.vmCount (fst (snd (Runner.shutdown h (r, w)))) = Runner.vmCount r /\
  Runner.processes (fst (snd (Runner.shutdown h (r, w)))) = [] /\
  (child ∉ live (snd (snd (Runner.shutdown h (r, w))))).
Proof.
  intros Hin Hkill. unfold Runner.shutdown. open_steps. cbn [fst snd].
  destruct (kill_all_live h (Runner.processes r) r w) as (w2 & -> & _ & _ & Hdead).
  reduce_steps. specialize (Hdead vm child Hin Hkill).
  destruct (fs_emptyDir h (Runner.tempDir r)); reduce_steps; now repeat split.
Qed.

(** [shutdown] goes through the whole registry: every tracked process
    whose [kill()] does not throw is dead afterwards, also when the
    [kill()] of another one throws; no process is started; the registry
    is empty afterwards; cache and counter stay as they were (a slot
    held by a run that has not ended stays taken). *)
Theorem shutdown_kills_every_child (h : Host) (r : Runner.t) (w : World) :
  exists w',
    Runner.shutdown h (r, w) = (Returned tt, (Runner.set_processes [] r, w')) /\
    live w' ⊆ live w /\
    (forall vm child,
       In (vm, child) (Runner.processes r) -> proc_kill h child = None ->
       child ∉ live w') /\
    Runner.vmCount (Runner.set_processes [] r) = Runner.vmCount r /\
    Runner.cache (Runner.set_processes [] r) = Runner.cache r.
Proof.
  unfold Runner.shutdown. open_steps. cbn [fst snd].
  destruct (kill_all_live h (Runner.processes r) r w) as (w2 & -> & Hf & Hsub & Hdead).
  reduce_steps. unfold JsMap.clear.
  destruct (fs_emptyDir h (Runner.tempDir r)) eqn:E; reduce_steps;
    eexists; (split; [reflexivity|]); cbn [live]; now repeat split.
Qed.

(** ** Trimming *)

(** [trim] on white space of one, two and three bytes; U+200B and
    U+00E0 are no white space. *)
Example trim_ascii : JsString.trim "  x y  " = "x y".
Proof. vm_compute. reflexivity. Qed.

Example trim_no_break_space :
  JsString.trim (utf8 [194; 160] +:+ "x" +:+ utf8 [194; 160; 10]) = "x".
Proof. vm_compute. reflexivity. Qed.

Example trim_wide_spaces :
  JsString.trim (utf8 [239; 187; 191; 226; 128; 168] +:+ "a b" +:+ utf8 [227; 128; 128; 9])
  = "a b".
Proof. vm_compute. reflexivity. Qed.

Example trim_keeps_zero_width_space :
  JsString.trim (utf8 [226; 128; 139] +:+ "x") = utf8 [226; 128; 139] +:+ "x".
Proof. vm_compute. reflexivity. Qed.

Example trim_keeps_a_grave :
  JsString.trim ("x" +:+ utf8 [195; 160]) = "x" +:+ utf8 [195; 160].
Proof. vm_compute. reflexivity. Qed.

Example trim_all_space : JsString.trim (utf8 [32; 10; 13; 226; 128; 175]) = "".
Proof. vm_compute. reflexivity. Qed.

(** U+1680, U+2000, U+200A, U+2029, U+205F in front, U+3000, U+FEFF and
    U+00A0 behind; U+0085, U+180E and U+2060 stay. *)
Example trim_every_wide_space :
  JsString.trim (utf8 [225; 154; 128; 226; 128; 128; 226; 128; 138; 226; 128; 169;
                       226; 129; 159]
                 +:+ "x" +:+ utf8 [227; 128; 128; 239; 187; 191; 194; 160])
  = "x".
Proof. vm_compute. reflexivity. Qed.

Example trim_keeps_other_marks :
  JsString.trim (utf8 [194; 133] +:+ "x" +:+ utf8 [225; 160; 142; 226; 129; 160])
  = utf8 [194; 133] +:+ "x" +:+ utf8 [225; 160; 142; 226; 129; 160].
Proof. vm_compute. reflexivity. Qed.

Section Strip.
Variable f : string -> nat.
Hypothesis f_empty : f "" = 0%nat.

Lemma strip_fixed n s : f s = 0%nat -> JsString.strip f n s = s.
Proof. intros H. destruct n; cbn; [reflexivity | now rewrite H]. Qed.

Lemma length_skip n s : String.length (JsString.skip n s) = (String.length s - n)%nat.
Proof.
  revert s. induction n as [|n IH]; intros [|c s]; cbn; try reflexivity. apply IH.
Qed.

Lemma strip_done n s : (String.length s <= n)%nat -> f (JsString.strip f n s) = 0%nat.
Proof.
  revert s. induction n as [|n IH]; intros s Hn; cbn [JsString.strip].
  - destruct s; [exact f_empty | cbn in Hn; lia].
  - destruct (f s) as [|k] eqn:E; [exact E|].
    apply IH. rewrite length_skip. destruct s; cbn [String.length] in *; lia.
Qed.

Lemma skip_suffix n s : exists pre, s = pre +:+ JsString.skip n s.
Proof.
  revert s. induction n as [|n IH]; intros [|c s]; cbn; try (now exists "").
  destruct (IH s) as [pre H]. exists (String c pre).
  change (String c s = String c (pre +:+ JsString.skip n s)). now f_equal.
Qed.

Lemma append_assoc (a c d : string) : (a +:+ c) +:+ d = a +:+ (c +:+ d).
Proof.
  induction a as [|x a IH]; [reflexivity|].
  change (String x ((a +:+ c) +:+ d) = String x (a +:+ (c +:+ d))). now f_equal.
Qed.

Lemma strip_suffix n s : exists pre, s = pre +:+ JsString.strip f n s.
Proof.
  revert s. induction n as [|n IH]; intros s; cbn [JsString.strip]; [now exists ""|].
  destruct (f s) as [|k]; [now exists ""|].
  destruct (skip_suffix (Datatypes.S k) s) as [p1 H1].
  destruct (IH (JsString.skip (Datatypes.S k) s)) as [p2 H2].
  exists (p1 +:+ p2). rewrite append_assoc, <- H2. exact H1.
Qed.

End Strip.

Lemma leading_space_prefix p q :
  JsString.leading_space p <> 0%nat ->
  JsString.leading_space (p +:+ q) = JsString.leading_space p.
Proof.
  destruct p as [|c1 [|c2 [|c3 p]]]; intros H.
  - now destruct H.
  - change (String c1 "" +:+ q) with (String c1 q).
    unfold JsString.leading_space in *.
    destruct (JsString.is_space c1); [reflexivity | now destruct H].
  - change (String c1 (String c2 "") +:+ q) with (String c1 (String c2 q)).
    unfold JsString.leading_space in *.
    destruct (JsString.is_space c1); [reflexivity|].
    destruct ((nat_of_ascii c1 =? 194)%nat && (nat_of_ascii c2 =? 160)%nat);
      [reflexivity | now destruct H].
  - change (String c1 (String c2 (String c3 p)) +:+ q)
      with (String c1 (String c2 (String c3 (p +:+ q)))).
    reflexivity.
Qed.

Lemma reverse_app a c : JsString.reverse (a +:+ c) = JsString.reverse c +:+ JsString.reverse a.
Proof.
  unfold JsString.reverse.
  assert (forall x y, list_ascii_of_string (x +:+ y)
                      = (list_ascii_of_string x ++ list_ascii_of_string y)%list) as Hl.
  { induction x as [|k x IH]; intros y; [reflexivity|].
    change (k :: list_ascii_of_string (x +:+ y)
            = k :: (list_ascii_of_string x ++ list_ascii_of_string y)%list).
    f_equal. apply IH. }
  assert (forall l1 l2, string_of_list_ascii (l1 ++ l2)%list
                        = string_of_list_ascii l1 +:+ string_of_list_ascii l2) as Hs.
  { induction l1 as [|k l1 IH]; intros l2; [reflexivity|].
    change (String k (string_of_list_ascii (l1 ++ l2)%list)
            = String k (string_of_list_ascii l1 +:+ string_of_list_ascii l2)).
    f_equal. apply IH. }
  now rewrite Hl, rev_app_distr, Hs.
Qed.

Lemma reverse_reverse s : JsString.reverse (JsString.reverse s) = s.
Proof.
  unfold JsString.reverse.
  now rewrite list_ascii_of_string_of_list_ascii, rev_involutive, string_of_list_ascii_of_string.
Qed.

Lemma trimStart_done s : JsString.leading_space (JsString.trimStart s) = 0%nat.
Proof. apply strip_done; [reflexivity | apply Nat.le_refl]. Qed.

Lemma trimEnd_prefix s : exists q, s = JsString.trimEnd s +:+ q.
Proof.
  unfold JsString.trimEnd.
  destruct (strip_suffix JsString.trailing_space (String.length s) (JsString.reverse s))
    as [pre H].
  exists (JsString.reverse pre).
  rewrite <- reverse_app, <- H. symmetry. apply reverse_reverse.
Qed.

Lemma length_reverse s : String.length (JsString.reverse s) = String.length s.
Proof.
  unfold JsString.reverse.
  assert (forall l, String.length (string_of_list_ascii l) = length l) as Hlen.
  { induction l as [|k l IH]; [reflexivity | cbn; now rewrite IH]. }
  assert (forall x, length (list_ascii_of_string x) = String.length x) as Hlen'.
  { induction x as [|k x IH]; [reflexivity | cbn; now rewrite IH]. }
  now rewrite Hlen, length_rev, Hlen'.
Qed.

Lemma trimEnd_again s : JsString.trimEnd (JsString.trimEnd s) = JsString.trimEnd s.
Proof.
  assert (JsString.trimEnd s
          = JsString.reverse
              (JsString.strip JsString.trailing_space (String.length s)
                 (JsString.reverse s))) as -> by reflexivity.
  set (u := JsString.strip JsString.trailing_space (String.length s) (JsString.reverse s)).
  unfold JsString.trimEnd. rewrite reverse_reverse. f_equal.
  apply strip_fixed. apply strip_done; [reflexivity|].
  rewrite length_reverse. apply Nat.le_refl.
Qed.

(** A trimmed string has no white space left at either end: trimming it
    again changes nothing. *)
Lemma trim_again s : JsString.trim (JsString.trim s) = JsString.trim s.
Proof.
  unfold JsString.trim.
  assert (JsString.trimStart (JsString.trimEnd (JsString.trimStart s))
          = JsString.trimEnd (JsString.trimStart s)) as ->; [|apply trimEnd_again].
  apply strip_fixed.
  destruct (trimEnd_prefix (JsString.trimStart s)) as [q Hq].
  destruct (JsString.leading_space (JsString.trimEnd (JsString.trimStart s))) eqn:E;
    [reflexivity|].
  pose proof (trimStart_done s) as Hd. rewrite Hq in Hd.
  rewrite leading_space_prefix in Hd; congruence.
Qed.

(** ** The Firecracker path, step by step *)

(** The good path of [runWithFirecracker]: with a free slot, both files
    written, [node file] ending well and [kill()] not throwing, the call
    returns a success whose [output] and [error] are what [node] on the
    host wrote to its standard output and standard error, trimmed (so with
    no white space at either end), under the mode "firecracker" and with
    the id of the call; and the cache then holds this result under the
    digest.  Whether the spawned VMM ever made its socket plays no part. *)
Theorem firecracker_success_result (h : Host) (code id codeHash out err : string)
    (r : Runner.t) (w : World) :
  Runner.vmCount r < Runner.maxVMs r ->
  JsMap.get (Runner.processes r) id = None ->
  fs_write h (Runner.fc_codeFile r id) = None ->
  fs_write h (Runner.fc_configFile r id) = None ->
  exec h (NodeFile (Runner.fc_codeFile r id)) = ExecResolved out err ->
  proc_kill h id = None ->
  let res := mkResult true (JsString.trim out) (JsString.trim err)
                      (Some "firecracker") None (Some id) None None in
  exists s',
    Runner.runWithFirecracker h code id codeHash (r, w) = (Returned res, s') /\
    JsMap.get (Runner.cache (fst s')) codeHash = Some res /\
    JsString.trim (output res) = output res /\
    JsString.trim (error res) = error res.
Proof.
  intros Hslot Hfresh Hw1 Hw2 Hexec Hkill res.
  unfold Runner.runWithFirecracker. cbn [fst snd].
  destruct (Runner.vmCount r >=? Runner.maxVMs r) eqn:E; [lia|]. cbv zeta.
  unfold Runner.fc_try, Runner.fc_catch, Runner.fc_finally. open_steps. cbn [fst snd].
  rewrite Hw1, Hw2. reduce_steps. rewrite Hexec. reduce_steps.
  rewrite get_set_eq, Hkill. reduce_steps.
  destruct (fs_remove h (Runner.fc_codeFile r id));
    destruct (fs_remove h (Runner.fc_configFile r id));
    reduce_steps; split_on_socket; try destruct (fs_remove h (Runner.fc_socketPath id));
    reduce_steps; eexists; (split; [reflexivity|]); reduce_steps;
    (split; [apply get_set_eq|]); split; apply trim_again.
Qed.

(** When the code file cannot be written, [runWithFirecracker] answers
    with a failure that carries the message of the write, and has started
    nothing: no command was run, no process spawned, the registry and the
    cache are as before, and the slot is free again. *)
Theorem write_failure_spawns_nothing (h : Host) (code id codeHash msg : string)
    (r : Runner.t) (w : World) :
  Runner.vmCount r < Runner.maxVMs r ->
  JsMap.get (Runner.processes r) id = None ->
  fs_write h (Runner.fc_codeFile r id) = Some msg ->
  exists r' w',
    Runner.runWithFirecracker h code id codeHash (r, w)
      = (Returned (mkResult false "" msg (Some "firecracker") None None None None),
         (r', w')) /\
    trace w' = trace w /\ live w' = live w /\
    Runner.processes r' = Runner.processes r /\
    Runner.cache r' = Runner.cache r /\
    Runner.vmCount r' = Runner.vmCount r.
Proof.
  intros Hslot Hfresh Hw1.
  unfold Runner.runWithFirecracker. cbn [fst snd].
  destruct (Runner.vmCount r >=? Runner.maxVMs r) eqn:E; [lia|]. cbv zeta.
  unfold Runner.fc_try, Runner.fc_catch, Runner.fc_finally. open_steps. cbn [fst snd].
  rewrite Hw1. reduce_steps. rewrite Hfresh. reduce_steps.
  destruct (fs_remove h (Runner.fc_codeFile r id));
    destruct (fs_remove h (Runner.fc_configFile r id));
    reduce_steps; split_on_socket; try destruct (fs_remove h (Runner.fc_socketPath id));
    reduce_steps; eexists _, _; (split; [reflexivity|]); reduce_steps;
    repeat split; lia.
Qed.

(** A run that has not ended can be reached by [shutdown].  While
    [node file] runs, the call is open, its process is in the registry
    and alive, its two files exist and its slot is taken.  A [shutdown]
    then kills the process and empties the registry; the slot stays
    taken, since [shutdown] does not touch the counter. *)
Theorem shutdown_reaches_open_run (h h2 : Host) (code id codeHash : string)
    (r : Runner.t) (w : World) :
  Runner.vmCount r < Runner.maxVMs r ->
  JsMap.get (Runner.processes r) id = None ->
  fs_write h (Runner.fc_codeFile r id) = None ->
  fs_write h (Runner.fc_configFile r id) = None ->
  exec h (NodeFile (Runner.fc_codeFile r id)) = ExecPending ->
  proc_kill h2 id = None ->
  let s1 := snd (Runner.runWithFirecracker h code id codeHash (r, w)) in
  let s2 := snd (Runner.shutdown h2 s1) in
  fst (Runner.runWithFirecracker h code id codeHash (r, w)) = Pending /\
  (JsMap.get (Runner.processes (fst s1)) id = Some id /\ id ∈ live (snd s1) /\
   Runner.fc_codeFile r id ∈ files (snd s1) /\
   Runner.fc_configFile r id ∈ files (snd s1) /\
   Runner.vmCount (fst s1) = Runner.vmCount r + 1) /\
  ((id ∉ live (snd s2)) /\ Runner.processes (fst s2) = [] /\
   Runner.vmCount (fst s2) = Runner.vmCount r + 1).
Proof.
  intros Hslot Hfresh Hw1 Hw2 Hexec Hkill.
  assert (exists r1 w1,
            Runner.runWithFirecracker h code id codeHash (r, w) = (Pending, (r1, w1)) /\
            JsMap.get (Runner.processes r1) id = Some id /\ id ∈ live w1 /\
            Runner.fc_codeFile r id ∈ files w1 /\
            Runner.fc_configFile r id ∈ files w1 /\
            Runner.vmCount r1 = Runner.vmCount r + 1) as (r1 & w1 & Hrun & Hreg & H1).
  { unfold Runner.runWithFirecracker. cbn [fst snd].
    destruct (Runner.vmCount r >=? Runner.maxVMs r) eqn:E; [lia|]. cbv zeta.
    unfold Runner.fc_try, Runner.fc_catch, Runner.fc_finally. open_steps. cbn [fst snd].
    rewrite Hw1, Hw2. reduce_steps. rewrite Hexec. reduce_steps.
    eexists _, _. split; [reflexivity|]. reduce_steps.
    split; [apply get_set_eq|].
    destruct (socket_created h (Runner.fc_socketPath id)); repeat split; set_solver. }
  cbv zeta. rewrite Hrun. cbn [fst snd].
  split; [reflexivity|]. split; [exact (conj Hreg H1)|].
  assert (In (id, id) (Runner.processes r1)) as Hin.
  { clear -Hreg. induction (Runner.processes r1) as [|[k v] m IH]; [discriminate|].
    cbn in Hreg. destruct (String.eqb k id) eqn:E.
    - apply String.eqb_eq in E. inversion Hreg; subst. now left.
    - right. now apply IH. }
  destruct (shutdown_live h2 r1 w1 id id Hin Hkill) as (Hn & Hps & Hdead).
  destruct H1 as (_ & _ & _ & Hc).
  split; [exact Hdead|]. split; [exact Hps | now rewrite Hn].
Qed.

(** * The first runner *)

Section FirstRunner.
Variable h : Host.

(** What one call of the first runner's [runJavaScript] does to the
    counter and to the code file. *)
Lemma v1_run_post code id r w :
  exists c r' w',
    RunnerV1.runJavaScript h code id (r, w) = (c, (r', w')) /\
    RunnerV1.maxVMs r' = RunnerV1.maxVMs r /\
    RunnerV1.tempDir r' = RunnerV1.tempDir r /\
    (RunnerV1.vmCount r' = RunnerV1.vmCount r \/
     (RunnerV1.vmCount r < RunnerV1.maxVMs r /\
      RunnerV1.vmCount r' = RunnerV1.vmCount r + 1)) /\
    (forall e, c <> Thrown e) /\
    (RunnerV1.vmCount r < RunnerV1.maxVMs r ->
     fs_remove h (RunnerV1.codeFile_of r id) = None ->
     c <> Pending ->
     RunnerV1.vmCount r' = RunnerV1.vmCount r /\
     (RunnerV1.codeFile_of r id ∉ files w')).
Proof.
  unfold RunnerV1.runJavaScript. cbn [fst snd].
  destruct (RunnerV1.vmCount r >=? RunnerV1.maxVMs r) eqn:E.
  { exists (Returned RunnerV1.queue_full), r, w.
    split; [reflexivity|]. repeat split; try discriminate; lia. }
  cbv zeta. unfold RunnerV1.run_try, RunnerV1.run_catch, RunnerV1.run_finally.
  open_steps. cbn [fst snd].
  assert (RunnerV1.vmCount r < RunnerV1.maxVMs r) as Hslot by lia.
  destruct (fs_write h (RunnerV1.codeFile_of r id)) eqn:E1; reduce_steps;
    try (destruct (exec h (NodeFile (RunnerV1.codeFile_of r id))) eqn:E2; reduce_steps);
    destruct (fs_remove h (RunnerV1.codeFile_of r id)) eqn:E3; reduce_steps;
    eexists _, _, _; (split; [reflexivity|]);
    cbn [RunnerV1.maxVMs RunnerV1.tempDir RunnerV1.vmCount RunnerV1.set_vmCount files];
    (split; [reflexivity|]); (split; [reflexivity|]);
    (split; [first [left; lia | right; split; [exact Hslot | lia]]|]);
    (split; [intros e; discriminate|]);
    intros _ Hrm Hp; try discriminate; try congruence;
    (split; [lia | set_solver]).
Qed.

(** The other method of the first runner leaves the runner object as it
    was. *)
Lemma v1_simulated_frame code id r w :
  fst (snd (RunnerV1.runJavaScriptWithFirecracker h code id (r, w))) = r.
Proof.
  unfold RunnerV1.runJavaScriptWithFirecracker, RunnerV1.sim_try, RunnerV1.sim_catch.
  open_steps. cbn [fst snd].
  destruct (fs_write h (RunnerV1.codeFile_of r id)); reduce_steps;
    try (destruct (exec h (NodeFile (RunnerV1.codeFile_of r id))); reduce_steps);
    destruct (fs_remove h (RunnerV1.codeFile_of r id)); reduce_steps; reflexivity.
Qed.

End FirstRunner.

Lemma v1_perform_counter h c s :
  RunnerV1.maxVMs (fst (SessionV1.perform h c s)) = RunnerV1.maxVMs (fst s) /\
  (RunnerV1.vmCount (fst (SessionV1.perform h c s)) = RunnerV1.vmCount (fst s) \/
   (RunnerV1.vmCount (fst s) < RunnerV1.maxVMs (fst s) /\
    RunnerV1.vmCount (fst (SessionV1.perform h c s)) = RunnerV1.vmCount (fst s) + 1)).
Proof.
  destruct s as [r w]. destruct c as [code id | code id]; cbn [SessionV1.perform fst].
  - destruct (v1_run_post h code id r w) as (c & r' & w' & -> & HM & _ & Hn & _).
    cbn [fst snd]. split; [exact HM | exact Hn].
  - rewrite v1_simulated_frame. split; [reflexivity | now left].
Qed.

(** In the first runner a call gives its slot back when, and only when,
    the removal of its code file goes well: with a free slot, a removal
    that does not fail and an execution that ends, the call returns (it
    never rejects), the counter is where it was and the code file is
    gone. *)
Theorem v1_run_gives_slot_back (h : Host) (code id : string)
    (r : RunnerV1.t) (w : World) :
  RunnerV1.vmCount r < RunnerV1.maxVMs r ->
  fs_remove h (RunnerV1.codeFile_of r id) = None ->
  exec h (NodeFile (RunnerV1.codeFile_of r id)) <> ExecPending ->
  exists res r' w',
    RunnerV1.runJavaScript h code id (r, w) = (Returned res, (r', w')) /\
    RunnerV1.vmCount r' = RunnerV1.vmCount r /\
    (RunnerV1.codeFile_of r id ∉ files w').
Proof.
  intros Hslot Hrm Hexec.
  destruct (v1_run_post h code id r w) as (c & r' & w' & Hrun & _ & _ & _ & Hthrow & Hback).
  assert (c <> Pending) as Hp.
  { intros ->. revert Hrun. unfold RunnerV1.runJavaScript. cbn [fst snd].
    destruct (RunnerV1.vmCount r >=? RunnerV1.maxVMs r) eqn:E; [lia|]. cbv zeta.
    unfold RunnerV1.run_try, RunnerV1.run_catch, RunnerV1.run_finally.
    open_steps. cbn [fst snd]. rewrite Hrm.
    destruct (fs_write h (RunnerV1.codeFile_of r id)); reduce_steps; [discriminate|].
    destruct (exec h (NodeFile (RunnerV1.codeFile_of r id))); reduce_steps;
      try discriminate. congruence. }
  destruct c as [res|e|]; [|now destruct (Hthrow e)|congruence].
  exists res, r', w'. split; [exact Hrun|]. now apply Hback.
Qed.

(** Nothing but the [finally] block of the call that took a slot gives it
    back.  So once the pool of the first runner is full with no call
    under way, it stays full: after any further calls served one after
    the other, under any behaviour of the machine, the counter is where
    it was and [runJavaScript] still answers that the maximum is reached,
    and changes nothing. *)
Theorem v1_full_pool_stays_full (cs : list (Host * SessionV1.call))
    (s : RunnerV1.t * World) (h : Host) (code id : string) :
  RunnerV1.maxVMs (fst s) <= RunnerV1.vmCount (fst s) ->
  RunnerV1.vmCount (fst (SessionV1.perform_all cs s)) = RunnerV1.vmCount (fst s) /\
  RunnerV1.runJavaScript h code id (SessionV1.perform_all cs s)
    = (Returned RunnerV1.queue_full, SessionV1.perform_all cs s).
Proof.
  intros Hfull.
  assert (RunnerV1.vmCount (fst (SessionV1.perform_all cs s)) = RunnerV1.vmCount (fst s) /\
          RunnerV1.maxVMs (fst (SessionV1.perform_all cs s))
          = RunnerV1.maxVMs (fst s)) as [Hn HM].
  { revert s Hfull. induction cs as [|[h0 c] cs IH]; intros s Hfull; [now split|].
    cbn [SessionV1.perform_all].
    destruct (v1_perform_counter h0 c s) as (HM & Hstep).
    destruct (IH (SessionV1.perform h0 c s)) as [Hn' HM']; [lia|].
    split; [lia | congruence]. }
  split; [exact Hn|].
  unfold RunnerV1.runJavaScript.
  destruct (RunnerV1.vmCount _ >=? RunnerV1.maxVMs _) eqn:E; [reflexivity | lia].
Qed.

(** Served one after the other, the calls on the first runner never lower
    its counter and never take it past [maxVMs]: a slot that a failed
    removal has kept is never given back by a later call. *)
Theorem v1_counter_only_rises (cs : list (Host * SessionV1.call))
    (s : RunnerV1.t * World) :
  RunnerV1.vmCount (fst s) <= RunnerV1.maxVMs (fst s) ->
  RunnerV1.vmCount (fst s) <= RunnerV1.vmCount (fst (SessionV1.perform_all cs s))
    <= RunnerV1.maxVMs (fst s).
Proof.
  revert s. induction cs as [|[h0 c] cs IH]; intros s Hle; [cbn; lia|].
  cbn [SessionV1.perform_all].
  destruct (v1_perform_counter h0 c s) as (HM & Hstep).
  specialize (IH (SessionV1.perform h0 c s)). rewrite HM in IH. lia.
Qed.

(** [runJavaScriptWithFirecracker] of the first runner removes the code
    file in a [finally] block with nothing around it: when the removal
    rejects, the call rejects with that error, although the execution had
    come to its end and had a result; and the method takes no slot at any
    point, also on a runner whose pool is full. *)
Theorem v1_simulated_run_loses_result (h : Host) (code id msg : string)
    (r : RunnerV1.t) (w : World) :
  exec h (NodeFile (RunnerV1.codeFile_of r id)) <> ExecPending ->
  fs_remove h (RunnerV1.codeFile_of r id) = Some msg ->
  exists w',
    RunnerV1.runJavaScriptWithFirecracker h code id (r, w)
      = (Thrown (mkError true msg), (r, w')).
Proof.
  intros Hexec Hrm.
  unfold RunnerV1.runJavaScriptWithFirecracker, RunnerV1.sim_try, RunnerV1.sim_catch.
  open_steps. cbn [fst snd]. rewrite Hrm.
  destruct (fs_write h (RunnerV1.codeFile_of r id)); reduce_steps;
    [now eexists|].
  destruct (exec h (NodeFile (RunnerV1.codeFile_of r id))); reduce_steps;
    [now eexists | now eexists | congruence].
Qed.

(** * The rest of the handler *)

Section HandlerSteps.
Context {C : Type}.
Variable h : Host.
Variable run : string -> Async.t (C * World) result.

(** The handler on a source that its cache does not hold. *)
Lemma post_execute_miss src sv s :
  src <> "" ->
  JsMap.get (Index.outputCache sv) (MD5.digest_hex src) = None ->
  Index.post_execute h run (JsStr src) (sv, s)
  = let fc := Index.firecrackerAvailable sv in
    let '(c, s1) := if fc then run src s else Index.executeLocalJS h src s in
    match c with
    | Returned r0 =>
        let res := if fc then with_mode "firecracker" r0 else r0 in
        (Returned (Index.Json 200 (Index.ResultBody res)),
         (Index.mkServer (Index.store (MD5.digest_hex src) res (Index.outputCache sv)) fc, s1))
    | Thrown e => (Returned (Index.Json 500 (Index.ErrorBody (message e))), (sv, s1))
    | Pending => (Pending, (sv, s1))
    end.
Proof.
  intros Hsrc Hmiss. unfold Index.post_execute.
  replace (negb (Index.truthy (JsStr src))) with false
    by (symmetry; cbn; apply negb_false_iff, negb_true_iff, String.eqb_neq, Hsrc).
  unfold Index.cache_key, Index.lift, Index.on_server. open_steps. cbn [fst snd].
  rewrite Hmiss. reduce_steps. rewrite ?Hmiss. cbn [Index.source_of]. reduce_steps.
  destruct (Index.firecrackerAvailable sv) eqn:Hfc; cbn [Index.source_of fst snd].
  - destruct (run src s) as [[r0|e|] s1]; reduce_steps; rewrite ?Hfc; reflexivity.
  - destruct (Index.executeLocalJS h src s) as [[r0|e|] s1]; reduce_steps;
      rewrite ?Hfc; reflexivity.
Qed.

(** The handler on a source that its cache holds. *)
Lemma post_execute_hit src sv s cached :
  src <> "" ->
  JsMap.get (Index.outputCache sv) (MD5.digest_hex src) = Some cached ->
  Index.post_execute h run (JsStr src) (sv, s)
  = (Returned (Index.Json 200 (Index.ResultBody cached)), (sv, s)).
Proof.
  intros Hsrc Hhit. unfold Index.post_execute.
  replace (negb (Index.truthy (JsStr src))) with false
    by (symmetry; cbn; apply negb_false_iff, negb_true_iff, String.eqb_neq, Hsrc).
  unfold Index.cache_key. open_steps. cbn [fst snd]. now rewrite Hhit.
Qed.

End HandlerSteps.

Lemma truthy_string src : Index.truthy (JsStr src) = true <-> src <> "".
Proof.
  cbn. rewrite negb_true_iff. apply String.eqb_neq.
Qed.

(** The handler never lets an exception out, and its answers are of three
    kinds: status 400 with "No code provided" exactly for a [code] that
    is missing, empty or otherwise falsy; status 200 with a result, for a
    non-empty string only; status 500 with the message of what was
    thrown.  A request is left without an answer only while its source
    runs. *)
Theorem handler_answers_every_request (C : Type) (h : Host)
    (run : string -> Async.t (C * World) result)
    (code : js_value) (s : Index.Server * (C * World)) :
  match fst (Index.post_execute h run code s) with
  | Returned (Index.Json st body) =>
      (st = 400 /\ body = Index.ErrorBody "No code provided" /\ Index.truthy code = false) \/
      (st = 200 /\ (exists res, body = Index.ResultBody res) /\
       exists src, code = JsStr src /\ src <> "") \/
      (st = 500 /\ (exists msg, body = Index.ErrorBody msg) /\ Index.truthy code = true)
  | Thrown _ => False
  | Pending => exists src, code = JsStr src /\ src <> ""
  end.
Proof.
  destruct s as [sv s].
  destruct (Index.truthy code) eqn:Ht.
  2:{ unfold Index.post_execute. rewrite Ht. cbn. left. now repeat split. }
  destruct code as [| |b|n|src|];
    try (unfold Index.post_execute; rewrite Ht; cbn; right; right;
         repeat split; now eexists).
  apply truthy_string in Ht.
  destruct (JsMap.get (Index.outputCache sv) (MD5.digest_hex src)) as [cached|] eqn:Hget.
  - rewrite (post_execute_hit h run src sv s cached Ht Hget). cbn.
    right; left. split; [reflexivity|]. split; [now eexists | now exists src].
  - rewrite (post_execute_miss h run src sv s Ht Hget). cbv zeta.
    destruct (if Index.firecrackerAvailable sv then _ else _) as [[r0|e|] s1]; cbn.
    + right; left. split; [reflexivity|]. split; [now eexists | now exists src].
    + right; right. split; [reflexivity|]. split; [now eexists | reflexivity].
    + now exists src.
Qed.

Lemma post_execute_non_string (C : Type) (h : Host)
    (run : string -> Async.t (C * World) result)
    (code : js_value) (s : Index.Server * (C * World)) :
  Index.truthy code = true ->
  (forall src, code <> JsStr src) ->
  Index.post_execute h run code s
  = (Returned (Index.Json 500 (Index.ErrorBody (hash_type_error h code))), s).
Proof.
  intros Ht Hns. unfold Index.post_execute. rewrite Ht. cbn [negb].
  destruct code as [| |b|n|src|]; try discriminate; try reflexivity.
  now destruct (Hns src).
Qed.

(** A [code] that is truthy but no string (a number other than 0, [true],
    an object or an array) gets past the test for a missing source and
    fails in the digest: the answer is status 500 with the message of
    that [TypeError]; no backend is called and nothing changes. *)
Theorem non_string_code_is_500 (C : Type) (h : Host)
    (run : string -> Async.t (C * World) result)
    (code : js_value) (s : Index.Server * (C * World)) :
  Index.truthy code = true ->
  (forall src, code <> JsStr src) ->
  Index.post_execute h run code s
  = (Returned (Index.Json 500 (Index.ErrorBody (hash_type_error h code))), s).
Proof.
  intros Ht Hns. unfold Index.post_execute. rewrite Ht. cbn [negb].
  destruct code as [| |b|n|src|]; try discriminate; try reflexivity.
  now destruct (Hns src).
Qed.

(** Without Firecracker the handler runs the source itself, with no time
    limit: for a source that does not end, the request never gets an
    answer.  The runner is not called. *)
Theorem local_fallback_has_no_time_limit (C : Type) (h : Host)
    (run : string -> Async.t (C * World) result)
    (src : string) (sv : Index.Server) (c : C) (w : World) :
  src <> "" ->
  Index.firecrackerAvailable sv = false ->
  JsMap.get (Index.outputCache sv) (MD5.digest_hex src) = None ->
  vm_local h src = LocalPending ->
  Index.post_execute h run (JsStr src) (sv, (c, w))
  = (Pending, (sv, (c, log_event (EvLocal src) w))).
Proof.
  intros Hsrc Hfc Hmiss Hvm. rewrite (post_execute_miss h run src sv (c, w) Hsrc Hmiss).
  cbv zeta. rewrite Hfc. unfold Index.executeLocalJS. now rewrite Hvm.
Qed.

(** What the local fallback answers once the source has ended (the runner
    is not called).  A source that ran well: status 200, a success whose
    [error] is empty, which the handler stores every time.  A source that
    threw an object whose [message] is a text: status 200 as well, a
    failure with that message, and the cache stays as it was.  A source
    that threw [null] or [undefined]: the [catch] block of
    [executeLocalJS] throws on reading [message], and the handler answers
    status 500 with the text of that [TypeError]; the cache stays as it
    was. *)
Theorem local_run_answers (C : Type) (h : Host)
    (run : string -> Async.t (C * World) result)
    (src : string) (sv : Index.Server) (c : C) (w : World) :
  src <> "" ->
  Index.firecrackerAvailable sv = false ->
  JsMap.get (Index.outputCache sv) (MD5.digest_hex src) = None ->
  vm_local h src <> LocalPending ->
  exists resp sv',
    Index.post_execute h run (JsStr src) (sv, (c, w))
    = (Returned resp, (sv', (c, log_event (EvLocal src) w))) /\
    match vm_local h src with
    | LocalCompleted calls =>
        exists res,
          resp = Index.Json 200 (Index.ResultBody res) /\
          success res = true /\ error res = "" /\ mode res = Some "local" /\
          JsMap.get (Index.outputCache sv') (MD5.digest_hex src) = Some res
    | LocalThrew (ThrownObject e) =>
        resp = Index.Json 200 (Index.ResultBody
                 (mkResult false "" (message e) (Some "local") None None None None)) /\
        Index.outputCache sv' = Index.outputCache sv
    | LocalThrew (ThrownNullish type_error) =>
        resp = Index.Json 500 (Index.ErrorBody type_error) /\
        Index.outputCache sv' = Index.outputCache sv
    | LocalPending => False
    end.
Proof.
  intros Hsrc Hfc Hmiss Hvm. rewrite (post_execute_miss h run src sv (c, w) Hsrc Hmiss).
  cbv zeta. rewrite Hfc. unfold Index.executeLocalJS.
  destruct (vm_local h src) as [calls|[e|t]|] eqn:E; [| | |congruence]; cbn [fst snd].
  - eexists _, _. split; [reflexivity|]. eexists. split; [reflexivity|].
    cbn [success error mode Index.outputCache].
    do 3 (split; [reflexivity|]).
    apply store_get_clean; [exact Hmiss | now split].
  - eexists _, _. split; [reflexivity|]. split; reflexivity.
  - eexists _, _. split; [reflexivity|]. split; reflexivity.
Qed.

(** ** The handler's cache is a queue *)

Lemma store_fresh key res m :
  JsMap.get m key = None -> Index.clean res ->
  Index.store key res m
  = ((if (Index.cache_limit <=? length m)%nat then tl m else m) ++ [(key, res)])%list.
Proof.
  intros Hmiss Hc. unfold Index.store. apply clean_test in Hc. rewrite Hc.
  rewrite (set_fresh _ _ _ Hmiss). unfold JsMap.size. rewrite length_app. cbn [length].
  destruct (Index.cache_limit <=? length m)%nat eqn:Hle.
  - apply Nat.leb_le in Hle.
    replace (Index.cache_limit <? length m + 1)%nat with true
      by (symmetry; apply Nat.ltb_lt; lia).
    destruct m as [|[k0 v0] m]; [cbn in Hle; unfold Index.cache_limit in Hle; lia|].
    cbn [app JsMap.first_key JsMap.delete tl]. now rewrite String.eqb_refl.
  - apply Nat.leb_gt in Hle.
    replace (Index.cache_limit <? length m + 1)%nat with false
      by (symmetry; apply Nat.ltb_ge; lia).
    reflexivity.
Qed.

(** The handler's cache is a queue, and this is all a request does to
    it.  When the source was not in the cache and the answer is a clean
    success (success, empty [error]), the result is put at the tail under
    the digest of the source, and if the cache already held 100 entries
    its head, the entry stored first, is dropped.  In every other case (a
    hit, a failure, a result with error text, an answer with status 400
    or 500) the cache is left as it was, order included: being served
    again does not keep an entry from being the next to go. *)
Theorem handler_cache_is_a_queue (C : Type) (h : Host)
    (run : string -> Async.t (C * World) result)
    (code : js_value) (s s' : Index.Server * (C * World)) (resp : Index.response) :
  Index.post_execute h run code s = (Returned resp, s') ->
  let m := Index.outputCache (fst s) in
  Index.outputCache (fst s')
  = match code, Index.payload resp with
    | JsStr src, Index.ResultBody res =>
        if negb (JsMap.has m (MD5.digest_hex src))
           && (success res && String.eqb (error res) "")
        then ((if (Index.cache_limit <=? length m)%nat then tl m else m)
                ++ [(MD5.digest_hex src, res)])%list
        else m
    | _, _ => m
    end.
Proof.
  destruct s as [sv s]. intros Hpost. cbv zeta. cbn [fst].
  destruct (Index.truthy code) eqn:Ht.
  2:{ unfold Index.post_execute in Hpost. rewrite Ht in Hpost. cbn in Hpost.
      inversion Hpost; subst. cbn [Index.payload fst]. now destruct code. }
  destruct code as [| |b|n|src|];
    try (rewrite post_execute_non_string in Hpost; [|exact Ht|discriminate];
         inversion Hpost; subst; reflexivity).
  apply truthy_string in Ht. unfold JsMap.has.
  destruct (JsMap.get (Index.outputCache sv) (MD5.digest_hex src)) as [cached|] eqn:Hget.
  - rewrite (post_execute_hit h run src sv s cached Ht Hget) in Hpost.
    inversion Hpost; subst. reflexivity.
  - rewrite (post_execute_miss h run src sv s Ht Hget) in Hpost. cbv zeta in Hpost.
    destruct (if Index.firecrackerAvailable sv then _ else _) as [[r0|e|] s1];
      [| inversion Hpost; subst; reflexivity | discriminate].
    inversion Hpost; subst. cbn [fst Index.outputCache Index.payload negb andb].
    set (res := if Index.firecrackerAvailable sv then with_mode "firecracker" r0 else r0).
    destruct (success res && String.eqb (error res) "") eqn:Hc.
    + apply store_fresh; [exact Hget | now apply clean_test].
    + unfold Index.store. now rewrite Hc.
Qed.

(** * The handler and the runners together *)

(** A source that has run well is answered from the runner's cache the
    next time, with the same result, marked [fromCache]. *)
Lemma run_again h1 h2 code id1 id2 s res1 s1 :
  Runner.runJavaScript h1 code id1 s = (Returned res1, s1) ->
  success res1 = true ->
  Runner.runJavaScript h2 code id2 s1 = (Returned (with_fromCache res1), s1).
Proof.
  intros Hrun Hres.
  destruct (JsMap.get (Runner.cache (fst s)) (MD5.digest_hex code)) as [cached|] eqn:Hget.
  - unfold Runner.runJavaScript in *. rewrite Hget in *. inversion Hrun; subst.
    rewrite Hget. now destruct cached.
  - pose proof (run_success_cached h1 code id1 s res1 s1 Hget Hrun Hres) as Hc.
    unfold Runner.runJavaScript. now rewrite Hc.
Qed.

(** The two caches do not hold the same results.  A success that wrote
    to standard error is stored by the enhanced runner (it stores every
    success) but not by the handler (it stores clean successes only).
    The same source sent again is therefore not answered by the handler's
    cache; the handler calls the runner, whose cache answers: the second
    response carries the same output and error text, [fromCache] set,
    and no backend has run for it. *)
Theorem runner_cache_answers_what_handler_skips (h1 h2 : Host) (src id1 id2 : string)
    (sv : Index.Server) (s s1 : Runner.t * World) (res1 : result) :
  src <> "" ->
  Index.firecrackerAvailable sv = true ->
  JsMap.get (Index.outputCache sv) (MD5.digest_hex src) = None ->
  Runner.runJavaScript h1 src id1 s = (Returned res1, s1) ->
  success res1 = true ->
  error res1 <> "" ->
  Index.post_execute h1 (fun c => Runner.runJavaScript h1 c id1) (JsStr src) (sv, s)
  = (Returned (Index.Json 200 (Index.ResultBody (with_mode "firecracker" res1))),
     (sv, s1)) /\
  Index.post_execute h2 (fun c => Runner.runJavaScript h2 c id2) (JsStr src) (sv, s1)
  = (Returned (Index.Json 200
       (Index.ResultBody (with_mode "firecracker" (with_fromCache res1)))),
     (sv, s1)).
Proof.
  intros Hsrc Hfc Hmiss Hrun Hok Herr.
  assert (forall r0, error r0 = error res1 ->
            Index.store (MD5.digest_hex src) r0 (Index.outputCache sv)
            = Index.outputCache sv) as Hskip.
  { intros r0 He. unfold Index.store. rewrite He.
    replace (String.eqb (error res1) "") with false
      by (symmetry; now apply String.eqb_neq).
    now rewrite andb_false_r. }
  split.
  - rewrite (post_execute_miss h1 _ src sv s Hsrc Hmiss). cbv zeta.
    rewrite Hfc, Hrun, Hskip by reflexivity. now destruct sv; cbn in *; subst.
  - rewrite (post_execute_miss h2 _ src sv s1 Hsrc Hmiss). cbv zeta.
    rewrite Hfc, (run_again h1 h2 src id1 id2 s res1 s1 Hrun Hok), Hskip by reflexivity.
    now destruct sv; cbn in *; subst.
Qed.

(** With the first runner behind it, the handler answers "firecracker"
    for a source that ran under [node] on the machine itself: the runner
    marks its result "direct-execution", and the handler writes
    "firecracker" over it.  On the machine the request has run one
    command, [node] on the code file, and started no process. *)
Theorem direct_execution_is_labelled_firecracker (h : Host) (src id out err : string)
    (sv : Index.Server) (r : RunnerV1.t) (w : World) :
  src <> "" ->
  Index.firecrackerAvailable sv = true ->
  JsMap.get (Index.outputCache sv) (MD5.digest_hex src) = None ->
  RunnerV1.vmCount r < RunnerV1.maxVMs r ->
  fs_write h (RunnerV1.codeFile_of r id) = None ->
  exec h (NodeFile (RunnerV1.codeFile_of r id)) = ExecResolved out err ->
  exists sv' r' w',
    RunnerV1.runJavaScript h src id (r, w)
    = (Returned (mkResult true (JsString.trim out) (JsString.trim err)
                   (Some "direct-execution") None (Some id) None None), (r', w')) /\
    Index.post_execute h (fun c => RunnerV1.runJavaScript h c id) (JsStr src) (sv, (r, w))
    = (Returned (Index.Json 200 (Index.ResultBody
         (mkResult true (JsString.trim out) (JsString.trim err)
                   (Some "firecracker") None (Some id) None None))),
       (sv', (r', w'))) /\
    trace w' = (trace w ++ [EvExec (NodeFile (RunnerV1.codeFile_of r id))])%list /\
    live w' = live w.
Proof.
  intros Hsrc Hfc Hmiss Hslot Hw Hexec.
  assert (exists r' w',
            RunnerV1.runJavaScript h src id (r, w)
            = (Returned (mkResult true (JsString.trim out) (JsString.trim err)
                           (Some "direct-execution") None (Some id) None None), (r', w')) /\
            trace w' = (trace w ++ [EvExec (NodeFile (RunnerV1.codeFile_of r id))])%list /\
            live w' = live w) as (r' & w' & Hrun & Htrace & Hlive).
  { unfold RunnerV1.runJavaScript. cbn [fst snd].
    destruct (RunnerV1.vmCount r >=? RunnerV1.maxVMs r) eqn:E; [lia|]. cbv zeta.
    unfold RunnerV1.run_try, RunnerV1.run_catch, RunnerV1.run_finally.
    open_steps. cbn [fst snd]. rewrite Hw. reduce_steps. rewrite Hexec. reduce_steps.
    destruct (fs_remove h (RunnerV1.codeFile_of r id)); reduce_steps;
      eexists _, _; (split; [reflexivity|]); now split. }
  eexists _, r', w'. split; [exact Hrun|]. split; [|now split].
  rewrite (post_execute_miss h _ src sv (r, w) Hsrc Hmiss). cbv zeta.
  rewrite Hfc, Hrun. reflexivity.
Qed.

(** * The cache of the runner, emptied *)

(** [clearCache] empties the cache and touches nothing else; the next
    run of any source is a miss: its result is not marked [fromCache] and
    comes from the backend the flags choose. *)
Theorem clearCache_forgets (s : Runner.t * World) :
  let s0 := snd (Runner.clearCache s) in
  fst (Runner.clearCache s) = Returned tt /\
  Runner.cache (fst s0) = [] /\
  Runner.vmCount (fst s0) = Runner.vmCount (fst s) /\
  Runner.processes (fst s0) = Runner.processes (fst s) /\
  snd s0 = snd s /\
  forall h code id res s',
    Runner.runJavaScript h code id s0 = (Returned res, s') ->
    fromCache res = None /\ mode res = Some (chosen_backend (fst s)).
Proof.
  destruct s as [r w]. cbv zeta.
  change (Runner.clearCache (r, w)) with (Returned tt, (Runner.set_cache [] r, w)).
  cbn [fst snd]. do 5 (split; [reflexivity|]).
  intros h code id res s' Hrun.
  now apply (miss_answer h code id (Runner.set_cache [] r, w) s').
Qed.

(** ** The sandbox: what a failure says *)

(** What the sandbox answers when the script throws.  For a thrown value
    whose [message] is a text the call returns a failure without
    output: its [error] is the fixed text "Execution timed out" when the
    value is an instance of the runner's own [Error] and its message has
    "Script execution timed out" in it, and the message of the value
    otherwise (so for every error made in the context of the script).
    For [null] and [undefined] the [catch] block throws on reading
    [message]: the call rejects with that [TypeError] and no result comes
    back.  Either way the runner object stays as it was. *)
Theorem sandbox_failure_text (h : Host) (code id codeHash : string)
    (s : Runner.t * World) (v : js_thrown) :
  vm_sandbox h code (Runner.executionTimeout (fst s)) = VmThrew v ->
  match v with
  | ThrownObject e =>
      exists res,
        Runner.runWithVMSandbox h code id codeHash s
          = (Returned res, (fst s, log_event (EvSandbox code) (snd s))) /\
        success res = false /\ output res = "" /\
        (is_Error e = true ->
         (exists pre post, message e = pre +:+ "Script execution timed out" +:+ post) ->
         error res = "Execution timed out") /\
        (is_Error e = false \/
         (forall pre post, message e <> pre +:+ "Script execution timed out" +:+ post) ->
         error res = message e)
  | ThrownNullish type_error =>
      Runner.runWithVMSandbox h code id codeHash s
        = (Thrown (mkError true type_error), (fst s, log_event (EvSandbox code) (snd s)))
  end.
Proof.
  intros Hvm. unfold Runner.runWithVMSandbox, Runner.run_script, Runner.sandbox_catch.
  open_steps. cbn [fst snd]. rewrite Hvm. reduce_steps.
  destruct v as [e|t]; [|reflexivity].
  eexists. split; [reflexivity|]. cbn [success output error].
  split; [reflexivity|]. split; [reflexivity|]. split.
  - intros -> (pre & post & H).
    replace (JsString.includes "Script execution timed out" (message e)) with true;
      [reflexivity|].
    symmetry. apply includes_spec. now exists pre, post.
  - intros [-> | H]; [reflexivity|].
    replace (JsString.includes "Script execution timed out" (message e)) with false;
      [now rewrite andb_false_r|].
    symmetry. now apply includes_false.
Qed.

(** * The theorems at work on sample machines *)

Lemma backend_preference_witness :
  mode (mkResult true "" "" (Some "firecracker") None (Some "id-1") None None)
  = Some (chosen_backend (fst (Faulty.with_both, Sample.bare))).
Proof.
  apply (backend_preference Sample.calm "1" "id-1" (Faulty.with_both, Sample.bare)
           (snd (Runner.runJavaScript Sample.calm "1" "id-1" (Faulty.with_both, Sample.bare)))).
  - reflexivity.
  - vm_compute. reflexivity.
Defined.

Lemma fromCache_marks_hits_witness :
  (fromCache (with_fromCache
                (mkResult true "" "" (Some "vm-sandbox") None None None (Some "id-1")))
   = Some true <->
   JsMap.get (Runner.cache (fst Faulty.after_one_run)) (MD5.digest_hex "1") <> None) /\
  (fromCache (with_fromCache
                (mkResult true "" "" (Some "vm-sandbox") None None None (Some "id-1")))
   = Some true ->
   Faulty.after_one_run = Faulty.after_one_run).
Proof.
  apply (fromCache_marks_hits Sample.looping "1" "id-2").
  vm_compute. reflexivity.
Defined.

Lemma run_writes_one_cache_entry_witness :
  Runner.cache (fst Faulty.after_one_run)
  = if success (mkResult true "" "" (Some "vm-sandbox") None None None (Some "id-1"))
       && negb (bool_decide (is_Some (JsMap.get
                   (Runner.cache (fst (Runner.init "/srv", Sample.bare)))
                   (MD5.digest_hex "1"))))
    then JsMap.set (Runner.cache (fst (Runner.init "/srv", Sample.bare)))
           (MD5.digest_hex "1")
           (mkResult true "" "" (Some "vm-sandbox") None None None (Some "id-1"))
    else Runner.cache (fst (Runner.init "/srv", Sample.bare)).
Proof.
  apply (run_writes_one_cache_entry Sample.calm "1" "id-1").
  vm_compute. reflexivity.
Defined.

Lemma throwing_kill_loses_the_result_witness :
  exists r' w',
    Runner.runWithFirecracker Faulty.unkillable "1" "id-1" "k"
      (Runner.init "/srv", Sample.bare)
      = (Thrown (mkError true "kill EPERM"), (r', w')) /\
    Runner.vmCount r' = Runner.vmCount (Runner.init "/srv") + 1 /\
    JsMap.get (Runner.processes r') "id-1" = Some "id-1" /\
    Runner.fc_codeFile (Runner.init "/srv") "id-1" ∈ files w' /\
    Runner.fc_configFile (Runner.init "/srv") "id-1" ∈ files w' /\
    "id-1" ∈ live w'.
Proof.
  apply (throwing_kill_loses_the_result Faulty.unkillable "1" "id-1" "k" "kill EPERM"
           (Runner.init "/srv") Sample.bare);
    solve [reflexivity | cbn; lia | cbn; discriminate].
Defined.

Lemma console_decides_cleanliness_witness :
  exists res,
    fst (Runner.runWithVMSandbox Faulty.warning "1" "id-1" "k"
           (Runner.init "/srv", Sample.bare)) = Returned res /\
    success res = true /\
    output res = JsString.join newline
                   (Runner.sandbox_logs [(ConsoleLog, ["hello"]); (ConsoleWarn, ["careful"])]) /\
    (Forall (fun c => fst c = ConsoleLog)
            [(ConsoleLog, ["hello"]); (ConsoleWarn, ["careful"])] -> error res = "") /\
    (forall args, In (ConsoleWarn, args) [(ConsoleLog, ["hello"]); (ConsoleWarn, ["careful"])] ->
       error res <> "" /\ forall key m, Index.store key res m = m).
Proof.
  apply (console_decides_cleanliness Faulty.warning "1" "id-1" "k"
           (Runner.init "/srv", Sample.bare)).
  reflexivity.
Defined.

Lemma docker_failure_text_witness :
  exists res s',
    Runner.runWithDocker Faulty.docker_failing "1" "id-1" "k"
      (Runner.init "/srv", Sample.bare) = (Returned res, s') /\
    success res = false /\ output res = "" /\ mode res = Some "docker" /\
    ((exists pre post,
        "Command failed: docker run node:18-alpine timeout 5 node code.js"
          = pre +:+ "timeout" +:+ post \/
        "Command failed: docker run node:18-alpine timeout 5 node code.js"
          = pre +:+ "timed out" +:+ post) ->
     error res = "Execution timed out") /\
    ((forall pre post,
        "Command failed: docker run node:18-alpine timeout 5 node code.js"
          <> pre +:+ "timeout" +:+ post /\
        "Command failed: docker run node:18-alpine timeout 5 node code.js"
          <> pre +:+ "timed out" +:+ post) ->
     error res = "Command failed: docker run node:18-alpine timeout 5 node code.js").
Proof.
  apply (docker_failure_text Faulty.docker_failing "1" "id-1" "k"
           "Command failed: docker run node:18-alpine timeout 5 node code.js"
           (Runner.init "/srv") Sample.bare).
  - right. split; reflexivity.
  - cbn. discriminate.
Defined.

Lemma firecracker_success_result_witness :
  let res := mkResult true (JsString.trim "") (JsString.trim "deprecated")
                      (Some "firecracker") None (Some "id-1") None None in
  exists s',
    Runner.runWithFirecracker Sample.noisy "1" "id-1" "k" (Runner.init "/srv", Sample.bare)
      = (Returned res, s') /\
    JsMap.get (Runner.cache (fst s')) "k" = Some res /\
    JsString.trim (output res) = output res /\
    JsString.trim (error res) = error res.
Proof.
  apply (firecracker_success_result Sample.noisy "1" "id-1" "k" "" "deprecated"
           (Runner.init "/srv") Sample.bare);
    solve [reflexivity | cbn; lia].
Defined.

Lemma write_failure_spawns_nothing_witness :
  exists r' w',
    Runner.runWithFirecracker Faulty.read_only "1" "id-1" "k"
      (Runner.init "/srv", Sample.bare)
      = (Returned (mkResult false "" "EROFS: read-only file system" (Some "firecracker")
                     None None None None), (r', w')) /\
    trace w' = trace Sample.bare /\ live w' = live Sample.bare /\
    Runner.processes r' = Runner.processes (Runner.init "/srv") /\
    Runner.cache r' = Runner.cache (Runner.init "/srv") /\
    Runner.vmCount r' = Runner.vmCount (Runner.init "/srv").
Proof.
  apply (write_failure_spawns_nothing Faulty.read_only "1" "id-1" "k"
           "EROFS: read-only file system" (Runner.init "/srv") Sample.bare);
    solve [reflexivity | cbn; lia].
Defined.

Lemma shutdown_reaches_open_run_witness :
  let s1 := snd (Runner.runWithFirecracker Sample.looping "for(;;){}" "id-1" "k"
                   (Runner.init "/srv", Sample.bare)) in
  let s2 := snd (Runner.shutdown Sample.calm s1) in
  fst (Runner.runWithFirecracker Sample.looping "for(;;){}" "id-1" "k"
         (Runner.init "/srv", Sample.bare)) = Pending /\
  (JsMap.get (Runner.processes (fst s1)) "id-1" = Some "id-1" /\ "id-1" ∈ live (snd s1) /\
   Runner.fc_codeFile (Runner.init "/srv") "id-1" ∈ files (snd s1) /\
   Runner.fc_configFile (Runner.init "/srv") "id-1" ∈ files (snd s1) /\
   Runner.vmCount (fst s1) = Runner.vmCount (Runner.init "/srv") + 1) /\
  (("id-1" ∉ live (snd s2)) /\ Runner.processes (fst s2) = [] /\
   Runner.vmCount (fst s2) = Runner.vmCount (Runner.init "/srv") + 1).
Proof.
  apply (shutdown_reaches_open_run Sample.looping Sample.calm "for(;;){}" "id-1" "k"
           (Runner.init "/srv") Sample.bare);
    solve [reflexivity | cbn; lia].
Defined.

Lemma v1_run_gives_slot_back_witness :
  exists res r' w',
    RunnerV1.runJavaScript Sample.calm "1" "id-1" (RunnerV1.init "/srv", Sample.bare)
      = (Returned res, (r', w')) /\
    RunnerV1.vmCount r' = RunnerV1.vmCount (RunnerV1.init "/srv") /\
    (RunnerV1.codeFile_of (RunnerV1.init "/srv") "id-1" ∉ files w').
Proof.
  apply (v1_run_gives_slot_back Sample.calm "1" "id-1" (RunnerV1.init "/srv") Sample.bare);
    solve [reflexivity | cbn; lia | cbn; discriminate].
Defined.

Lemma v1_full_pool_stays_full_witness :
  RunnerV1.vmCount
    (fst (SessionV1.perform_all
            [(Sample.calm, SessionV1.Run "4" "id-4");
             (Sample.calm, SessionV1.RunSimulated "5" "id-5")] Faulty.v1_starved))
  = RunnerV1.vmCount (fst Faulty.v1_starved) /\
  RunnerV1.runJavaScript Sample.calm "6" "id-6"
    (SessionV1.perform_all
       [(Sample.calm, SessionV1.Run "4" "id-4");
        (Sample.calm, SessionV1.RunSimulated "5" "id-5")] Faulty.v1_starved)
  = (Returned RunnerV1.queue_full,
     SessionV1.perform_all
       [(Sample.calm, SessionV1.Run "4" "id-4");
        (Sample.calm, SessionV1.RunSimulated "5" "id-5")] Faulty.v1_starved).
Proof.
  apply (v1_full_pool_stays_full
           [(Sample.calm, SessionV1.Run "4" "id-4");
            (Sample.calm, SessionV1.RunSimulated "5" "id-5")]
           Faulty.v1_starved Sample.calm "6" "id-6").
  vm_compute. discriminate.
Defined.

Lemma v1_counter_only_rises_witness :
  RunnerV1.vmCount (fst (RunnerV1.init "/srv", Sample.bare))
  <= RunnerV1.vmCount
       (fst (SessionV1.perform_all
               [(Sample.stuck_files, SessionV1.Run "1" "id-1");
                (Sample.calm, SessionV1.Run "2" "id-2")]
               (RunnerV1.init "/srv", Sample.bare)))
  <= RunnerV1.maxVMs (fst (RunnerV1.init "/srv", Sample.bare)).
Proof.
  apply (v1_counter_only_rises
           [(Sample.stuck_files, SessionV1.Run "1" "id-1");
            (Sample.calm, SessionV1.Run "2" "id-2")]
           (RunnerV1.init "/srv", Sample.bare)).
  cbn. lia.
Defined.

Lemma v1_simulated_run_loses_result_witness :
  exists w',
    RunnerV1.runJavaScriptWithFirecracker Sample.stuck_files "1" "id-1"
      (RunnerV1.init "/srv", Sample.bare)
    = (Thrown (mkError true "EBUSY: resource busy or locked"),
       (RunnerV1.init "/srv", w')).
Proof.
  apply (v1_simulated_run_loses_result Sample.stuck_files "1" "id-1"
           "EBUSY: resource busy or locked" (RunnerV1.init "/srv") Sample.bare).
  - cbn. discriminate.
  - reflexivity.
Defined.

Lemma non_string_code_is_500_witness :
  Index.post_execute Sample.calm (Sample.calm_runner "id-1") (JsNumber 5) (Sample.start true)
  = (Returned (Index.Json 500
       (Index.ErrorBody (hash_type_error Sample.calm (JsNumber 5)))), Sample.start true).
Proof.
  apply (non_string_code_is_500 _ Sample.calm (Sample.calm_runner "id-1") (JsNumber 5)
           (Sample.start true)).
  - reflexivity.
  - discriminate.
Defined.

Lemma local_fallback_has_no_time_limit_witness :
  Index.post_execute Sample.looping (Sample.calm_runner "id-1") (JsStr "for(;;){}")
    (Index.fresh false, (Runner.init "/srv", Sample.bare))
  = (Pending, (Index.fresh false,
               (Runner.init "/srv", log_event (EvLocal "for(;;){}") Sample.bare))).
Proof.
  apply (local_fallback_has_no_time_limit _ Sample.looping (Sample.calm_runner "id-1")
           "for(;;){}" (Index.fresh false) (Runner.init "/srv") Sample.bare);
    solve [reflexivity | discriminate].
Defined.

Lemma local_run_answers_witness :
  exists resp sv',
    Index.post_execute Faulty.throwing_null (Sample.calm_runner "id-1") (JsStr "throw null")
      (Index.fresh false, (Runner.init "/srv", Sample.bare))
    = (Returned resp, (sv', (Runner.init "/srv", log_event (EvLocal "throw null") Sample.bare))) /\
    match vm_local Faulty.throwing_null "throw null" with
    | LocalCompleted calls =>
        exists res,
          resp = Index.Json 200 (Index.ResultBody res) /\
          success res = true /\ error res = "" /\ mode res = Some "local" /\
          JsMap.get (Index.outputCache sv') (MD5.digest_hex "throw null") = Some res
    | LocalThrew (ThrownObject e) =>
        resp = Index.Json 200 (Index.ResultBody
                 (mkResult false "" (message e) (Some "local") None None None None)) /\
        Index.outputCache sv' = Index.outputCache (Index.fresh false)
    | LocalThrew (ThrownNullish type_error) =>
        resp = Index.Json 500 (Index.ErrorBody type_error) /\
        Index.outputCache sv' = Index.outputCache (Index.fresh false)
    | LocalPending => False
    end.
Proof.
  apply (local_run_answers _ Faulty.throwing_null (Sample.calm_runner "id-1") "throw null"
           (Index.fresh false) (Runner.init "/srv") Sample.bare);
    solve [reflexivity | discriminate | cbn; discriminate].
Defined.

Lemma handler_cache_is_a_queue_witness :
  Index.outputCache
    (fst (snd (Index.post_execute Sample.calm (Sample.calm_runner "id-1") (JsStr "1")
                 (Sample.start false))))
  = match JsStr "1",
          Index.payload (Index.Json 200 (Index.ResultBody
                           (mkResult true "" "" (Some "local") None None None None))) with
    | JsStr src, Index.ResultBody res =>
        if negb (JsMap.has (Index.outputCache (fst (Sample.start false)))
                   (MD5.digest_hex src))
           && (success res && String.eqb (error res) "")
        then ((if (Index.cache_limit
                   <=? length (Index.outputCache (fst (Sample.start false))))%nat
               then tl (Index.outputCache (fst (Sample.start false)))
               else Index.outputCache (fst (Sample.start false)))
                ++ [(MD5.digest_hex src, res)])%list
        else Index.outputCache (fst (Sample.start false))
    | _, _ => Index.outputCache (fst (Sample.start false))
    end.
Proof.
  apply (handler_cache_is_a_queue _ Sample.calm (Sample.calm_runner "id-1") (JsStr "1")
           (Sample.start false)
           (snd (Index.post_execute Sample.calm (Sample.calm_runner "id-1") (JsStr "1")
                   (Sample.start false)))
           (Index.Json 200 (Index.ResultBody
              (mkResult true "" "" (Some "local") None None None None)))).
  vm_compute. reflexivity.
Defined.

Lemma runner_cache_answers_what_handler_skips_witness :
  let res1 := mkResult true "" "deprecated" (Some "firecracker") None (Some "id-1") None None in
  let s := (Sample.with_firecracker, Sample.bare) in
  let s1 := snd (Runner.runJavaScript Sample.noisy "1" "id-1" s) in
  Index.post_execute Sample.noisy (fun c => Runner.runJavaScript Sample.noisy c "id-1")
    (JsStr "1") (Index.fresh true, s)
  = (Returned (Index.Json 200 (Index.ResultBody (with_mode "firecracker" res1))),
     (Index.fresh true, s1)) /\
  Index.post_execute Sample.looping (fun c => Runner.runJavaScript Sample.looping c "id-2")
    (JsStr "1") (Index.fresh true, s1)
  = (Returned (Index.Json 200
       (Index.ResultBody (with_mode "firecracker" (with_fromCache res1)))),
     (Index.fresh true, s1)).
Proof.
  apply (runner_cache_answers_what_handler_skips Sample.noisy Sample.looping "1" "id-1" "id-2"
           (Index.fresh true) (Sample.with_firecracker, Sample.bare)).
  - discriminate.
  - reflexivity.
  - reflexivity.
  - vm_compute. reflexivity.
  - reflexivity.
  - discriminate.
Defined.

Lemma direct_execution_is_labelled_firecracker_witness :
  exists sv' r' w',
    RunnerV1.runJavaScript Sample.calm "1" "id-1" (RunnerV1.init "/srv", Sample.bare)
    = (Returned (mkResult true (JsString.trim "") (JsString.trim "")
                   (Some "direct-execution") None (Some "id-1") None None), (r', w')) /\
    Index.post_execute Sample.calm (fun c => RunnerV1.runJavaScript Sample.calm c "id-1")
      (JsStr "1") (Index.fresh true, (RunnerV1.init "/srv", Sample.bare))
    = (Returned (Index.Json 200 (Index.ResultBody
         (mkResult true (JsString.trim "") (JsString.trim "")
                   (Some "firecracker") None (Some "id-1") None None))),
       (sv', (r', w'))) /\
    trace w' = (trace Sample.bare
                ++ [EvExec (NodeFile (RunnerV1.codeFile_of (RunnerV1.init "/srv") "id-1"))])%list /\
    live w' = live Sample.bare.
Proof.
  apply (direct_execution_is_labelled_firecracker Sample.calm "1" "id-1" "" ""
           (Index.fresh true) (RunnerV1.init "/srv") Sample.bare);
    solve [reflexivity | discriminate | cbn; lia].
Defined.

Lemma sandbox_failure_text_witness :
  Runner.runWithVMSandbox Faulty.throwing_null "throw null" "id-1" "k"
    (Runner.init "/srv", Sample.bare)
  = (Thrown (mkError true "Cannot read properties of null (reading 'message')"),
     (fst (Runner.init "/srv", Sample.bare),
      log_event (EvSandbox "throw null") (snd (Runner.init "/srv", Sample.bare)))).
Proof.
  apply (sandbox_failure_text Faulty.throwing_null "throw null" "id-1" "k"
           (Runner.init "/srv", Sample.bare)
           (ThrownNullish "Cannot read properties of null (reading 'message')")).
  reflexivity.
Defined.

(** ** The handler's own probe *)

(** The handler never calls the runner while [firecrackerAvailable] is
    not set. *)
Lemma local_requests_leave_the_runner {C : Type} (h : Host)
    (run : string -> Async.t (C * World) result) (code : js_value)
    (sv : Index.Server) (c : C) (w : World) :
  Index.firecrackerAvailable sv = false ->
  fst (snd (snd (Index.post_execute h run code (sv, (c, w))))) = c.
Proof.
  intros Hfc.
  destruct (Index.truthy code) eqn:Ht.
  2:{ unfold Index.post_execute. now rewrite Ht. }
  destruct code as [| |b|n|src|];
    try (rewrite post_execute_non_string; [reflexivity | exact Ht | discriminate]).
  apply truthy_string in Ht.
  destruct (JsMap.get (Index.outputCache sv) (MD5.digest_hex src)) as [cached|] eqn:Hget.
  - now rewrite (post_execute_hit h run src sv (c, w) cached Ht Hget).
  - rewrite (post_execute_miss h run src sv (c, w) Ht Hget). cbv zeta. rewrite Hfc.
    unfold Index.executeLocalJS.
    now destruct (vm_local h src) as [calls|[e|t]|].
Qed.

(** [checkFirecracker] sets [firecrackerAvailable] to what
    [which firecracker] says, to [false] as well as to [true], and leaves
    the cache alone.  When it has set [false], no request reaches the
    runner, whatever the request holds: the runner object stays as it
    is. *)
Theorem handler_probe_sets_the_flag (C : Type) (h : Host)
    (sv : Index.Server) (c : C) (w : World) :
  exec h WhichFirecracker <> ExecPending ->
  let s1 := snd (Index.checkFirecracker h (sv, (c, w))) in
  fst (Index.checkFirecracker h (sv, (c, w))) = Returned tt /\
  Index.firecrackerAvailable (fst s1) = resolves (exec h WhichFirecracker) /\
  Index.outputCache (fst s1) = Index.outputCache sv /\
  fst (snd s1) = c /\
  (resolves (exec h WhichFirecracker) = false ->
   forall h' (run : string -> Async.t (C * World) result) code,
     fst (snd (snd (Index.post_execute h' run code s1))) = c).
Proof.
  intros Hp. cbv zeta. unfold Index.checkFirecracker, Index.lift, Index.on_server.
  open_steps. cbn [fst snd].
  destruct (exec h WhichFirecracker) eqn:E; [| |congruence]; reduce_steps;
    cbn [resolves Index.firecrackerAvailable Index.outputCache];
    (split; [reflexivity|]); (split; [reflexivity|]); (split; [reflexivity|]);
    (split; [reflexivity|]); intros Hr; [discriminate|].
  intros h' run code. now apply local_requests_leave_the_runner.
Qed.

Lemma handler_probe_sets_the_flag_witness :
  let s1 := snd (Index.checkFirecracker Sample.plain (Sample.start true)) in
  fst (Index.checkFirecracker Sample.plain (Sample.start true)) = Returned tt /\
  Index.firecrackerAvailable (fst s1) = resolves (exec Sample.plain WhichFirecracker) /\
  Index.outputCache (fst s1) = Index.outputCache (Index.fresh true) /\
  fst (snd s1) = Runner.init "/srv" /\
  (resolves (exec Sample.plain WhichFirecracker) = false ->
   forall h' (run : string -> Async.t (Runner.t * World) result) code,
     fst (snd (snd (Index.post_execute h' run code s1))) = Runner.init "/srv").
Proof.
  apply (handler_probe_sets_the_flag _ Sample.plain (Index.fresh true)
           (Runner.init "/srv") Sample.bare).
  cbn. discriminate.
Defined.

(** * What a run leaves alone *)

Section Frame.
Variable h : Host.
Variable p : string.
Variable F : gset string.
Variable vm : string.
Variable L : gset string.

Lemma keeps_ab_on_runner (f : Runner.t -> Runner.t) :
  keeps (as_before p F vm L) (Runner.on_runner f).
Proof. intros [r w] H. exact H. Qed.

Lemma keeps_ab_write q : q <> p -> keeps (as_before p F vm L) (@fs_writeFile Runner.t h q).
Proof.
  intros Hq [r w] [Hf Hl]. unfold fs_writeFile.
  destruct (fs_write h q); [now split|]. split; [|exact Hl].
  cbn. rewrite <- Hf. set_solver.
Qed.

Lemma keeps_ab_remove q : q <> p -> keeps (as_before p F vm L) (@fs_removeP Runner.t h q).
Proof.
  intros Hq [r w] [Hf Hl]. unfold fs_removeP.
  destruct (fs_remove h q); [now split|]. split; [|exact Hl].
  cbn. rewrite <- Hf. set_solver.
Qed.

Lemma keeps_ab_unlink q : q <> p -> keeps (as_before p F vm L) (@fs_unlink Runner.t h q).
Proof.
  intros Hq s H. unfold fs_unlink. destruct (decide (q ∈ files (snd s))).
  - now apply keeps_ab_remove.
  - exact H.
Qed.

Lemma keeps_ab_exec c : keeps (as_before p F vm L) (@execPromise Runner.t h c).
Proof. intros [r w] H. unfold execPromise. destruct (exec h c); exact H. Qed.

Lemma keeps_ab_spawn id sock :
  id <> vm -> sock <> p ->
  keeps (as_before p F vm L) (@spawn_firecracker Runner.t h id sock).
Proof.
  intros Hid Hsock [r w] [Hf Hl]. unfold spawn_firecracker. cbn. split.
  - rewrite <- Hf. destruct (socket_created h sock); set_solver.
  - rewrite <- Hl. set_solver.
Qed.

Lemma keeps_ab_kill id : id <> vm -> keeps (as_before p F vm L) (@kill Runner.t h id).
Proof.
  intros Hid [r w] [Hf Hl]. unfold kill.
  destruct (proc_kill h id); [now split|]. split; [exact Hf|].
  cbn. rewrite <- Hl. set_solver.
Qed.

Lemma keeps_ab_run_script code : keeps (as_before p F vm L) (Runner.run_script h code).
Proof. intros [r w] H. unfold Runner.run_script. destruct (vm_sandbox h code _); exact H. Qed.

Ltac keeps_frame :=
  repeat (first [ apply keeps_bind; [|intros ?]
                | apply keeps_try_catch; [|intros ?]
                | apply keeps_swallow
                | apply keeps_ret
                | apply keeps_gets
                | apply keeps_ab_on_runner
                | apply keeps_ab_exec
                | apply keeps_ab_write; assumption
                | apply keeps_ab_remove; assumption
                | apply keeps_ab_unlink; assumption
                | apply keeps_ab_spawn; assumption
                | apply keeps_ab_kill; assumption ]).

Lemma fc_body_frame code id codeHash codeFile configFile socketPath :
  codeFile <> p -> configFile <> p -> socketPath <> p -> id <> vm ->
  keeps (as_before p F vm L)
    (Async.try_catch (Runner.fc_try h code id codeHash codeFile configFile socketPath)
                     Runner.fc_catch).
Proof.
  intros H1 H2 H3 H4. unfold Runner.fc_try, Runner.fc_catch. keeps_frame.
Qed.

Lemma fc_body_own code id codeHash codeFile configFile socketPath :
  keeps (own_process id)
    (Async.try_catch (Runner.fc_try h code id codeHash codeFile configFile socketPath)
                     Runner.fc_catch).
Proof.
  assert (runner_only (own_process id)) as Hro by (intros r w w' H; exact H).
  unfold Runner.fc_try, Runner.fc_catch.
  repeat (first [ apply keeps_bind; [|intros ?]
                | apply keeps_try_catch; [|intros ?]
                | apply keeps_ret
                | solve [auto with keeps]
                | apply keeps_modify; intros [r w] H; unfold own_process in *; cbn in *;
                  first [exact H | right; apply get_set_eq] ]).
Qed.

Lemma fc_finally_frame id codeFile configFile socketPath s :
  codeFile <> p -> configFile <> p -> socketPath <> p -> id <> vm ->
  own_process id s ->
  as_before p F vm L s ->
  as_before p F vm L (snd (Runner.fc_finally h id codeFile configFile socketPath s)).
Proof.
  intros H1 H2 H3 H4 Hown Hs.
  assert (forall tracked : option string,
            tracked = None \/ tracked = Some id ->
            keeps (as_before p F vm L)
              (match tracked with
               | Some child =>
                   kill h child ;;
                   Runner.on_runner
                     (fun r => Runner.set_processes (JsMap.delete (Runner.processes r) id) r)
               | None => Async.ret tt
               end ;;
               Async.swallow (fs_removeP h codeFile) ;;
               Async.swallow (fs_removeP h configFile) ;;
               Async.try_catch (Async.swallow (fs_unlink h socketPath))
                               (fun _ => Async.ret tt) ;;
               Runner.on_runner (fun r => Runner.set_vmCount (Runner.vmCount r - 1) r)))
    as Hrest.
  { intros tracked [-> | ->]; keeps_frame. }
  unfold Runner.fc_finally. unfold Async.bind at 1. unfold Async.gets.
  apply Hrest; [exact Hown | exact Hs].
Qed.

Lemma firecracker_frame code id codeHash s :
  Runner.fc_codeFile (fst s) id <> p -> Runner.fc_configFile (fst s) id <> p ->
  Runner.fc_socketPath id <> p -> id <> vm ->
  own_process id s ->
  as_before p F vm L s ->
  as_before p F vm L (snd (Runner.runWithFirecracker h code id codeHash s)).
Proof.
  intros H1 H2 H3 H4 Hown Hs. unfold Runner.runWithFirecracker.
  destruct (Runner.vmCount (fst s) >=? Runner.maxVMs (fst s)); [exact Hs|]. cbv zeta.
  pose proof (fc_body_frame code id codeHash _ _ _ H1 H2 H3 H4 s Hs) as Hb.
  pose proof (fc_body_own code id codeHash (Runner.fc_codeFile (fst s) id)
                (Runner.fc_configFile (fst s) id) (Runner.fc_socketPath id) s Hown) as Ho.
  unfold Async.try_finally.
  destruct (Async.try_catch _ _ s) as [c s1]. cbn [snd] in Hb, Ho.
  pose proof (fc_finally_frame id _ _ _ s1 H1 H2 H3 H4 Ho Hb) as Hfin.
  destruct c; [| |exact Hb];
    destruct (Runner.fc_finally h id _ _ _ s1) as [[[]|e'|] s2]; exact Hfin.
Qed.

Lemma docker_frame code id codeHash s :
  Runner.fc_codeFile (fst s) id <> p ->
  as_before p F vm L s ->
  as_before p F vm L (snd (Runner.runWithDocker h code id codeHash s)).
Proof.
  intros H1 Hs. unfold Runner.runWithDocker. cbv zeta.
  apply (keeps_try_finally (as_before p F vm L)); [| |exact Hs].
  - unfold Runner.docker_try, Runner.docker_catch. keeps_frame.
  - unfold Runner.docker_finally. keeps_frame.
Qed.

Lemma sandbox_frame code id codeHash :
  keeps (as_before p F vm L) (Runner.runWithVMSandbox h code id codeHash).
Proof.
  unfold Runner.runWithVMSandbox.
  apply keeps_bind; [apply keeps_ab_run_script | intros [calls|v]].
  - unfold Runner.sandbox_try. keeps_frame.
  - unfold Runner.sandbox_catch. destruct v; [apply keeps_ret | apply keeps_throw].
Qed.

End Frame.

(** The runner's own steps touch nothing but what belongs to the call:
    however the call ends (with a result, with an exception, or not at
    all), the writes, removals, spawn and [kill()] of the runner leave
    every file other than the code file, the config file and the socket
    of this id, and every process other than the one of this id, as they
    were.  (The id is a fresh one: the registry holds nothing under it.
    What the command or the source does on the machine while it runs is
    not part of this: the machine here records the runner's calls
    only.) *)
Theorem run_touches_only_its_own (h : Host) (code id : string)
    (s : Runner.t * World) (p vm : string) :
  JsMap.get (Runner.processes (fst s)) id = None ->
  p <> Runner.fc_codeFile (fst s) id ->
  p <> Runner.fc_configFile (fst s) id ->
  p <> Runner.fc_socketPath id ->
  vm <> id ->
  (p ∈ files (snd (snd (Runner.runJavaScript h code id s))) <-> p ∈ files (snd s)) /\
  (vm ∈ live (snd (snd (Runner.runJavaScript h code id s))) <-> vm ∈ live (snd s)).
Proof.
  intros Hfresh H1 H2 H3 H4.
  assert (as_before p (files (snd s)) vm (live (snd s)) s) as Hs by (now split).
  change (as_before p (files (snd s)) vm (live (snd s))
            (snd (Runner.runJavaScript h code id s))).
  unfold Runner.runJavaScript.
  destruct (JsMap.get (Runner.cache (fst s)) (MD5.digest_hex code)); [exact Hs|].
  destruct (Runner.useFirecracker (fst s)); [|destruct (Runner.useDocker (fst s))].
  - apply firecracker_frame;
      [congruence | congruence | congruence | congruence | now left | exact Hs].
  - apply docker_frame; [congruence | exact Hs].
  - now apply sandbox_frame.
Qed.

Lemma run_touches_only_its_own_witness :
  ("/srv/temp/id-1.js" ∈ files (snd (snd (Runner.runJavaScript Sample.stuck_files "2" "id-2"
                                             Sample.before_shutdown)))
   <-> "/srv/temp/id-1.js" ∈ files (snd Sample.before_shutdown)) /\
  ("id-1" ∈ live (snd (snd (Runner.runJavaScript Sample.stuck_files "2" "id-2"
                              Sample.before_shutdown)))
   <-> "id-1" ∈ live (snd Sample.before_shutdown)).
Proof.
  apply (run_touches_only_its_own Sample.stuck_files "2" "id-2" Sample.before_shutdown
           "/srv/temp/id-1.js" "id-1").
  - vm_compute. reflexivity.
  - vm_compute. discriminate.
  - vm_compute. discriminate.
  - vm_compute. discriminate.
  - discriminate.
Defined.
